(** * OmniSharp launcher: launch-target discovery and process launch

    A shallow embedding of [src/omnisharp/launcher.ts] and proofs about it.

    JavaScript strings are modelled as [string] (sequences of code units
    below 256); arrays as [list]; the [Map<number, Uri[]>] that groups
    resources by workspace folder as an association list in insertion
    order, because [Map.prototype.forEach] visits entries in that order.
    A thrown exception or rejected promise is the [inl] of a [Result].

    What the classifier takes from Node and from the editor API
    ([path.dirname], [path.basename], [asRelativePath],
    [getWorkspaceFolder], [String.prototype.localeCompare]) is a field of
    the class [Host]; what the launcher takes from them (the configuration
    and whether [spawn] throws) is a field of the class [Runtime].  A child
    process is known by the call of [spawn] that made it; what it emits is
    the report of [spawn], ['spawn'] or ['error'], and the events after it.
    The order in which Node runs the callbacks of [process.nextTick] and
    the promise jobs decides whether the report reaches the listeners of
    [launchOmniSharp]: a caller runs in a [Turn]. *)

From Stdlib Require Import List String Ascii ZArith Bool Arith Lia.
From Stdlib Require Import Sorted Permutation DecimalString.
Import ListNotations.

Local Open Scope string_scope.
Local Open Scope list_scope.

(** ** JavaScript strings *)

Module JsString.

Definition dquote : ascii := "034"%char.
Definition space : ascii := " "%char.
Definition ampersand : ascii := "&"%char.

(** [`"${s}"`]: the template literal that wraps [s] in double quotes. *)
Definition quoted (s : string) : string :=
  String dquote (s ++ String dquote EmptyString)%string.

(** [s.endsWith(suffix)], case-sensitive: [suffix] is [s] or the end of
    what follows the first character of [s]. *)
Fixpoint endsWith (s suffix : string) : bool :=
  String.eqb s suffix ||
  match s with
  | EmptyString => false
  | String _ s' => endsWith s' suffix
  end.

Fixpoint drop (n : nat) (s : string) : string :=
  match n, s with
  | O, _ => s
  | S _, EmptyString => EmptyString
  | S n', String _ s' => drop n' s'
  end.

(** [s.replace(pat, rep)] with a string pattern: only the first occurrence
    of [pat] is replaced.  ([rep] is taken literally; the replacement used
    by the source holds no [$].) *)
Fixpoint replace (pat rep s : string) : string :=
  if prefix pat s then (rep ++ drop (String.length pat) s)%string
  else match s with
       | EmptyString => EmptyString
       | String c s' => String c (replace pat rep s')
       end.

(** Replacement of every occurrence of the one-character pattern [c]:
    what [s.replaceAll(c, rep)] would give. *)
Fixpoint replaceAllChar (c : ascii) (rep s : string) : string :=
  match s with
  | EmptyString => EmptyString
  | String a s' =>
      if Ascii.eqb a c then (rep ++ replaceAllChar c rep s')%string
      else String a (replaceAllChar c rep s')
  end.

Fixpoint count (c : ascii) (s : string) : nat :=
  match s with
  | EmptyString => 0
  | String a s' => (if Ascii.eqb a c then 1 else 0) + count c s'
  end.

Fixpoint contains (p : ascii -> bool) (s : string) : bool :=
  match s with
  | EmptyString => false
  | String a s' => p a || contains p s'
  end.

Fixpoint all (p : ascii -> bool) (s : string) : bool :=
  match s with
  | EmptyString => true
  | String a s' => p a && all p s'
  end.

(** [array.join(sep)]. *)
Definition join (sep : string) (l : list string) : string := String.concat sep l.

End JsString.

(** ** JavaScript arrays *)

Module JsArray.

(** [array.unshift(x)]: [x] becomes the first element. *)
Definition unshift {A : Type} (x : A) (array : list A) : list A := x :: array.

(** [array.push(x)]: [x] becomes the last element. *)
Definition push {A : Type} (array : list A) (x : A) : list A := array ++ [x].

(** [array.slice(0)]: a copy. *)
Definition copy {A : Type} (array : list A) : list A := array.

End JsArray.

(** ** The regular expressions of the source

    Every regular expression literal of [launcher.ts] is a sequence of
    single-character classes, each taken once, optionally ([?]) or any
    number of times ([*]), with an optional [^] and [$] and the [i] flag. *)

Module JsRegExp.

Inductive CharClass : Type :=
| Lit (c : ascii)      (* a literal character *)
| AnyChar              (* [.] : anything but a line terminator *)
| NotLit (c : ascii).  (* [[^c]] *)

Inductive Quant : Type := One | Optional | Star.

Record RegExp : Type := mkRegExp {
  startAnchor : bool;
  atoms : list (CharClass * Quant);
  endAnchor : bool;
  ignoreCase : bool
}.

(** Canonicalize of the [i] flag (without the [u] flag): upper-casing,
    which only changes [a]..[z] among the code units that can equal an
    ASCII pattern character. *)
Definition toUpper (c : ascii) : ascii :=
  let n := nat_of_ascii c in
  if ((97 <=? n)%nat && (n <=? 122)%nat)%bool then ascii_of_nat (n - 32) else c.

Definition canonicalize (ic : bool) (c : ascii) : ascii :=
  if ic then toUpper c else c.

Definition isLineTerminator (c : ascii) : bool :=
  Ascii.eqb c "010"%char || Ascii.eqb c "013"%char.

Definition accepts (ic : bool) (cls : CharClass) (ch : ascii) : bool :=
  match cls with
  | Lit c => Ascii.eqb (canonicalize ic ch) (canonicalize ic c)
  | AnyChar => negb (isLineTerminator ch)
  | NotLit c => negb (Ascii.eqb (canonicalize ic ch) (canonicalize ic c))
  end.

(** [cls*] followed by the rest of the pattern, [k]: the rest matches
    here, or [cls] takes one character and the star goes on. *)
Fixpoint star (accept : ascii -> bool) (k : string -> bool) (s : string) : bool :=
  k s ||
  match s with
  | String c s' => accept c && star accept k s'
  | EmptyString => false
  end.

(** Backtracking match of the atoms [p] at the start of [s]. *)
Fixpoint matchHere (ic atEnd : bool) (p : list (CharClass * Quant)) (s : string)
  {struct p} : bool :=
  match p with
  | [] => if atEnd then match s with EmptyString => true | _ => false end else true
  | (cls, One) :: p' =>
      match s with
      | String c s' => accepts ic cls c && matchHere ic atEnd p' s'
      | EmptyString => false
      end
  | (cls, Optional) :: p' =>
      match s with
      | String c s' => accepts ic cls c && matchHere ic atEnd p' s'
      | EmptyString => false
      end || matchHere ic atEnd p' s
  | (cls, Star) :: p' => star (accepts ic cls) (matchHere ic atEnd p') s
  end.

(** Match at some start position of [s]. *)
Fixpoint matchAnywhere (ic atEnd : bool) (p : list (CharClass * Quant)) (s : string)
  : bool :=
  matchHere ic atEnd p s ||
  match s with
  | EmptyString => false
  | String _ s' => matchAnywhere ic atEnd p s'
  end.

(** [re.test(s)]. *)
Definition test (re : RegExp) (s : string) : bool :=
  if startAnchor re
  then matchHere (ignoreCase re) (endAnchor re) (atoms re) s
  else matchAnywhere (ignoreCase re) (endAnchor re) (atoms re) s.

Definition lits (s : string) : list (CharClass * Quant) :=
  map (fun c => (Lit c, One)) (list_ascii_of_string s).

End JsRegExp.

(** ** Data model *)

Inductive LaunchTargetKind : Type :=
| Solution | Project | ProjectJson | Folder | Csx | Cake | LiveShare.

(** The project or solution that OmniSharp is to be launched with. *)
Record LaunchTarget : Type := mkLaunchTarget {
  label : string;
  description : string;
  directory : string;
  target : string;
  workspaceKind : LaunchTargetKind
}.

Definition vslsTarget : LaunchTarget := {|
  label := "VSLS";
  description := "Visual Studio Live Share";
  directory := "";
  target := "";
  workspaceKind := LiveShare
|}.

(** Live share scheme *)
Definition vsls : string := "vsls".

(** File schemes for which OmniSharp language features are disabled;
    [disabledSchemes_has] is [disabledSchemes.has]. *)
Definition disabledSchemes : list string := [vsls].

Definition disabledSchemes_has (s : string) : bool :=
  existsb (String.eqb s) disabledSchemes.

(** [vscode.Uri], as far as the source reads it. *)
Record Uri : Type := mkUri {
  scheme : string;
  fsPath : string
}.

(** [vscode.WorkspaceFolder]. *)
Record WorkspaceFolder : Type := mkWorkspaceFolder {
  uri : Uri;
  name : string;
  index : nat
}.

(** What the classifier calls but does not define. *)
Class Host : Type := {
  path_dirname : string -> string;
  path_basename : string -> string;
  asRelativePath : string -> string;
  getWorkspaceFolder : Uri -> option WorkspaceFolder;
  localeCompare : string -> string -> Z
}.

(** A [TypeError] and the like, or the reason of a rejected promise. *)
Inductive JsError : Type := Error (message : string).

Definition Result (A : Type) : Type := (JsError + A)%type.

Definition bind {A B : Type} (m : Result A) (k : A -> Result B) : Result B :=
  match m with
  | inl e => inl e
  | inr a => k a
  end.

Notation "x <- m ;; k" := (bind m (fun x => k))
  (at level 61, m at next level, right associativity).

(** ** The [Map<number, Uri[]>] of [resourcesToLaunchTargets] *)

Definition UriMap : Type := list (nat * list Uri).

Definition Map_has (k : nat) (m : UriMap) : bool :=
  existsb (fun e => Nat.eqb (fst e) k) m.

Fixpoint Map_get (k : nat) (m : UriMap) : option (list Uri) :=
  match m with
  | [] => None
  | (k', b) :: m' => if Nat.eqb k' k then Some b else Map_get k m'
  end.

(** [Map.prototype.set]: an existing key keeps its place in the iteration
    order, a new key goes last. *)
Fixpoint Map_set (k : nat) (b : list Uri) (m : UriMap) : UriMap :=
  match m with
  | [] => [(k, b)]
  | (k', b') :: m' =>
      if Nat.eqb k' k then (k', b) :: m' else (k', b') :: Map_set k b m'
  end.

(** ** File name tests *)

Import JsRegExp.

(** [/\.csproj$/i] *)
Definition isCSharpProject (resource : Uri) : bool :=
  test (mkRegExp false (lits ".csproj") true true) (fsPath resource).

(** [/\.slnf?$/i] *)
Definition isSolution (resource : Uri) : bool :=
  test (mkRegExp false (lits ".sln" ++ [(Lit "f"%char, Optional)]) true true)
       (fsPath resource).

(** [/\project.json$/i]: [\p] is the letter p, and the dot is unescaped. *)
Definition isProjectJson (resource : Uri) : bool :=
  test (mkRegExp false (lits "project" ++ [(AnyChar, One)] ++ lits "json") true true)
       (fsPath resource).

(** [/\.csx$/i] *)
Definition isCsx (resource : Uri) : bool :=
  test (mkRegExp false (lits ".csx") true true) (fsPath resource).

(** [/\.cake$/i] *)
Definition isCake (resource : Uri) : bool :=
  test (mkRegExp false (lits ".cake") true true) (fsPath resource).

(** [/\.cs$/i] *)
Definition isCs (resource : Uri) : bool :=
  test (mkRegExp false (lits ".cs") true true) (fsPath resource).

(** ** The classifier *)

(** The five arrays that [resourcesAndFolderMapToLaunchTargets] fills;
    they are declared outside the loop over the workspace folders. *)
Record Targets : Type := mkTargets {
  solutionTargets : list LaunchTarget;
  projectJsonTargets : list LaunchTarget;
  projectRootTargets : list LaunchTarget;
  projectTargets : list LaunchTarget;
  otherTargets : list LaunchTarget
}.

Definition noTargets : Targets := mkTargets [] [] [] [] [].

(** The four flags declared inside the loop, one set per folder. *)
Record Flags : Type := mkFlags {
  hasProjectJsonAtRoot : bool;
  hasCSX : bool;
  hasCake : bool;
  hasCs : bool
}.

Definition noFlags : Flags := mkFlags false false false false.

Definition push_solution (t : LaunchTarget) (ts : Targets) : Targets :=
  mkTargets (solutionTargets ts ++ [t]) (projectJsonTargets ts)
            (projectRootTargets ts) (projectTargets ts) (otherTargets ts).

Definition push_projectJson (t : LaunchTarget) (ts : Targets) : Targets :=
  mkTargets (solutionTargets ts) (projectJsonTargets ts ++ [t])
            (projectRootTargets ts) (projectTargets ts) (otherTargets ts).

Definition push_projectRoot (t : LaunchTarget) (ts : Targets) : Targets :=
  mkTargets (solutionTargets ts) (projectJsonTargets ts)
            (projectRootTargets ts ++ [t]) (projectTargets ts) (otherTargets ts).

Definition push_project (t : LaunchTarget) (ts : Targets) : Targets :=
  mkTargets (solutionTargets ts) (projectJsonTargets ts)
            (projectRootTargets ts) (projectTargets ts ++ [t]) (otherTargets ts).

Definition push_other (t : LaunchTarget) (ts : Targets) : Targets :=
  mkTargets (solutionTargets ts) (projectJsonTargets ts)
            (projectRootTargets ts) (projectTargets ts) (otherTargets ts ++ [t]).

Definition nonEmpty {A : Type} (l : list A) : bool :=
  (0 <? List.length l)%nat.

Section Classifier.

Context {host : Host}.

Definition solutionTarget (resource : Uri) : LaunchTarget := {|
  label := path_basename (fsPath resource);
  description := asRelativePath (path_dirname (fsPath resource));
  target := fsPath resource;
  directory := path_dirname (fsPath resource);
  workspaceKind := Solution
|}.

Definition projectJsonTarget (resource : Uri) : LaunchTarget := {|
  label := path_basename (fsPath resource);
  description := asRelativePath (path_dirname (fsPath resource));
  target := path_dirname (fsPath resource);
  directory := path_dirname (fsPath resource);
  workspaceKind := ProjectJson
|}.

Definition projectTarget (resource : Uri) : LaunchTarget := {|
  label := path_basename (fsPath resource);
  description := asRelativePath (path_dirname (fsPath resource));
  target := path_dirname (fsPath resource);
  directory := path_dirname (fsPath resource);
  workspaceKind := Project
|}.

Definition rootTarget (folderPath : string) : LaunchTarget := {|
  label := path_basename folderPath;
  description := "All contained projects";
  target := folderPath;
  directory := folderPath;
  workspaceKind := Folder
|}.

Definition csxTarget (folderPath : string) : LaunchTarget := {|
  label := "CSX";
  description := path_basename folderPath;
  target := folderPath;
  directory := folderPath;
  workspaceKind := Csx
|}.

Definition cakeTarget (folderPath : string) : LaunchTarget := {|
  label := "Cake";
  description := path_basename folderPath;
  target := folderPath;
  directory := folderPath;
  workspaceKind := Cake
|}.

Definition looseFolderTarget (folderPath : string) : LaunchTarget := {|
  label := path_basename folderPath;
  description := "";
  target := folderPath;
  directory := folderPath;
  workspaceKind := Folder
|}.

(** The body of [resources.forEach(resource => ...)]. *)
Definition scanResource (folderPath : string) (st : Targets * Flags) (resource : Uri)
  : Targets * Flags :=
  let (ts, fl) := st in
  if isSolution resource then
    (push_solution (solutionTarget resource) ts, fl)
  else if isProjectJson resource then
    let dirname := path_dirname (fsPath resource) in
    (push_projectJson (projectJsonTarget resource) ts,
     mkFlags (hasProjectJsonAtRoot fl || String.eqb dirname folderPath)
             (hasCSX fl) (hasCake fl) (hasCs fl))
  else if isCSharpProject resource then
    (push_project (projectTarget resource) ts, fl)
  else
    (ts,
     mkFlags (hasProjectJsonAtRoot fl)
             (hasCSX fl || isCsx resource)
             (hasCake fl || isCake resource)
             (hasCs fl || isCs resource)).

(** What follows the inner loop in the body of
    [workspaceFolderToUriMap.forEach]: the three tests read the lengths of
    the arrays filled so far. *)
Definition addFolderTargets (folderPath : string) (st : Targets * Flags) : Targets :=
  let (ts, fl) := st in
  let hasCsProjFiles := nonEmpty (projectTargets ts) in
  let hasSlnFile := nonEmpty (solutionTargets ts) in
  let hasProjectJson := nonEmpty (projectJsonTargets ts) in
  let ts1 :=
    if (hasCsProjFiles && negb hasSlnFile)
       || (hasProjectJson && negb (hasProjectJsonAtRoot fl))
    then push_projectRoot (rootTarget folderPath) ts else ts in
  let ts2 := if hasCSX fl then push_other (csxTarget folderPath) ts1 else ts1 in
  let ts3 := if hasCake fl then push_other (cakeTarget folderPath) ts2 else ts2 in
  if hasCs fl && negb hasSlnFile && negb hasCsProjFiles && negb hasProjectJson
     && negb (hasProjectJsonAtRoot fl)
  then push_other (looseFolderTarget folderPath) ts3 else ts3.

(** The body of [workspaceFolderToUriMap.forEach((resources, folderIndex) => ...)].
    [workspaceFolders[folderIndex]] is [undefined] out of range, and reading
    [folder.uri] then throws. *)
Definition processFolder (workspaceFolders : list WorkspaceFolder)
  (ts : Targets) (entry : nat * list Uri) : Result Targets :=
  let (folderIndex, resources) := entry in
  match nth_error workspaceFolders folderIndex with
  | None => inl (Error "TypeError: Cannot read properties of undefined (reading 'uri')")
  | Some folder =>
      let folderPath := fsPath (uri folder) in
      inr (addFolderTargets folderPath
             (fold_left (scanResource folderPath) resources (ts, noFlags)))
  end.

Fixpoint processFolders (workspaceFolders : list WorkspaceFolder)
  (m : UriMap) (ts : Targets) : Result Targets :=
  match m with
  | [] => inr ts
  | entry :: m' =>
      ts' <- processFolder workspaceFolders ts entry ;;
      processFolders workspaceFolders m' ts'
  end.

(** [(a, b) => a.directory.localeCompare(b.directory)] *)
Definition compareDirectory (a b : LaunchTarget) : Z :=
  localeCompare (directory a) (directory b).

(** [Array.prototype.sort(comparefn)] is a stable sort; with a consistent
    comparator its result is the one of this stable insertion sort. *)
Fixpoint insert (comparefn : LaunchTarget -> LaunchTarget -> Z)
  (x : LaunchTarget) (l : list LaunchTarget) : list LaunchTarget :=
  match l with
  | [] => [x]
  | y :: l' =>
      if (comparefn x y <=? 0)%Z then x :: y :: l'
      else y :: insert comparefn x l'
  end.

Fixpoint sort (comparefn : LaunchTarget -> LaunchTarget -> Z)
  (l : list LaunchTarget) : list LaunchTarget :=
  match l with
  | [] => []
  | x :: l' => insert comparefn x (sort comparefn l')
  end.

(** [allTargets]: the concatenation, after the four sorts. *)
Definition allTargets (ts : Targets) : list LaunchTarget :=
  otherTargets ts
  ++ sort compareDirectory (solutionTargets ts)
  ++ sort compareDirectory (projectRootTargets ts)
  ++ sort compareDirectory (projectJsonTargets ts)
  ++ sort compareDirectory (projectTargets ts).

(** [maxProjectResults > 0 ? allTargets.slice(0, maxProjectResults) : allTargets] *)
Definition truncate (maxProjectResults : Z) (l : list LaunchTarget)
  : list LaunchTarget :=
  if (maxProjectResults >? 0)%Z then firstn (Z.to_nat maxProjectResults) l else l.

Definition resourcesAndFolderMapToLaunchTargets (resources : list Uri)
  (workspaceFolders : list WorkspaceFolder) (workspaceFolderToUriMap : UriMap)
  (maxProjectResults : Z) : Result (list LaunchTarget) :=
  ts <- processFolders workspaceFolders workspaceFolderToUriMap noTargets ;;
  inr (truncate maxProjectResults (allTargets ts)).

(** The body of [for (let resource of localResources)].  [buckets] is the
    array stored in the map, so [buckets.push(resource)] changes the map's
    entry in place. *)
Definition addToBucket (m : UriMap) (resource : Uri) : UriMap :=
  match getWorkspaceFolder resource with
  | Some folder =>
      let buckets :=
        if Map_has (index folder) m
        then match Map_get (index folder) m with Some b => b | None => [] end
        else [] in
      Map_set (index folder) (buckets ++ [resource]) m
  | None => m
  end.

Definition resourcesToLaunchTargets (resources : list Uri)
  (workspaceFolders : list WorkspaceFolder) (maxProjectResults : Z)
  : Result (list LaunchTarget) :=
  if (List.length resources =? 0)%nat then inr []
  else
    let localResources :=
      filter (fun resource => negb (disabledSchemes_has (scheme resource))) resources in
    if (List.length localResources =? 0)%nat then inr [vslsTarget]
    else
      let workspaceFolderToUriMap := fold_left addToBucket localResources [] in
      resourcesAndFolderMapToLaunchTargets resources workspaceFolders
        workspaceFolderToUriMap maxProjectResults.

(** ** What the result is claimed to be *)

(** [a] may stand before [b] in an array in ascending order of
    [directory].  The order is the one of [localeCompare], the collation
    of the host, whatever comparator the code hands to [sort]. *)
Definition directoryOrder (a b : LaunchTarget) : Prop :=
  (localeCompare (directory a) (directory b) <= 0)%Z.

(** [sorted] holds the targets of [bucket], in ascending order of
    [directory]. *)
Definition SortedByDirectory (bucket sorted : list LaunchTarget) : Prop :=
  Permutation bucket sorted /\ StronglySorted directoryOrder sorted.

(** [out] is the other targets of [ts] as they are, followed by its four
    other arrays, each sorted and each of one kind. *)
Definition ResultOrder (ts : Targets) (out : list LaunchTarget) : Prop :=
  exists sol root pj proj,
    out = otherTargets ts ++ sol ++ root ++ pj ++ proj
    /\ SortedByDirectory (solutionTargets ts) sol
    /\ Forall (fun t => workspaceKind t = Solution) sol
    /\ SortedByDirectory (projectRootTargets ts) root
    /\ Forall (fun t => workspaceKind t = Folder
                        /\ description t = "All contained projects") root
    /\ SortedByDirectory (projectJsonTargets ts) pj
    /\ Forall (fun t => workspaceKind t = ProjectJson) pj
    /\ SortedByDirectory (projectTargets ts) proj
    /\ Forall (fun t => workspaceKind t = Project) proj
    /\ Forall (fun t => workspaceKind t = Csx \/ workspaceKind t = Cake
                        \/ (workspaceKind t = Folder /\ description t = ""))
              (otherTargets ts).

End Classifier.

(** ** The launcher *)

(** The options that [launch] reads. *)
Record Options : Type := mkOptions {
  useEditorFormattingSettings : bool;
  useModernNet : bool;
  waitForDebugger : bool
}.

Record PlatformInformation : Type := mkPlatformInformation {
  isWindows : bool
}.

Definition ProcessEnv : Type := list (string * string).

Record HostExecutableInformation : Type := mkHostExecutableInformation {
  version : string;
  path : string;
  env : ProcessEnv
}.

(** [getHostExecutableInfo] returns a promise: [inl] is its rejection. *)
Record IHostExecutableResolver : Type := mkResolver {
  getHostExecutableInfo : Options -> Result HostExecutableInformation
}.

Record SpawnOptions : Type := mkSpawnOptions {
  windowsVerbatimArguments : bool;
  detached : bool;
  spawn_cwd : string;
  spawn_env : option ProcessEnv
}.

(** A child process handle, known by the call of [spawn] that made it. *)
Record ChildProcess : Type := mkChildProcess {
  spawn_command : string;
  spawn_args : list string;
  spawn_options : SpawnOptions
}.

(** [Number.MAX_SAFE_INTEGER]: the integers up to it, and down to its
    opposite, are numbers, and a template literal prints them in decimal. *)
Definition MAX_SAFE_INTEGER : Z := 9007199254740991.

Record SafeInteger : Type := mkSafeInteger {
  integer : Z;
  integer_safe : (Z.abs integer <=? MAX_SAFE_INTEGER)%Z = true
}.

(** The literal [4]. *)
Definition four : SafeInteger := mkSafeInteger 4 eq_refl.

(** A configuration value, with the two conversions that [launch] applies
    to it: [!v] and the template literal [`${v}`].  [JsNumber] is a number
    that is a safe integer.  [JsOther] is any other value that is neither
    [null] nor [undefined] (a number that is not a safe integer, [NaN], an
    array, an object), known by what the two conversions make of it. *)
Inductive JsValue : Type :=
| JsNull
| JsBool (b : bool)
| JsNumber (n : SafeInteger)
| JsStr (s : string)
| JsOther (isTruthy : bool) (printed : string).

Definition truthy (v : JsValue) : bool :=
  match v with
  | JsNull => false
  | JsBool b => b
  | JsNumber n => negb (integer n =? 0)%Z
  | JsStr s => negb (String.eqb s "")
  | JsOther isTruthy _ => isTruthy
  end.

Definition boolToString (b : bool) : string := if b then "true" else "false".

Definition toString (v : JsValue) : string :=
  match v with
  | JsNull => "null"
  | JsBool b => boolToString b
  | JsNumber n => NilZero.string_of_int (Z.to_int (integer n))
  | JsStr s => s
  | JsOther _ printed => printed
  end.

(** [vscode.WorkspaceConfiguration]; [None] is [undefined]. *)
Definition WorkspaceConfiguration : Type := string -> option JsValue.

(** What the launcher calls but does not define: the reading of the
    configuration, and whether [spawn] throws at once on a call. *)
Class Runtime : Type := {
  getConfiguration : string -> WorkspaceConfiguration;
  spawnThrows : string -> list string -> SpawnOptions -> option JsError
}.

Record IntermediateLaunchResult : Type := mkLaunchResult {
  process : ChildProcess;
  command : string;
  hostIsMono : bool;
  hostVersion : option string;
  hostPath : option string
}.

(** [LaunchResult] narrows the type of [process] only. *)
Definition LaunchResult : Type := IntermediateLaunchResult.

(** The lifecycle events of a child process. *)
Inductive ProcessEvent : Type :=
| spawnEvent
| errorEvent (err : JsError)
| otherEvent (name : string).

(** What [spawn] reports of the process it made, with a callback that it
    queues with [process.nextTick] before it returns: ['spawn'] when the
    process started, ['error'] when it did not. *)
Inductive SpawnReport : Type :=
| started
| notStarted (err : JsError).

Definition reportEvent (report : SpawnReport) : ProcessEvent :=
  match report with
  | started => spawnEvent
  | notStarted err => errorEvent err
  end.

(** Where a piece of code runs.  Node runs the callbacks queued with
    [process.nextTick] before the promise jobs that are queued, except
    while it runs promise jobs: a promise job queued by a promise job runs
    before every callback of [process.nextTick]. *)
Inductive Turn : Type :=
| PromiseJob
| Callback.

(** A promise settles once: [resolve] and [reject] leave a settled promise
    as it is. *)
Inductive Promise (A : Type) : Type :=
| Pending
| Fulfilled (value : A)
| Rejected (reason : JsError).

Arguments Pending {A}.
Arguments Fulfilled {A} value.
Arguments Rejected {A} reason.

Definition resolve {A : Type} (value : A) (p : Promise A) : Promise A :=
  match p with
  | Pending => Fulfilled value
  | _ => p
  end.

Definition reject {A : Type} (reason : JsError) (p : Promise A) : Promise A :=
  match p with
  | Pending => Rejected reason
  | _ => p
  end.

(** [hasSpaceWithoutQuotes]: [/^[^"].* .*[^"]/] *)
Definition hasSpaceWithoutQuotes : RegExp :=
  mkRegExp true
    [(NotLit JsString.dquote, One); (AnyChar, Star); (Lit JsString.space, One);
     (AnyChar, Star); (NotLit JsString.dquote, One)]
    false false.

(** The local function of [launchWindows]. *)
Definition escapeIfNeeded (arg : string) : string :=
  if test hasSpaceWithoutQuotes arg
  then JsString.quoted arg
  else JsString.replace "&" "^&" arg.

(** [csharpConfig[configurationPath] != undefined] is false of [null] too;
    [globalConfig.get] returns the default for [undefined] only. *)
Definition getConfigurationValue (globalConfig csharpConfig : WorkspaceConfiguration)
  (configurationPath : string) (defaultValue : JsValue) : JsValue :=
  match csharpConfig configurationPath with
  | Some JsNull | None =>
      match globalConfig configurationPath with
      | Some v => v
      | None => defaultValue
      end
  | Some v => v
  end.

Section Launcher.

Context {runtime : Runtime}.

Definition spawn (cmd : string) (args : list string) (options : SpawnOptions)
  : Result ChildProcess :=
  match spawnThrows cmd args options with
  | Some e => inl e
  | None => inr (mkChildProcess cmd args options)
  end.

Definition launchDotnet (launchPath cwd : string) (args : list string)
  (platformInfo : PlatformInformation) (options : Options)
  (dotnetResolver : IHostExecutableResolver) : Result IntermediateLaunchResult :=
  dotnetInfo <- getHostExecutableInfo dotnetResolver options ;;
  let argsCopy := JsArray.copy args in
  let (command, argsCopy) :=
    if negb (JsString.endsWith launchPath ".dll")
    then (launchPath, argsCopy)
    else ((if isWindows platformInfo then "dotnet.exe" else "dotnet"),
          JsArray.unshift launchPath argsCopy) in
  process <- spawn command argsCopy
               (mkSpawnOptions false false cwd (Some (env dotnetInfo))) ;;
  inr {| process := process;
         command := launchPath;
         hostVersion := Some (version dotnetInfo);
         hostPath := Some (path dotnetInfo);
         hostIsMono := false |}.

Definition launchWindows (launchPath cwd : string) (args : list string)
  : Result IntermediateLaunchResult :=
  let argsCopy := JsArray.copy args in
  let argsCopy := JsArray.unshift (JsString.quoted launchPath) argsCopy in
  let argsCopy :=
    [JsString.join " "
       ["/s"; "/c";
        (String JsString.dquote
           (JsString.join " " (map escapeIfNeeded argsCopy)
            ++ String JsString.dquote EmptyString))%string]] in
  process <- spawn "cmd" argsCopy (mkSpawnOptions true false cwd None) ;;
  inr {| process := process;
         command := launchPath;
         hostIsMono := false;
         hostVersion := None;
         hostPath := None |}.

Definition launchNixMono (launchPath cwd : string) (args : list string)
  (environment : ProcessEnv) (useDebugger : bool) : Result ChildProcess :=
  let argsCopy := JsArray.copy args in
  let argsCopy := JsArray.unshift launchPath argsCopy in
  let argsCopy := JsArray.unshift "--assembly-loader=strict" argsCopy in
  let argsCopy :=
    if useDebugger
    then
      let argsCopy := JsArray.unshift "--debug" argsCopy in
      JsArray.unshift
        "--debugger-agent=transport=dt_socket,server=y,address=127.0.0.1:55555"
        argsCopy
    else argsCopy in
  spawn "mono" argsCopy (mkSpawnOptions false false cwd (Some environment)).

Definition launchNix (launchPath cwd : string) (args : list string)
  (options : Options) (monoResolver : IHostExecutableResolver)
  : Result IntermediateLaunchResult :=
  monoInfo <- getHostExecutableInfo monoResolver options ;;
  process <- launchNixMono launchPath cwd args (env monoInfo) (waitForDebugger options) ;;
  inr {| process := process;
         command := launchPath;
         hostIsMono := true;
         hostVersion := Some (version monoInfo);
         hostPath := Some (path monoInfo) |}.

(** [launch] is an [async function]: what it throws rejects its promise. *)
Definition launch (cwd : string) (args : list string) (launchPath : string)
  (platformInfo : PlatformInformation) (options : Options)
  (monoResolver dotnetResolver : IHostExecutableResolver)
  : Result IntermediateLaunchResult :=
  let args :=
    if useEditorFormattingSettings options then
      let globalConfig := getConfiguration "" in
      let csharpConfig := getConfiguration "[csharp]" in
      let args :=
        JsArray.push args
          ("formattingOptions:useTabs=" ++
           boolToString (negb (truthy (getConfigurationValue globalConfig csharpConfig
                                         "editor.insertSpaces" (JsBool true)))))%string in
      let args :=
        JsArray.push args
          ("formattingOptions:tabSize=" ++
           toString (getConfigurationValue globalConfig csharpConfig
                       "editor.tabSize" (JsNumber four)))%string in
      JsArray.push args
        ("formattingOptions:indentationSize=" ++
         toString (getConfigurationValue globalConfig csharpConfig
                     "editor.tabSize" (JsNumber four)))%string
    else args in
  if useModernNet options then
    launchDotnet launchPath cwd args platformInfo options dotnetResolver
  else if isWindows platformInfo then
    launchWindows launchPath cwd args
  else
    launchNix launchPath cwd args options monoResolver.

(** The two listeners that [launchOmniSharp] registers on the process, as
    one handler of its events. *)
Definition onProcessEvent (result : IntermediateLaunchResult)
  (p : Promise LaunchResult) (ev : ProcessEvent) : Promise LaunchResult :=
  match ev with
  | errorEvent err => reject err p
  | spawnEvent => resolve result p
  | otherEvent _ => p
  end.

(** The turn in which [launch] calls [spawn].  [launchDotnet] and
    [launchNix] await the resolver first, so what follows, the call of
    [spawn] included, is a promise job; [launchWindows] is called with no
    [await] before it, in the turn of the caller of [launchOmniSharp]. *)
Definition spawnTurn (platformInfo : PlatformInformation) (options : Options)
  (caller : Turn) : Turn :=
  if useModernNet options then PromiseJob
  else if isWindows platformInfo then caller
  else PromiseJob.

(** The events that reach the two listeners.  The [then] callback that
    registers them is a promise job, queued when the promise of [launch]
    is fulfilled.  After a [spawn] in a promise job it runs before the
    callback that emits the report of [spawn]; after a [spawn] in a
    callback the report is emitted first, to no listener (an ['error']
    emitted to no listener is thrown by the emitter, and settles
    nothing), and only the later events reach the listeners. *)
Definition heard (turn : Turn) (report : SpawnReport) (later : list ProcessEvent)
  : list ProcessEvent :=
  match turn with
  | PromiseJob => reportEvent report :: later
  | Callback => later
  end.

(** The promise that [launchOmniSharp] returns to a caller that runs in
    the turn [caller], once the promise of [launch] has settled and the
    process, if there is one, has emitted its report and then the events
    [later].  The [catch] callback rejects with the reason of [launch]. *)
Definition launchOmniSharp (cwd : string) (args : list string) (launchPath : string)
  (platformInfo : PlatformInformation) (options : Options)
  (monoResolver dotnetResolver : IHostExecutableResolver)
  (caller : Turn) (report : SpawnReport) (later : list ProcessEvent)
  : Promise LaunchResult :=
  match launch cwd args launchPath platformInfo options monoResolver dotnetResolver with
  | inr result =>
      fold_left (onProcessEvent result)
        (heard (spawnTurn platformInfo options caller) report later) Pending
  | inl reason => reject reason Pending
  end.

End Launcher.

(** ** A host for the examples

    Node's [path.posix.dirname] and [path.posix.basename], and an editor
    whose workspace folders are [folders]: a resource belongs to the first
    folder whose path, followed by a slash, starts its own. *)

Module Posix.

Definition slash : ascii := "/"%char.

(** The loop of [dirname], from the last character down to the second:
    the index [end] of the slash that closes the directory part. *)
Fixpoint dirnameEnd (revTail : list ascii) (i : nat) (matchedSlash : bool)
  : option nat :=
  match revTail with
  | [] => None
  | c :: r =>
      if Ascii.eqb c slash
      then if negb matchedSlash then Some i else dirnameEnd r (i - 1) matchedSlash
      else dirnameEnd r (i - 1) false
  end.

Definition dirname (p : string) : string :=
  match p with
  | EmptyString => "."
  | String c0 tail =>
      let hasRoot := Ascii.eqb c0 slash in
      match dirnameEnd (rev (list_ascii_of_string tail)) (String.length tail) true with
      | None => if hasRoot then "/" else "."
      | Some e => if hasRoot && (e =? 1)%nat then "//" else substring 0 e p
      end
  end.

(** The loop of [basename], from the last character down to the first:
    [(start, end)] of the last path segment. *)
Fixpoint basenameScan (revChars : list ascii) (i : nat) (matchedSlash : bool)
  (e : option nat) : nat * option nat :=
  match revChars with
  | [] => (0, e)
  | c :: r =>
      if Ascii.eqb c slash
      then if negb matchedSlash then (i + 1, e) else basenameScan r (i - 1) matchedSlash e
      else match e with
           | None => basenameScan r (i - 1) false (Some (i + 1))
           | Some _ => basenameScan r (i - 1) matchedSlash e
           end
  end.

Definition basename (p : string) : string :=
  match basenameScan (rev (list_ascii_of_string p)) (String.length p - 1) true None with
  | (_, None) => ""
  | (start, Some e) => substring start (e - start) p
  end.

Definition contains (folder : WorkspaceFolder) (p : string) : bool :=
  prefix (fsPath (uri folder) ++ "/") p.

Definition folderOf (folders : list WorkspaceFolder) (p : string)
  : option WorkspaceFolder :=
  find (fun f => contains f p) folders.

(** Code-unit order, as the sign that a comparator returns. *)
Definition compareCodeUnits (a b : string) : Z :=
  match String.compare a b with
  | Lt => (-1)%Z
  | Eq => 0%Z
  | Gt => 1%Z
  end.

(** [asRelativePath]: the path below its workspace folder, after the name of
    that folder when the workspace has more than one; a path in no folder
    is returned as it is. *)
Definition relativeTo (folders : list WorkspaceFolder) (p : string) : string :=
  match folderOf folders p with
  | Some f =>
      let rel := JsString.drop (String.length (fsPath (uri f)) + 1) p in
      if (1 <? List.length folders)%nat then (name f ++ "/" ++ rel)%string else rel
  | None => p
  end.

Definition host (folders : list WorkspaceFolder) : Host := {|
  path_dirname := dirname;
  path_basename := basename;
  asRelativePath := relativeTo folders;
  getWorkspaceFolder := fun resource => folderOf folders (fsPath resource);
  localeCompare := compareCodeUnits
|}.

Definition file (p : string) : Uri := mkUri "file" p.

Definition folder (i : nat) (p : string) : WorkspaceFolder :=
  mkWorkspaceFolder (file p) (basename p) i.

End Posix.

(** ** A host that collates

    [String.prototype.localeCompare] compares with the collation of the
    default locale, not by code units.  On paths of ASCII letters, digits,
    [.] and [/] the collation of the root locale compares the letters
    without their case first; between strings that differ in case only,
    the one with the lower-case letter at the first difference comes
    first. *)

Module Collation.

Definition toLower (c : ascii) : ascii :=
  let n := N_of_ascii c in
  if ((65 <=? n) && (n <=? 90))%N then ascii_of_N (n + 32) else c.

Fixpoint fold (s : string) : string :=
  match s with
  | EmptyString => EmptyString
  | String c s' => String (toLower c) (fold s')
  end.

Definition sign (c : comparison) : Z :=
  match c with
  | Lt => (-1)%Z
  | Eq => 0%Z
  | Gt => 1%Z
  end.

(** An upper-case letter has the smaller code unit: in the second
    comparison the operands are exchanged. *)
Definition compare (a b : string) : Z :=
  match String.compare (fold a) (fold b) with
  | Eq => sign (String.compare b a)
  | c => sign c
  end.

Definition host (folders : list WorkspaceFolder) : Host := {|
  path_dirname := Posix.dirname;
  path_basename := Posix.basename;
  asRelativePath := Posix.relativeTo folders;
  getWorkspaceFolder := fun resource => Posix.folderOf folders (fsPath resource);
  localeCompare := compare
|}.

End Collation.

(** A runtime for the examples: nothing is configured and [spawn] never
    throws. *)
Definition quietRuntime : Runtime := {|
  getConfiguration := fun _ _ => None;
  spawnThrows := fun _ _ _ => None
|}.

(** ** The rules as the specification words them *)

(** "Sorted by directory in ascending lexicographic order": the order of
    the code units. *)
Definition lexicographicOrder_spec (a b : LaunchTarget) : Prop :=
  String.compare (directory a) (directory b) <> Gt.

Definition isWhiteSpace (c : ascii) : bool :=
  Ascii.eqb c " "%char || Ascii.eqb c "009"%char || Ascii.eqb c "010"%char
  || Ascii.eqb c "011"%char || Ascii.eqb c "012"%char || Ascii.eqb c "013"%char.

Definition fullyQuoted (s : string) : bool :=
  (2 <=? String.length s)%nat
  && prefix (String JsString.dquote EmptyString) s
  && JsString.endsWith s (String JsString.dquote EmptyString).

(** The quoting rule as specified: an argument with white space that is
    not already enclosed in double quotes is wrapped; in any other, every
    ampersand is escaped. *)
Definition escapeIfNeeded_spec (arg : string) : string :=
  if JsString.contains isWhiteSpace arg && negb (fullyQuoted arg)
  then JsString.quoted arg
  else JsString.replaceAllChar JsString.ampersand "^&" arg.

Section FolderRules.

Context {host : Host}.

(** The root-folder rule as specified, on the resources of one folder. *)
Definition rootFolderRule_spec (folderPath : string) (resources : list Uri) : bool :=
  (existsb isCSharpProject resources && negb (existsb isSolution resources))
  || (existsb isProjectJson resources
      && negb (existsb (fun r => isProjectJson r
                                 && String.eqb (path_dirname (fsPath r)) folderPath)
                       resources)).

(** The loose-files rule as specified, on the resources of one folder. *)
Definition looseFilesRule_spec (folderPath : string) (resources : list Uri) : bool :=
  existsb isCs resources
  && negb (existsb isSolution resources)
  && negb (existsb isCSharpProject resources)
  && negb (existsb isProjectJson resources).

End FolderRules.

(** ** What the facts below are stated with *)

(** A pattern of classes that are each taken once. *)
Definition onesOnly (p : list (JsRegExp.CharClass * JsRegExp.Quant)) : Prop :=
  Forall (fun a => snd a = One) p.

(** The last character, or the last two, of a name that passes a test. *)
Definition endsIn (x : ascii) (s : string) : Prop :=
  matchAnywhere true true [(Lit x, One)] s = true.

Definition endsIn2 (x y : ascii) (s : string) : Prop :=
  matchAnywhere true true [(Lit x, One); (Lit y, One)] s = true.

Section FolderSteps.

Context {host : Host}.

(** The resources of a map, in the order in which the loops visit them. *)
Definition resourcesOf (m : UriMap) : list Uri := List.concat (map snd m).

Definition projectJsonAtRoot (folderPath : string) (r : Uri) : bool :=
  isProjectJson r && String.eqb (path_dirname (fsPath r)) folderPath.

Definition rootFolderRule (seen : list Uri) (folderPath : string)
  (resources : list Uri) : bool :=
  (existsb isCSharpProject (seen ++ resources)
   && negb (existsb isSolution (seen ++ resources)))
  || (existsb isProjectJson (seen ++ resources)
      && negb (existsb (projectJsonAtRoot folderPath) resources)).

Definition looseFilesRule (seen : list Uri) (resources : list Uri) : bool :=
  existsb isCs resources
  && negb (existsb isSolution (seen ++ resources))
  && negb (existsb isCSharpProject (seen ++ resources))
  && negb (existsb isProjectJson (seen ++ resources)).

Definition optional {A : Type} (b : bool) (x : A) : list A := if b then [x] else [].

(** What one folder adds to the five arrays. *)
Definition FolderStep (seen : list Uri) (folderPath : string) (resources : list Uri)
  (ts ts' : Targets) : Prop :=
  solutionTargets ts'
  = solutionTargets ts ++ map solutionTarget (filter isSolution resources)
  /\ projectJsonTargets ts'
     = projectJsonTargets ts ++ map projectJsonTarget (filter isProjectJson resources)
  /\ projectTargets ts'
     = projectTargets ts ++ map projectTarget (filter isCSharpProject resources)
  /\ projectRootTargets ts'
     = projectRootTargets ts
       ++ optional (rootFolderRule seen folderPath resources) (rootTarget folderPath)
  /\ otherTargets ts'
     = otherTargets ts
       ++ optional (existsb isCsx resources) (csxTarget folderPath)
       ++ optional (existsb isCake resources) (cakeTarget folderPath)
       ++ optional (looseFilesRule seen resources) (looseFolderTarget folderPath).

Definition CollectedFrom (seen : list Uri) (ts : Targets) : Prop :=
  solutionTargets ts = map solutionTarget (filter isSolution seen)
  /\ projectJsonTargets ts = map projectJsonTarget (filter isProjectJson seen)
  /\ projectTargets ts = map projectTarget (filter isCSharpProject seen).

End FolderSteps.

(** The first argument that [launchNixMono] puts before [--debug]. *)
Definition debuggerAgent : string :=
  "--debugger-agent=transport=dt_socket,server=y,address=127.0.0.1:55555".

(** What [hasSpaceWithoutQuotes] tests: the first character is not a double
    quote, a space follows it, at once or after characters that are not line
    terminators, and after the space, behind no line terminator, there is a
    character that is not a double quote. *)
Definition SpaceBetween (arg : string) : Prop :=
  exists c0 u v c1 rest,
    arg = String c0 (u ++ String JsString.space (v ++ String c1 rest))%string
    /\ c0 <> JsString.dquote
    /\ JsString.all (fun c => negb (isLineTerminator c)) u = true
    /\ JsString.all (fun c => negb (isLineTerminator c)) v = true
    /\ c1 <> JsString.dquote.

Definition settled {A : Type} (p : Promise A) : bool :=
  match p with
  | Pending => false
  | _ => true
  end.

(** [a] may stand before [b] in an array sorted with [comparefn]. *)
Definition inOrder (comparefn : LaunchTarget -> LaunchTarget -> Z)
  (a b : LaunchTarget) : Prop := (comparefn a b <= 0)%Z.

(** Where the targets of each array come from. *)

Section Provenance.

Context {host : Host}.

Definition fromSolution (t : LaunchTarget) : Prop := exists r, t = solutionTarget r.
Definition fromProjectJson (t : LaunchTarget) : Prop := exists r, t = projectJsonTarget r.
Definition fromRoot (t : LaunchTarget) : Prop := exists p, t = rootTarget p.
Definition fromProject (t : LaunchTarget) : Prop := exists r, t = projectTarget r.
Definition fromOther (t : LaunchTarget) : Prop :=
  exists p, t = csxTarget p \/ t = cakeTarget p \/ t = looseFolderTarget p.

Definition Shaped (ts : Targets) : Prop :=
  Forall fromSolution (solutionTargets ts)
  /\ Forall fromProjectJson (projectJsonTargets ts)
  /\ Forall fromRoot (projectRootTargets ts)
  /\ Forall fromProject (projectTargets ts)
  /\ Forall fromOther (otherTargets ts).

End Provenance.

(** ** Inputs of the examples

    Two workspace folders, [/w1] and [/w2], on the host of [Posix]. *)

Definition twoFolders : list WorkspaceFolder :=
  [Posix.folder 0 "/w1"; Posix.folder 1 "/w2"].

Definition twoFoldersHost : Host := Posix.host twoFolders.

Definition sortExampleMap : UriMap :=
  [(1, [Posix.file "/w2/q/Q.csproj"; Posix.file "/w2/s.csx"]);
   (0, [Posix.file "/w1/z/Z.sln"; Posix.file "/w1/a/A.sln"; Posix.file "/w1/x.cake"])].

Definition sortExampleTargets : Targets :=
  Eval vm_compute in
    match processFolders (host := twoFoldersHost) twoFolders sortExampleMap noTargets with
    | inr ts => ts
    | inl _ => noTargets
    end.

Definition mixedResources : list Uri :=
  [Posix.file "/w1/App.sln"; Posix.file "/w1/src/App.csproj";
   Posix.file "/w2/project.json"; Posix.file "/w2/build.cake"].

Definition csprojThenCsx : list Uri :=
  [Posix.file "/w1/App.csproj"; Posix.file "/w2/build.csx"].

Definition slnThenCs : list Uri :=
  [Posix.file "/w1/App.sln"; Posix.file "/w2/Program.cs"].

Definition firstFolderMap : UriMap := [(0, [Posix.file "/w1/App.csproj"])].

Definition firstFolderTargets : Targets :=
  Eval vm_compute in
    match processFolders (host := twoFoldersHost) twoFolders firstFolderMap noTargets with
    | inr ts => ts
    | inl _ => noTargets
    end.

(** Two solutions of the folder [/w1], found in the order of the code units
    of their directories, on a host that collates. *)
Definition collatingHost : Host := Collation.host twoFolders.

Definition caseMap : UriMap :=
  [(0, [Posix.file "/w1/B/B.sln"; Posix.file "/w1/a/A.sln";
        Posix.file "/w1/b/P.csproj"; Posix.file "/w1/A/Q.csproj"])].

Definition caseTargets : Targets :=
  Eval vm_compute in
    match processFolders (host := collatingHost) twoFolders caseMap noTargets with
    | inr ts => ts
    | inl _ => noTargets
    end.

Definition resolved : IHostExecutableResolver :=
  mkResolver (fun _ => inr (mkHostExecutableInformation "6.0.100" "/usr/bin/dotnet" [])).

Definition unresolved : IHostExecutableResolver :=
  mkResolver (fun _ => inl (Error "no host executable")).

(** ** [String.prototype.split] with a separator of one character *)

Module JsSplit.

(** [s.split(sep)]: the pieces of [s] between the occurrences of [sep];
    the array is never empty. *)
Fixpoint split (sep : ascii) (s : string) : list string :=
  match s with
  | EmptyString => [EmptyString]
  | String c s' =>
      if Ascii.eqb c sep then EmptyString :: split sep s'
      else match split sep s' with
           | piece :: pieces => String c piece :: pieces
           | [] => [String c EmptyString]
           end
  end.

(** [array.pop()], as the value it returns; [None] is [undefined]. *)
Definition pop {A : Type} (array : list A) : option A :=
  match rev array with
  | [] => None
  | x :: _ => Some x
  end.

End JsSplit.

(** ** The fix-all menu of [fixAllProvider.ts] *)

Module FixAll.

(** The members of [protocol.FixAllScope] that the provider uses. *)
Inductive FixAllScope : Type := Document | Project | Solution.

Definition FixAllScope_eqb (a b : FixAllScope) : bool :=
  match a, b with
  | Document, Document | Project, Project | Solution, Solution => true
  | _, _ => false
  end.

(** [protocol.FixAllItem]; a [Message] of [None] is [undefined]. *)
Record FixAllItem : Type := mkFixAllItem {
  Id : string;
  Message : option string
}.

Record GetFixAllRequest : Type := mkGetFixAllRequest {
  get_FileName : string;
  get_Scope : FixAllScope
}.

Record RunFixAllRequest : Type := mkRunFixAllRequest {
  FileName : string;
  Scope : FixAllScope;
  FixAllFilter : option (list FixAllItem);
  WantsAllCodeActionOperations : bool;
  WantsTextChanges : bool;
  ApplyChanges : bool
}.

(** What the provider asks of the editor and of the server.  [Changes] is
    what a response carries; [runFixAll] answers [None] for no response. *)
Class Editor : Type := {
  Changes : Type;
  activeFileName : option string;
  getFixAll : GetFixAllRequest -> Result (list FixAllItem);
  showQuickPick : list string -> option string;
  runFixAll : RunFixAllRequest -> Result (option Changes);
  buildEditForResponse : Changes -> Result unit
}.

(** What a call does to the editor and to the server, in order. *)
Inductive Effect {editor : Editor} : Type :=
| ShowWarningMessage (message : string)
| AskFixAll (request : GetFixAllRequest)
| AskQuickPick (items : list string)
| RunFixAll (request : RunFixAllRequest)
| BuildEdit (changes : Changes).

(** An [async] method: the effects so far, and how it ended. *)
Definition Async {editor : Editor} (A : Type) : Type :=
  (list Effect * Result A)%type.

Definition ret {editor : Editor} {A : Type} (a : A) : Async A := ([], inr a).

Definition await {editor : Editor} {A : Type} (effect : Effect) (answer : Result A)
  : Async A := ([effect], answer).

Definition andThen {editor : Editor} {A B : Type} (m : Async A) (k : A -> Async B)
  : Async B :=
  match m with
  | (effects, inl e) => (effects, inl e)
  | (effects, inr a) => let (more, r) := k a in (effects ++ more, r)
  end.

(** The template literal [`${v}`] of a string that may be [undefined]. *)
Definition render (v : option string) : string :=
  match v with
  | Some s => s
  | None => "undefined"
  end.

(** [`${x.Id}: ${x.Message}`] *)
Definition labelOf (x : FixAllItem) : string :=
  (Id x ++ ": " ++ render (Message x))%string.

(** [[{ Id: actionTokens[0], Message: actionTokens[1] }]] of
    [action.split(":")]. *)
Definition filterOf (action : string) : list FixAllItem :=
  let actionTokens := JsSplit.split ":"%char action in
  [mkFixAllItem (hd "undefined" actionTokens) (nth_error actionTokens 1)].

Definition fixAllIssues : string := "Fix all issues".

(** The entries that the menu offers for [items] in [scope]. *)
Definition menuOf (scope : FixAllScope) (items : list FixAllItem) : list string :=
  if FixAllScope_eqb scope Document then fixAllIssues :: map labelOf items
  else map labelOf items.

Section Provider.

Context {editor : Editor}.

Definition applyFixes (fileName : string) (scope : FixAllScope)
  (fixAllFilter : option (list FixAllItem)) : Async unit :=
  let request := mkRunFixAllRequest fileName scope fixAllFilter true true false in
  andThen (await (RunFixAll request) (runFixAll request)) (fun response =>
  match response with
  | Some changes => await (BuildEdit changes) (buildEditForResponse changes)
  | None => ret tt
  end).

Definition fixAllMenu (scope : FixAllScope) : Async unit :=
  match activeFileName with
  | None =>
      await (ShowWarningMessage "Text editor must be focused to fix all issues")
        (inr tt)
  | Some fileName =>
      let request := mkGetFixAllRequest fileName scope in
      andThen (await (AskFixAll request) (getFixAll request)) (fun items =>
      let targets := map labelOf items in
      let targets :=
        if FixAllScope_eqb scope Document then "Fix all issues" :: targets
        else targets in
      andThen (await (AskQuickPick targets) (inr (showQuickPick targets)))
        (fun action =>
      match action with
      | None => ret tt
      | Some action =>
          let filter :=
            if negb (String.eqb action "Fix all issues")
            then Some (filterOf action)
            else None in
          applyFixes fileName scope filter
      end))
  end.

End Provider.

End FixAll.

(** ** The workspace tests of [integrationHelpers.ts] *)

Module IntegrationHelpers.

(** [path.sep] and [workspace.workspaceFolders]; [None] is [undefined]. *)
Class Workspace : Type := {
  path_sep : ascii;
  workspaceFolders : option (list WorkspaceFolder)
}.

Section Helpers.

Context {workspace : Workspace}.

(** Without [workspaceFolders] the read of its element [0] throws; with
    an empty array the element is [undefined], and the read of its [uri]
    throws. *)
Definition isGivenSln (expectedProjectFileName : string) : Result bool :=
  match workspaceFolders with
  | None => inl (Error "TypeError: Cannot read properties of undefined (reading '0')")
  | Some [] => inl (Error "TypeError: Cannot read properties of undefined (reading 'uri')")
  | Some (primeWorkspace :: _) =>
      let projectFileName :=
        JsSplit.pop (JsSplit.split path_sep (fsPath (uri primeWorkspace))) in
      inr match projectFileName with
          | Some n => String.eqb n expectedProjectFileName
          | None => false
          end
  end.

Definition isRazorWorkspace : Result bool := isGivenSln "BasicRazorApp2_1".

Definition isSlnWithCsproj : Result bool := isGivenSln "slnWithCsproj".

Definition isSlnWithGenerator : Result bool := isGivenSln "slnWithGenerator".

End Helpers.

End IntegrationHelpers.

(** ** What the further facts are stated with *)

(** The filter of [resourcesToLaunchTargets]: a resource whose scheme is
    not one of [disabledSchemes]. *)
Definition isLocal (resource : Uri) : bool :=
  negb (disabledSchemes_has (scheme resource)).

(** Each number once, at its first place. *)
Fixpoint firsts (l : list nat) : list nat :=
  match l with
  | [] => []
  | x :: l' => x :: filter (fun y => negb (Nat.eqb y x)) (firsts l')
  end.

Section Grouping.

Context {host : Host}.

(** Whether [resource] belongs to the workspace folder of index [k]. *)
Definition inFolder (k : nat) (resource : Uri) : bool :=
  match getWorkspaceFolder resource with
  | Some folder => Nat.eqb (index folder) k
  | None => false
  end.

Definition hasFolder (resource : Uri) : bool :=
  match getWorkspaceFolder resource with
  | Some _ => true
  | None => false
  end.

(** The folder indices of the resources, those without a folder left out. *)
Definition indicesOf (resources : list Uri) : list nat :=
  flat_map (fun r => match getWorkspaceFolder r with
                     | Some folder => [index folder]
                     | None => []
                     end) resources.

Definition bucketOf (k : nat) (resources : list Uri) : list Uri :=
  filter (inFolder k) resources.

(** The map after the resources [pre]: the keys of the folders in the
    order of their first resource, and under each key the resources of
    that folder. *)
Definition Grouped (pre : list Uri) (m : UriMap) : Prop :=
  map fst m = firsts (indicesOf pre)
  /\ forall k, Map_get k m
               = if existsb (Nat.eqb k) (indicesOf pre) then Some (bucketOf k pre)
                 else None.

(** A target at a folder of [workspaceFolders] that holds a local
    resource. *)
Definition FolderOf (wf : list WorkspaceFolder) (resources : list Uri)
  (t : LaunchTarget) : Prop :=
  exists r g f,
    In r resources /\ isLocal r = true /\ getWorkspaceFolder r = Some g
    /\ nth_error wf (index g) = Some f
    /\ directory t = fsPath (uri f) /\ target t = fsPath (uri f).

(** A target at the directory of a local resource that lies in a
    workspace folder. *)
Definition FileOf (resources : list Uri) (t : LaunchTarget) : Prop :=
  exists r,
    In r resources /\ isLocal r = true /\ hasFolder r = true
    /\ directory t = path_dirname (fsPath r).

End Grouping.

Definition hasKind (k : LaunchTargetKind) (t : LaunchTarget) : bool :=
  match k, workspaceKind t with
  | Solution, Solution | Project, Project | ProjectJson, ProjectJson
  | Folder, Folder | Csx, Csx | Cake, Cake | LiveShare, LiveShare => true
  | _, _ => false
  end.

Definition countKind (k : LaunchTargetKind) (l : list LaunchTarget) : nat :=
  List.length (filter (hasKind k) l).

(** Whether the comparator puts neither of [a] and [b] after the other. *)
Definition tied (comparefn : LaunchTarget -> LaunchTarget -> Z)
  (a b : LaunchTarget) : bool :=
  (comparefn a b <=? 0)%Z && (comparefn b a <=? 0)%Z.

(** Whether a folder of the map holds a resource that passes [test]. *)
Definition holds (test : Uri -> bool) (entry : nat * list Uri) : bool :=
  existsb test (snd entry).

(** ** Further inputs of the examples *)

(** A resource of a live-share guest and a resource outside both folders,
    before the resources of [mixedResources]. *)
Definition strayResources : list Uri :=
  mkUri "vsls" "/w1/Remote.sln" :: Posix.file "/elsewhere/Lib.csproj"
  :: mixedResources.

Definition scriptResources : list Uri :=
  [Posix.file "/w1/a.csx"; Posix.file "/w2/build.cake"; Posix.file "/w1/tools/b.csx";
   Posix.file "/w2/c.csx"].

Definition mixedTargets : list LaunchTarget :=
  Eval vm_compute in
    match resourcesToLaunchTargets (host := twoFoldersHost) mixedResources twoFolders 0 with
    | inr out => out
    | inl _ => []
    end.

Definition scriptTargets : list LaunchTarget :=
  Eval vm_compute in
    match resourcesToLaunchTargets (host := twoFoldersHost) scriptResources twoFolders 0 with
    | inr out => out
    | inl _ => []
    end.

Definition sameDirectoryBucket : list LaunchTarget :=
  [projectTarget (host := twoFoldersHost) (Posix.file "/w2/q/Q.csproj");
   projectTarget (host := twoFoldersHost) (Posix.file "/w1/p/B.csproj");
   projectTarget (host := twoFoldersHost) (Posix.file "/w1/p/A.csproj")].

(** A runtime whose C# settings set [editor.tabSize] and whose global
    settings set it too, and turn [editor.insertSpaces] off. *)
Definition configuredRuntime : Runtime := {|
  getConfiguration := fun section configurationPath =>
    if String.eqb section "[csharp]" then
      if String.eqb configurationPath "editor.tabSize"
      then Some (JsNumber (mkSafeInteger 2 eq_refl))
      else None
    else if String.eqb configurationPath "editor.tabSize"
    then Some (JsNumber (mkSafeInteger 8 eq_refl))
    else if String.eqb configurationPath "editor.insertSpaces" then Some (JsBool false)
    else None;
  spawnThrows := fun _ _ _ => None
|}.

Definition exampleItems : list FixAll.FixAllItem :=
  [FixAll.mkFixAllItem "CS8019" (Some "Unnecessary using directive: remove it");
   FixAll.mkFixAllItem "IDE0005" (Some "Using directive is unnecessary.")].

(** An editor with a focused file, whose user picks the second entry of
    the menu, and a server that answers every request. *)
Definition exampleEditor : FixAll.Editor := {|
  FixAll.Changes := list string;
  FixAll.activeFileName := Some "/w1/Program.cs";
  FixAll.getFixAll := fun _ => inr exampleItems;
  FixAll.showQuickPick := fun targets => nth_error targets 1;
  FixAll.runFixAll := fun _ => inr (Some ["Program.cs"]);
  FixAll.buildEditForResponse := fun _ => inr tt
|}.

Definition razorWorkspace : IntegrationHelpers.Workspace := {|
  IntegrationHelpers.path_sep := "/"%char;
  IntegrationHelpers.workspaceFolders :=
    Some [Posix.folder 0 "/test/integrationTests/testAssets/BasicRazorApp2_1"]
|}.

(** * Facts *)

(** ** Lists, sorting and truncation *)

Lemma Forall_snoc {A : Type} (P : A -> Prop) (l : list A) (x : A) :
  Forall P l -> P x -> Forall P (l ++ [x]).
Proof.
  intros Hl Hx. apply Forall_app. split; [assumption | constructor; auto].
Qed.

Lemma Forall_firstn_of {A : Type} (P : A -> Prop) (n : nat) (l : list A) :
  Forall P l -> Forall P (firstn n l).
Proof.
  revert l. induction n as [|n IH]; intros [|x l] H; simpl; auto.
  inversion H; subst. constructor; auto.
Qed.

Section Sorting.

Variable comparefn : LaunchTarget -> LaunchTarget -> Z.

Lemma insert_perm (x : LaunchTarget) (l : list LaunchTarget) :
  Permutation (x :: l) (insert comparefn x l).
Proof.
  induction l as [|y l IH]; simpl.
  - apply Permutation_refl.
  - destruct (comparefn x y <=? 0)%Z.
    + apply Permutation_refl.
    + eapply perm_trans; [apply perm_swap | apply perm_skip, IH].
Qed.

Lemma sort_perm (l : list LaunchTarget) : Permutation l (sort comparefn l).
Proof.
  induction l as [|x l IH]; simpl.
  - apply perm_nil.
  - eapply perm_trans; [apply perm_skip, IH | apply insert_perm].
Qed.

Lemma sort_Forall (P : LaunchTarget -> Prop) (l : list LaunchTarget) :
  Forall P l -> Forall P (sort comparefn l).
Proof. apply Permutation_Forall, sort_perm. Qed.

(** A consistent comparator: of two elements one may stand before the
    other, and "may stand before" is transitive. *)
Hypothesis comparefn_total :
  forall a b, (comparefn a b > 0)%Z -> (comparefn b a <= 0)%Z.
Hypothesis comparefn_trans :
  forall a b c, (comparefn a b <= 0)%Z -> (comparefn b c <= 0)%Z ->
                (comparefn a c <= 0)%Z.

Lemma insert_sorted (x : LaunchTarget) (l : list LaunchTarget) :
  StronglySorted (inOrder comparefn) l -> StronglySorted (inOrder comparefn) (insert comparefn x l).
Proof.
  induction l as [|y l IH]; simpl; intros Hs.
  - constructor; constructor.
  - inversion Hs as [|? ? Hl Hy]; subst.
    destruct (comparefn x y <=? 0)%Z eqn:E.
    + apply Z.leb_le in E. constructor; [assumption|].
      constructor; [exact E|].
      eapply Forall_impl; [|exact Hy].
      intros z Hz. eapply comparefn_trans; eauto.
    + apply Z.leb_gt in E. constructor; [apply IH; assumption|].
      eapply Permutation_Forall; [apply insert_perm|].
      constructor; [apply comparefn_total; lia | assumption].
Qed.

Lemma sort_sorted (l : list LaunchTarget) : StronglySorted (inOrder comparefn) (sort comparefn l).
Proof.
  induction l as [|x l IH]; simpl.
  - constructor.
  - apply insert_sorted, IH.
Qed.

End Sorting.

(** ** Where the targets of each array come from *)

Section ClassifierFacts.

Context {host : Host}.

Ltac shaped :=
  repeat match goal with
         | H : Shaped _ |- _ => destruct H as (? & ? & ? & ? & ?)
         | |- Shaped _ => unfold Shaped; simpl; repeat split
         | |- Forall _ (_ ++ [_]) => apply Forall_snoc
         | |- fromSolution (solutionTarget _) => eexists; reflexivity
         | |- fromProjectJson (projectJsonTarget _) => eexists; reflexivity
         | |- fromRoot (rootTarget _) => eexists; reflexivity
         | |- fromProject (projectTarget _) => eexists; reflexivity
         | |- fromOther (csxTarget ?p) => exists p; auto
         | |- fromOther (cakeTarget ?p) => exists p; auto
         | |- fromOther (looseFolderTarget ?p) => exists p; auto
         | |- _ => assumption
         end.

Lemma noTargets_shaped : Shaped noTargets.
Proof. unfold Shaped; simpl; repeat split; constructor. Qed.

Lemma push_other_shaped (t : LaunchTarget) (ts : Targets) :
  fromOther t -> Shaped ts -> Shaped (push_other t ts).
Proof. intros Ht Hs. shaped. Qed.

Lemma scanResource_shaped (folderPath : string) (st : Targets * Flags) (r : Uri) :
  Shaped (fst st) -> Shaped (fst (scanResource folderPath st r)).
Proof.
  destruct st as [ts fl]; simpl. intros Hs.
  destruct (isSolution r); [simpl; shaped|].
  destruct (isProjectJson r); [simpl; shaped|].
  destruct (isCSharpProject r); simpl; shaped.
Qed.

Lemma scan_shaped (folderPath : string) (resources : list Uri) (st : Targets * Flags) :
  Shaped (fst st) ->
  Shaped (fst (fold_left (scanResource folderPath) resources st)).
Proof.
  revert st. induction resources as [|r rs IH]; intros st Hs; simpl.
  - assumption.
  - apply IH, scanResource_shaped, Hs.
Qed.

Lemma addFolderTargets_shaped (folderPath : string) (st : Targets * Flags) :
  Shaped (fst st) -> Shaped (addFolderTargets folderPath st).
Proof.
  destruct st as [ts fl]; simpl. intros Hs.
  assert (H1 : Shaped (if (nonEmpty (projectTargets ts) && negb (nonEmpty (solutionTargets ts)))
                          || (nonEmpty (projectJsonTargets ts) && negb (hasProjectJsonAtRoot fl))
                       then push_projectRoot (rootTarget folderPath) ts else ts)).
  { destruct (_ || _); [shaped | assumption]. }
  revert H1. generalize (if (nonEmpty (projectTargets ts) && negb (nonEmpty (solutionTargets ts)))
                          || (nonEmpty (projectJsonTargets ts) && negb (hasProjectJsonAtRoot fl))
                       then push_projectRoot (rootTarget folderPath) ts else ts).
  intros ts1 H1.
  assert (H2 : Shaped (if hasCSX fl then push_other (csxTarget folderPath) ts1 else ts1)).
  { destruct (hasCSX fl); [apply push_other_shaped; [exists folderPath; auto | assumption] | assumption]. }
  revert H2. generalize (if hasCSX fl then push_other (csxTarget folderPath) ts1 else ts1).
  intros ts2 H2.
  assert (H3 : Shaped (if hasCake fl then push_other (cakeTarget folderPath) ts2 else ts2)).
  { destruct (hasCake fl); [apply push_other_shaped; [exists folderPath; auto | assumption] | assumption]. }
  revert H3. generalize (if hasCake fl then push_other (cakeTarget folderPath) ts2 else ts2).
  intros ts3 H3.
  destruct (_ && _); [apply push_other_shaped; [exists folderPath; auto | assumption] | assumption].
Qed.

Lemma processFolder_shaped (wf : list WorkspaceFolder) (ts ts' : Targets)
  (entry : nat * list Uri) :
  Shaped ts -> processFolder wf ts entry = inr ts' -> Shaped ts'.
Proof.
  destruct entry as [i rs]. unfold processFolder.
  destruct (nth_error wf i) as [f|]; [|discriminate].
  intros Hs E. injection E as <-.
  apply addFolderTargets_shaped, scan_shaped. exact Hs.
Qed.

Lemma processFolders_shaped (wf : list WorkspaceFolder) (m : UriMap) :
  forall ts ts', Shaped ts -> processFolders wf m ts = inr ts' -> Shaped ts'.
Proof.
  induction m as [|entry m IH]; simpl; intros ts ts' Hs E.
  - injection E as <-. exact Hs.
  - destruct (processFolder wf ts entry) as [e|ts1] eqn:E1; simpl in E; [discriminate|].
    eapply IH; [|exact E]. eapply processFolder_shaped; eauto.
Qed.

(** The classifier throws only on a folder index that [workspaceFolders]
    does not have. *)
Lemma processFolders_total (wf : list WorkspaceFolder) (m : UriMap) :
  Forall (fun entry => fst entry < List.length wf) m ->
  forall ts, exists ts', processFolders wf m ts = inr ts'.
Proof.
  induction 1 as [|[i rs] m Hi _ IH]; intros ts; simpl.
  - eexists; reflexivity.
  - simpl in Hi. apply nth_error_Some in Hi.
    destruct (nth_error wf i) as [f|] eqn:E; [|congruence].
    simpl. apply IH.
Qed.

End ClassifierFacts.

Section ClassifierTheorems.

Context {host : Host}.

Lemma allTargets_Forall (P : LaunchTarget -> Prop) (ts : Targets) :
  (forall t, fromSolution t -> P t) ->
  (forall t, fromProjectJson t -> P t) ->
  (forall t, fromRoot t -> P t) ->
  (forall t, fromProject t -> P t) ->
  (forall t, fromOther t -> P t) ->
  Shaped ts -> Forall P (allTargets ts).
Proof.
  intros Hs Hj Hr Hp Ho (Ss & Sj & Sr & Sp & So). unfold allTargets.
  apply Forall_app; split; [eapply Forall_impl; [exact Ho | exact So]|].
  apply Forall_app; split;
    [apply sort_Forall; eapply Forall_impl; [exact Hs | exact Ss]|].
  apply Forall_app; split;
    [apply sort_Forall; eapply Forall_impl; [exact Hr | exact Sr]|].
  apply Forall_app; split; apply sort_Forall.
  - eapply Forall_impl; [exact Hj | exact Sj].
  - eapply Forall_impl; [exact Hp | exact Sp].
Qed.

Lemma truncate_Forall (P : LaunchTarget -> Prop) (n : Z) (l : list LaunchTarget) :
  Forall P l -> Forall P (truncate n l).
Proof.
  unfold truncate. destruct (n >? 0)%Z; [apply Forall_firstn_of | auto].
Qed.

(** Every target that [resourcesAndFolderMapToLaunchTargets] returns has
    been built by one of the seven object literals of its loop. *)
Lemma classified_Forall (P : LaunchTarget -> Prop) (resources : list Uri)
  (wf : list WorkspaceFolder) (m : UriMap) (n : Z) (out : list LaunchTarget) :
  (forall t, fromSolution t -> P t) ->
  (forall t, fromProjectJson t -> P t) ->
  (forall t, fromRoot t -> P t) ->
  (forall t, fromProject t -> P t) ->
  (forall t, fromOther t -> P t) ->
  resourcesAndFolderMapToLaunchTargets resources wf m n = inr out ->
  Forall P out.
Proof.
  intros Hs Hj Hr Hp Ho. unfold resourcesAndFolderMapToLaunchTargets.
  destruct (processFolders wf m noTargets) as [e|ts] eqn:E; simpl; [discriminate|].
  intros Eo. injection Eo as <-.
  apply truncate_Forall, allTargets_Forall; auto.
  eapply processFolders_shaped; [apply noTargets_shaped | exact E].
Qed.

Lemma filter_nil_forallb {A : Type} (p : A -> bool) (l : list A) :
  filter (fun x => negb (p x)) l = [] <-> forallb p l = true.
Proof.
  induction l as [|x l IH]; simpl; [tauto|].
  destruct (p x); simpl; [exact IH|].
  split; discriminate.
Qed.

Lemma length_eqb_0 {A : Type} (l : list A) :
  (List.length l =? 0)%nat = true <-> l = [].
Proof. destruct l; simpl; split; congruence. Qed.

(** C4. The classifier returns the empty list for the empty list of
    resources, and it returns the single live-share target exactly when
    the list of resources is not empty and every resource of it has a
    disabled scheme. *)
Theorem resourcesToLaunchTargets_liveShare (resources : list Uri)
  (workspaceFolders : list WorkspaceFolder) (maxProjectResults : Z) :
  resourcesToLaunchTargets [] workspaceFolders maxProjectResults = inr []
  /\ (resourcesToLaunchTargets resources workspaceFolders maxProjectResults
        = inr [vslsTarget]
      <-> resources <> []
          /\ forallb (fun r => disabledSchemes_has (scheme r)) resources = true).
Proof.
  split; [reflexivity|].
  unfold resourcesToLaunchTargets.
  destruct (List.length resources =? 0)%nat eqn:E0.
  - apply length_eqb_0 in E0. subst. split; [discriminate | intros [H _]; congruence].
  - assert (Hne : resources <> []).
    { intros ->. discriminate. }
    destruct (List.length (filter _ resources) =? 0)%nat eqn:E1.
    + apply length_eqb_0 in E1. apply filter_nil_forallb in E1. tauto.
    + split.
      * intros H.
        apply (classified_Forall (fun t => workspaceKind t <> LiveShare)) in H;
          try (intros t [x Hx]; try destruct Hx as [Hx|[Hx|Hx]]; subst; simpl; discriminate).
        inversion H as [|? ? Hk _]; subst. exfalso. apply Hk. reflexivity.
      * intros [_ H]. apply filter_nil_forallb in H. rewrite H in E1. discriminate.
Qed.

(** C9. With a positive [maxProjectResults] the classifier returns the
    first [maxProjectResults] targets of the concatenation [allTargets],
    which is what it returns without a limit (all of them when there are
    fewer); with zero or a negative number it returns all of them. *)
Theorem classifier_truncates (resources : list Uri)
  (workspaceFolders : list WorkspaceFolder) (m : UriMap) (maxProjectResults : Z) :
  let limit (all : list LaunchTarget) : Result (list LaunchTarget) :=
    inr (if (0 <? maxProjectResults)%Z
         then firstn (Z.to_nat maxProjectResults) all else all) in
  resourcesAndFolderMapToLaunchTargets resources workspaceFolders m maxProjectResults
    = bind (resourcesAndFolderMapToLaunchTargets resources workspaceFolders m 0) limit
  /\ resourcesToLaunchTargets resources workspaceFolders maxProjectResults
    = bind (resourcesToLaunchTargets resources workspaceFolders 0) limit
  /\ (forall ts,
        processFolders workspaceFolders m noTargets = inr ts ->
        resourcesAndFolderMapToLaunchTargets resources workspaceFolders m
          maxProjectResults
        = limit (allTargets ts)).
Proof.
  intros limit.
  assert (Ht : forall ts,
             processFolders workspaceFolders m noTargets = inr ts ->
             resourcesAndFolderMapToLaunchTargets resources workspaceFolders m
               maxProjectResults
             = limit (allTargets ts)).
  { intros ts E. unfold resourcesAndFolderMapToLaunchTargets, limit, truncate.
    rewrite E. simpl. rewrite Z.gtb_ltb. reflexivity. }
  assert (Hm : resourcesAndFolderMapToLaunchTargets resources workspaceFolders m
                 maxProjectResults
               = bind (resourcesAndFolderMapToLaunchTargets resources workspaceFolders m 0)
                   limit).
  { unfold resourcesAndFolderMapToLaunchTargets, limit, truncate.
    destruct (processFolders workspaceFolders m noTargets) as [e|ts]; simpl; [reflexivity|].
    rewrite Z.gtb_ltb. reflexivity. }
  split; [exact Hm|]. split; [|exact Ht]. clear Hm Ht.
  unfold resourcesToLaunchTargets.
  destruct (List.length resources =? 0)%nat.
  - unfold limit; simpl. destruct (0 <? maxProjectResults)%Z; [|reflexivity].
    rewrite firstn_nil. reflexivity.
  - destruct (List.length (filter _ resources) =? 0)%nat.
    + unfold limit; simpl. destruct (0 <? maxProjectResults)%Z eqn:E; [|reflexivity].
      apply Z.ltb_lt in E.
      destruct (Z.to_nat maxProjectResults) as [|k] eqn:Ek; [lia|].
      simpl. rewrite firstn_nil. reflexivity.
    + unfold resourcesAndFolderMapToLaunchTargets, limit, truncate.
      destruct (processFolders _ _ noTargets) as [e|ts]; simpl; [reflexivity|].
      rewrite Z.gtb_ltb. reflexivity.
Qed.

(** C10. In every target that the classifier returns, [target] and
    [directory] are the same path unless the target is a solution, and the
    [directory] of a solution target is [path.dirname] of its [target]. *)
Theorem classifier_target_directory (resources : list Uri)
  (workspaceFolders : list WorkspaceFolder) (maxProjectResults : Z)
  (out : list LaunchTarget) :
  resourcesToLaunchTargets resources workspaceFolders maxProjectResults = inr out ->
  Forall (fun t =>
            (workspaceKind t <> Solution -> target t = directory t)
            /\ (workspaceKind t = Solution -> directory t = path_dirname (target t)))
         out.
Proof.
  unfold resourcesToLaunchTargets.
  destruct (List.length resources =? 0)%nat.
  { intros E. injection E as <-. constructor. }
  destruct (List.length (filter _ resources) =? 0)%nat.
  { intros E. injection E as <-. repeat constructor; simpl; congruence. }
  apply classified_Forall.
  - intros t [r ->]. simpl. split; [congruence | reflexivity].
  - intros t [r ->]. simpl. split; [reflexivity | discriminate].
  - intros t [p ->]. simpl. split; [reflexivity | discriminate].
  - intros t [r ->]. simpl. split; [reflexivity | discriminate].
  - intros t [p [-> | [-> | ->]]]; simpl; (split; [reflexivity | discriminate]).
Qed.

End ClassifierTheorems.

(** ** The order of the result *)

Section ResultOrder.

Context {host : Host}.

Lemma scanResource_other (folderPath : string) (st : Targets * Flags) (r : Uri) :
  otherTargets (fst (scanResource folderPath st r)) = otherTargets (fst st).
Proof.
  destruct st as [ts fl]; simpl.
  destruct (isSolution r); [reflexivity|].
  destruct (isProjectJson r); [reflexivity|].
  destruct (isCSharpProject r); reflexivity.
Qed.

Lemma scan_other (folderPath : string) (resources : list Uri) (st : Targets * Flags) :
  otherTargets (fst (fold_left (scanResource folderPath) resources st))
  = otherTargets (fst st).
Proof.
  revert st. induction resources as [|r rs IH]; intros st; simpl; [reflexivity|].
  rewrite IH. apply scanResource_other.
Qed.

Lemma addFolderTargets_other (folderPath : string) (st : Targets * Flags) :
  exists later,
    otherTargets (addFolderTargets folderPath st) = otherTargets (fst st) ++ later.
Proof.
  destruct st as [ts fl]; simpl.
  destruct (_ || _), (hasCSX fl), (hasCake fl), (_ && _); simpl;
    repeat rewrite <- app_assoc; simpl;
    first [ now exists [] ; rewrite app_nil_r | eexists; reflexivity ].
Qed.

Lemma processFolder_other (wf : list WorkspaceFolder) (ts ts' : Targets)
  (entry : nat * list Uri) :
  processFolder wf ts entry = inr ts' ->
  exists later, otherTargets ts' = otherTargets ts ++ later.
Proof.
  destruct entry as [i rs]. unfold processFolder.
  destruct (nth_error wf i) as [f|]; [|discriminate].
  intros E. injection E as <-.
  destruct (addFolderTargets_other (fsPath (uri f))
              (fold_left (scanResource (fsPath (uri f))) rs (ts, noFlags)))
    as [later H].
  rewrite scan_other in H. exists later. exact H.
Qed.

Lemma processFolders_other (wf : list WorkspaceFolder) (m : UriMap) :
  forall ts ts', processFolders wf m ts = inr ts' ->
                 exists later, otherTargets ts' = otherTargets ts ++ later.
Proof.
  induction m as [|entry m IH]; simpl; intros ts ts' E.
  - injection E as <-. exists []. now rewrite app_nil_r.
  - destruct (processFolder wf ts entry) as [e|ts1] eqn:E1; simpl in E; [discriminate|].
    apply processFolder_other in E1. destruct E1 as [l1 H1].
    apply IH in E. destruct E as [l2 H2].
    exists (l1 ++ l2). rewrite H2, H1, app_assoc. reflexivity.
Qed.

Lemma processFolders_app (wf : list WorkspaceFolder) (m1 m2 : UriMap) (ts : Targets) :
  processFolders wf (m1 ++ m2) ts
  = bind (processFolders wf m1 ts) (processFolders wf m2).
Proof.
  revert ts. induction m1 as [|entry m1 IH]; intros ts; simpl; [reflexivity|].
  destruct (processFolder wf ts entry) as [e|ts1]; simpl; [reflexivity | apply IH].
Qed.

(** The comparator of the four sorts is consistent when [localeCompare]
    is: it orders any two strings, transitively. *)
Hypothesis localeCompare_total :
  forall a b, (localeCompare a b > 0)%Z -> (localeCompare b a <= 0)%Z.
Hypothesis localeCompare_trans :
  forall a b c, (localeCompare a b <= 0)%Z -> (localeCompare b c <= 0)%Z ->
                (localeCompare a c <= 0)%Z.

Lemma sort_byDirectory (bucket : list LaunchTarget) :
  SortedByDirectory bucket (sort compareDirectory bucket).
Proof.
  split; [apply sort_perm|].
  apply (sort_sorted compareDirectory).
  - intros a b. apply localeCompare_total.
  - intros a b c. apply localeCompare_trans.
Qed.

(** C5, amended. Before truncation the result is the other targets, in
    the order in which the folders produced them, then the solution
    targets, the root-folder targets, the project.json targets and the
    project targets, each of these four arrays holding what was found for
    it, in ascending order of [directory] for [localeCompare], the
    collation of the host, which is taken to be a consistent comparator. *)
Theorem allTargets_order (resources : list Uri) (workspaceFolders : list WorkspaceFolder)
  (m : UriMap) (ts : Targets) :
  processFolders workspaceFolders m noTargets = inr ts ->
  resourcesAndFolderMapToLaunchTargets resources workspaceFolders m 0
    = inr (allTargets ts)
  /\ ResultOrder ts (allTargets ts)
  /\ forall m1 m2 ts1,
       m = m1 ++ m2 ->
       processFolders workspaceFolders m1 noTargets = inr ts1 ->
       exists later, otherTargets ts = otherTargets ts1 ++ later.
Proof.
  intros E. split; [|split].
  - unfold resourcesAndFolderMapToLaunchTargets. rewrite E. reflexivity.
  - pose proof (processFolders_shaped _ _ _ _ noTargets_shaped E)
      as (Ss & Sj & Sr & Sp & So).
    exists (sort compareDirectory (solutionTargets ts)),
           (sort compareDirectory (projectRootTargets ts)),
           (sort compareDirectory (projectJsonTargets ts)),
           (sort compareDirectory (projectTargets ts)).
    split; [reflexivity|].
    repeat split; try apply sort_byDirectory; try apply sort_Forall.
    + eapply Forall_impl; [|exact Ss]. intros t [r ->]. reflexivity.
    + eapply Forall_impl; [|exact Sr]. intros t [p ->]. split; reflexivity.
    + eapply Forall_impl; [|exact Sj]. intros t [r ->]. reflexivity.
    + eapply Forall_impl; [|exact Sp]. intros t [r ->]. reflexivity.
    + eapply Forall_impl; [|exact So].
      intros t [p [-> | [-> | ->]]]; simpl; auto.
  - intros m1 m2 ts1 -> E1.
    rewrite processFolders_app, E1 in E. simpl in E.
    eapply processFolders_other. exact E.
Qed.

End ResultOrder.

(** ** The file name tests exclude each other *)

Section EndAnchored.

Variable ic : bool.

Lemma matchHere_anywhere (p : list (CharClass * Quant)) (s : string) :
  matchHere ic true p s = true -> matchAnywhere ic true p s = true.
Proof. destruct s; simpl; intros ->; reflexivity. Qed.

Lemma matchHere_ones_length (p : list (CharClass * Quant)) :
  onesOnly p ->
  forall q, matchHere ic true p q = true -> String.length q = List.length p.
Proof.
  induction 1 as [|[cls qn] p Hq _ IH]; intros q; simpl.
  - destruct q; [reflexivity | discriminate].
  - simpl in Hq. subst qn. destruct q as [|c q]; [discriminate|].
    intros H. apply andb_true_iff in H. destruct H as [_ H].
    simpl. f_equal. apply IH, H.
Qed.

Lemma matchAnywhere_ones_length (p : list (CharClass * Quant)) (s : string) :
  onesOnly p -> matchAnywhere ic true p s = true -> List.length p <= String.length s.
Proof.
  intros Ho. induction s as [|c s IH]; simpl.
  - rewrite orb_false_r. intros H. apply matchHere_ones_length in H; auto.
    simpl in H. lia.
  - intros H. apply orb_true_iff in H. destruct H as [H|H].
    + apply matchHere_ones_length in H; auto. simpl in H. lia.
    + apply IH in H. lia.
Qed.

(** Two patterns of one length that match at the end of [s] match the same
    end of [s]. *)
Lemma matchAnywhere_same_end (p1 p2 : list (CharClass * Quant)) (s : string) :
  onesOnly p1 -> onesOnly p2 -> List.length p1 = List.length p2 ->
  matchAnywhere ic true p1 s = true -> matchAnywhere ic true p2 s = true ->
  exists q, matchHere ic true p1 q = true /\ matchHere ic true p2 q = true.
Proof.
  intros H1 H2 L. induction s as [|c s IH]; simpl.
  - rewrite !orb_false_r. intros M1 M2. exists EmptyString. auto.
  - intros M1 M2.
    apply orb_true_iff in M1. apply orb_true_iff in M2.
    destruct M1 as [M1|M1], M2 as [M2|M2].
    + exists (String c s). auto.
    + apply matchHere_ones_length in M1; auto.
      apply matchAnywhere_ones_length in M2; auto. simpl in M1. lia.
    + apply matchHere_ones_length in M2; auto.
      apply matchAnywhere_ones_length in M1; auto. simpl in M2. lia.
    + apply IH; assumption.
Qed.

Lemma matchAnywhere_tail (cls : CharClass) (p : list (CharClass * Quant)) (s : string) :
  matchAnywhere ic true ((cls, One) :: p) s = true -> matchAnywhere ic true p s = true.
Proof.
  induction s as [|c s IH]; [discriminate|].
  intros H. cbn [matchAnywhere] in H. apply orb_true_iff in H.
  assert (T : matchAnywhere ic true p s = true).
  { destruct H as [H|H]; [|apply IH, H].
    simpl in H. apply andb_true_iff in H. destruct H as [_ H].
    apply matchHere_anywhere, H. }
  cbn [matchAnywhere]. rewrite T. apply orb_true_r.
Qed.

Lemma matchAnywhere_end (p q : list (CharClass * Quant)) (s : string) :
  onesOnly p ->
  matchAnywhere ic true (p ++ q) s = true -> matchAnywhere ic true q s = true.
Proof.
  induction 1 as [|[cls qn] p Hq _ IH]; simpl; [auto|].
  simpl in Hq. subst qn. intros H. apply IH. eapply matchAnywhere_tail, H.
Qed.

Lemma matchHere_optional (cls : CharClass) (p : list (CharClass * Quant)) :
  onesOnly p ->
  forall s, matchHere ic true (p ++ [(cls, Optional)]) s
            = matchHere ic true (p ++ [(cls, One)]) s || matchHere ic true p s.
Proof.
  induction 1 as [|[c0 qn] p Hq _ IH]; intros s; simpl.
  - reflexivity.
  - simpl in Hq. subst qn. destruct s as [|c s]; [reflexivity|].
    rewrite IH. apply andb_orb_distrib_r.
Qed.

Lemma matchAnywhere_optional (cls : CharClass) (p : list (CharClass * Quant))
  (s : string) :
  onesOnly p ->
  matchAnywhere ic true (p ++ [(cls, Optional)]) s
  = matchAnywhere ic true (p ++ [(cls, One)]) s || matchAnywhere ic true p s.
Proof.
  intros Ho. induction s as [|c s IH]; cbn [matchAnywhere].
  - rewrite matchHere_optional by assumption. rewrite !orb_false_r. reflexivity.
  - rewrite matchHere_optional by assumption. rewrite IH.
    destruct (matchHere ic true (p ++ [(cls, One)]) (String c s)),
      (matchHere ic true p (String c s)),
      (matchAnywhere ic true (p ++ [(cls, One)]) s),
      (matchAnywhere ic true p s); reflexivity.
Qed.

End EndAnchored.

Lemma matchAnywhere_skipn (n : nat) (p : list (CharClass * Quant)) (s : string) :
  onesOnly (firstn n p) ->
  matchAnywhere true true p s = true ->
  matchAnywhere true true (skipn n p) s = true.
Proof.
  intros Ho H. rewrite <- (firstn_skipn n p) in H.
  eapply matchAnywhere_end; eauto.
Qed.

Lemma endsIn_same (x y : ascii) (s : string) :
  endsIn x s -> endsIn y s -> toUpper x = toUpper y.
Proof.
  intros Hx Hy.
  destruct (matchAnywhere_same_end true [(Lit x, One)] [(Lit y, One)] s)
    as (q & Qx & Qy); try assumption; try (repeat constructor).
  destruct q as [|c q]; [discriminate|]. simpl in Qx, Qy.
  apply andb_true_iff in Qx. apply andb_true_iff in Qy.
  destruct Qx as [Qx _], Qy as [Qy _].
  apply Ascii.eqb_eq in Qx. apply Ascii.eqb_eq in Qy. congruence.
Qed.

Lemma endsIn2_same (x1 y1 x2 y2 : ascii) (s : string) :
  endsIn2 x1 y1 s -> endsIn2 x2 y2 s -> toUpper x1 = toUpper x2.
Proof.
  intros H1 H2.
  destruct (matchAnywhere_same_end true [(Lit x1, One); (Lit y1, One)]
              [(Lit x2, One); (Lit y2, One)] s)
    as (q & Q1 & Q2); try assumption; try (repeat constructor).
  destruct q as [|c q]; [discriminate|]. simpl in Q1, Q2.
  apply andb_true_iff in Q1. apply andb_true_iff in Q2.
  destruct Q1 as [Q1 _], Q2 as [Q2 _].
  apply Ascii.eqb_eq in Q1. apply Ascii.eqb_eq in Q2. congruence.
Qed.

Lemma endsIn2_endsIn (x y : ascii) (s : string) : endsIn2 x y s -> endsIn y s.
Proof. apply matchAnywhere_tail. Qed.

Ltac ends n H :=
  apply (matchAnywhere_skipn n) in H; [exact H | repeat constructor].

Lemma isCSharpProject_ends (r : Uri) :
  isCSharpProject r = true -> endsIn "j" (fsPath r).
Proof. unfold isCSharpProject, test; simpl. intros H. ends 6 H. Qed.

Lemma isProjectJson_ends (r : Uri) :
  isProjectJson r = true -> endsIn2 "o" "n" (fsPath r).
Proof. unfold isProjectJson, test; simpl. intros H. ends 10 H. Qed.

Lemma isCsx_ends (r : Uri) : isCsx r = true -> endsIn "x" (fsPath r).
Proof. unfold isCsx, test; simpl. intros H. ends 3 H. Qed.

Lemma isCake_ends (r : Uri) : isCake r = true -> endsIn "e" (fsPath r).
Proof. unfold isCake, test; simpl. intros H. ends 4 H. Qed.

Lemma isCs_ends (r : Uri) : isCs r = true -> endsIn "s" (fsPath r).
Proof. unfold isCs, test; simpl. intros H. ends 2 H. Qed.

Lemma isSolution_ends (r : Uri) :
  isSolution r = true -> endsIn2 "l" "n" (fsPath r) \/ endsIn "f" (fsPath r).
Proof.
  unfold isSolution, test. cbn [startAnchor ignoreCase endAnchor atoms].
  rewrite matchAnywhere_optional by (repeat constructor).
  intros H. apply orb_true_iff in H. destruct H as [H|H].
  - right. ends 4 H.
  - left. ends 2 H.
Qed.

Ltac clash :=
  match goal with
  | H1 : endsIn2 ?a ?b ?s, H2 : endsIn2 ?c ?d ?s |- _ =>
      let C := fresh in
      pose proof (endsIn2_same a b c d s H1 H2) as C; vm_compute in C; discriminate C
  | H1 : endsIn2 ?a ?b ?s, H2 : endsIn ?y ?s |- _ =>
      let C := fresh in
      pose proof (endsIn_same b y s (endsIn2_endsIn a b s H1) H2) as C;
      vm_compute in C; discriminate C
  | H1 : endsIn ?x ?s, H2 : endsIn ?y ?s |- _ =>
      let C := fresh in
      pose proof (endsIn_same x y s H1 H2) as C; vm_compute in C; discriminate C
  end.

Lemma tests_at_most_one (resource : Uri) :
  List.length
    (filter (fun b : bool => b)
       [isSolution resource; isProjectJson resource; isCSharpProject resource;
        isCsx resource; isCake resource; isCs resource]) <= 1.
Proof.
  destruct (isSolution resource) eqn:E1;
    [apply isSolution_ends in E1; destruct E1 as [E1|E1]|];
    (destruct (isProjectJson resource) eqn:E2; [apply isProjectJson_ends in E2|]);
    (destruct (isCSharpProject resource) eqn:E3; [apply isCSharpProject_ends in E3|]);
    (destruct (isCsx resource) eqn:E4; [apply isCsx_ends in E4|]);
    (destruct (isCake resource) eqn:E5; [apply isCake_ends in E5|]);
    (destruct (isCs resource) eqn:E6; [apply isCs_ends in E6|]);
    simpl; first [lia | exfalso; clash].
Qed.

(** X1. No file name passes two of the six file name tests. *)
Theorem file_tests_exclusive (resource : Uri) :
  List.length
    (filter (fun b : bool => b)
       [isSolution resource; isProjectJson resource; isCSharpProject resource;
        isCsx resource; isCake resource; isCs resource]) <= 1.
Proof. exact (tests_at_most_one resource). Qed.

(** ** What one folder adds *)

Section FolderStepFacts.

Context {host : Host}.

Lemma scanResource_eq (folderPath : string) (ts : Targets) (fl : Flags) (r : Uri) :
  scanResource folderPath (ts, fl) r
  = (mkTargets (solutionTargets ts ++ optional (isSolution r) (solutionTarget r))
       (projectJsonTargets ts ++ optional (isProjectJson r) (projectJsonTarget r))
       (projectRootTargets ts)
       (projectTargets ts ++ optional (isCSharpProject r) (projectTarget r))
       (otherTargets ts),
     mkFlags (hasProjectJsonAtRoot fl || projectJsonAtRoot folderPath r)
       (hasCSX fl || isCsx r) (hasCake fl || isCake r) (hasCs fl || isCs r)).
Proof.
  pose proof (tests_at_most_one r) as X.
  unfold scanResource, projectJsonAtRoot, optional,
    push_solution, push_projectJson, push_project.
  destruct ts as [sol pj root proj other], fl as [atRoot csx cake cs]; simpl.
  destruct (isSolution r), (isProjectJson r), (isCSharpProject r),
    (isCsx r), (isCake r), (isCs r); simpl in X; try lia;
    simpl; rewrite ?app_nil_r, ?orb_false_r; reflexivity.
Qed.

Lemma scan_eq (folderPath : string) (resources : list Uri) :
  forall ts fl,
    fold_left (scanResource folderPath) resources (ts, fl)
    = (mkTargets
         (solutionTargets ts ++ map solutionTarget (filter isSolution resources))
         (projectJsonTargets ts
          ++ map projectJsonTarget (filter isProjectJson resources))
         (projectRootTargets ts)
         (projectTargets ts ++ map projectTarget (filter isCSharpProject resources))
         (otherTargets ts),
       mkFlags
         (hasProjectJsonAtRoot fl || existsb (projectJsonAtRoot folderPath) resources)
         (hasCSX fl || existsb isCsx resources)
         (hasCake fl || existsb isCake resources)
         (hasCs fl || existsb isCs resources)).
Proof.
  induction resources as [|r rs IH]; intros ts fl.
  - simpl. rewrite !app_nil_r, !orb_false_r. destruct ts, fl; reflexivity.
  - cbn [fold_left]. rewrite scanResource_eq, IH. simpl. unfold optional.
    rewrite <- !app_assoc, <- !orb_assoc.
    destruct (isSolution r), (isProjectJson r), (isCSharpProject r); reflexivity.
Qed.

Lemma nonEmpty_app_map {A B : Type} (f : A -> B) (p : A -> bool) (seen l : list A) :
  nonEmpty (map f (filter p seen) ++ map f (filter p l)) = existsb p (seen ++ l).
Proof.
  rewrite <- map_app, <- filter_app. generalize (seen ++ l). intros k.
  induction k as [|x k IH]; simpl; [reflexivity|].
  destruct (p x); simpl; [reflexivity | exact IH].
Qed.

Lemma existsb_atRoot (folderPath : string) (seen l : list Uri) :
  existsb isProjectJson (seen ++ l) = false ->
  existsb (projectJsonAtRoot folderPath) l = false.
Proof.
  rewrite existsb_app. intros H. apply orb_false_iff in H. destruct H as [_ H].
  induction l as [|r l IH]; simpl in *; [reflexivity|].
  apply orb_false_iff in H. destruct H as [H1 H2].
  unfold projectJsonAtRoot at 1. rewrite H1. simpl. apply IH, H2.
Qed.

Lemma addFolderTargets_step (seen : list Uri) (folderPath : string)
  (resources : list Uri) (ts : Targets) :
  solutionTargets ts = map solutionTarget (filter isSolution seen) ->
  projectJsonTargets ts = map projectJsonTarget (filter isProjectJson seen) ->
  projectTargets ts = map projectTarget (filter isCSharpProject seen) ->
  FolderStep seen folderPath resources ts
    (addFolderTargets folderPath
       (fold_left (scanResource folderPath) resources (ts, noFlags))).
Proof.
  intros Es Ej Ep. rewrite scan_eq. unfold addFolderTargets, FolderStep.
  cbn [solutionTargets projectJsonTargets projectRootTargets projectTargets
       otherTargets hasProjectJsonAtRoot hasCSX hasCake hasCs noFlags orb].
  rewrite Es, Ej, Ep, !nonEmpty_app_map.
  unfold rootFolderRule, looseFilesRule, optional.
  pose proof (existsb_atRoot folderPath seen resources) as R.
  destruct (existsb isCSharpProject (seen ++ resources)),
    (existsb isSolution (seen ++ resources)),
    (existsb isProjectJson (seen ++ resources)),
    (existsb (projectJsonAtRoot folderPath) resources),
    (existsb isCsx resources), (existsb isCake resources),
    (existsb isCs resources);
    try (specialize (R eq_refl); discriminate R);
    simpl; rewrite ?app_nil_r, <- ?app_assoc; repeat split; reflexivity.
Qed.

Lemma resourcesOf_app (m1 m2 : UriMap) :
  resourcesOf (m1 ++ m2) = resourcesOf m1 ++ resourcesOf m2.
Proof. unfold resourcesOf. rewrite map_app, concat_app. reflexivity. Qed.

Lemma resourcesOf_cons (i : nat) (rs : list Uri) (m : UriMap) :
  resourcesOf ((i, rs) :: m) = rs ++ resourcesOf m.
Proof. reflexivity. Qed.

Lemma FolderStep_collected (seen : list Uri) (folderPath : string)
  (resources : list Uri) (ts ts' : Targets) :
  CollectedFrom seen ts -> FolderStep seen folderPath resources ts ts' ->
  CollectedFrom (seen ++ resources) ts'.
Proof.
  intros (Es & Ej & Ep) (Fs & Fj & Fp & _).
  unfold CollectedFrom. rewrite Fs, Fj, Fp, Es, Ej, Ep, !filter_app, !map_app.
  auto.
Qed.

Lemma processFolder_step (wf : list WorkspaceFolder) (seen : list Uri)
  (i : nat) (rs : list Uri) (f : WorkspaceFolder) (ts : Targets) :
  CollectedFrom seen ts -> nth_error wf i = Some f ->
  exists ts', processFolder wf ts (i, rs) = inr ts'
              /\ FolderStep seen (fsPath (uri f)) rs ts ts'.
Proof.
  intros (Es & Ej & Ep) Ef. unfold processFolder. rewrite Ef.
  eexists. split; [reflexivity|]. apply addFolderTargets_step; assumption.
Qed.

Lemma processFolders_collected (wf : list WorkspaceFolder) (m : UriMap) :
  forall seen ts ts',
    CollectedFrom seen ts -> processFolders wf m ts = inr ts' ->
    CollectedFrom (seen ++ resourcesOf m) ts'.
Proof.
  induction m as [|[i rs] m IH]; intros seen ts ts' Hc E.
  - simpl in E. injection E as <-. unfold resourcesOf. simpl.
    rewrite app_nil_r. exact Hc.
  - cbn [processFolders] in E.
    destruct (nth_error wf i) as [f|] eqn:Ef.
    + destruct (processFolder_step wf seen i rs f ts Hc Ef) as (ts1 & E1 & F1).
      rewrite E1 in E. simpl in E.
      rewrite resourcesOf_cons, app_assoc.
      eapply IH; [|exact E]. eapply FolderStep_collected; eauto.
    + unfold processFolder in E. rewrite Ef in E. discriminate.
Qed.

(** X2. One Solution target for each solution file, one ProjectJson target
    for each project.json file and one Project target for each project
    file, in the order in which the folders and their resources are
    visited. *)
Theorem classifier_collects (wf : list WorkspaceFolder) (m : UriMap) (ts : Targets) :
  processFolders wf m noTargets = inr ts ->
  solutionTargets ts = map solutionTarget (filter isSolution (resourcesOf m))
  /\ projectJsonTargets ts
     = map projectJsonTarget (filter isProjectJson (resourcesOf m))
  /\ projectTargets ts = map projectTarget (filter isCSharpProject (resourcesOf m)).
Proof.
  intros E.
  apply (processFolders_collected wf m [] noTargets ts); [|exact E].
  repeat split.
Qed.

(** X3. What the folder visited after the folders of [m] adds: the root-folder
    test and the loose-files test read the resources of all folders
    visited so far, the two script tests those of the folder only.  For
    the folder visited first these are the rules of one folder. *)
Theorem folder_step (wf : list WorkspaceFolder) (m : UriMap) (i : nat)
  (rs : list Uri) (f : WorkspaceFolder) (ts : Targets) :
  processFolders wf m noTargets = inr ts ->
  nth_error wf i = Some f ->
  exists ts',
    processFolders wf (m ++ [(i, rs)]) noTargets = inr ts'
    /\ FolderStep (resourcesOf m) (fsPath (uri f)) rs ts ts'
    /\ (m = [] ->
        projectRootTargets ts'
        = optional (rootFolderRule_spec (fsPath (uri f)) rs)
            (rootTarget (fsPath (uri f)))
        /\ otherTargets ts'
           = optional (existsb isCsx rs) (csxTarget (fsPath (uri f)))
             ++ optional (existsb isCake rs) (cakeTarget (fsPath (uri f)))
             ++ optional (looseFilesRule_spec (fsPath (uri f)) rs)
                  (looseFolderTarget (fsPath (uri f)))).
Proof.
  intros E Ef.
  assert (Hc : CollectedFrom (resourcesOf m) ts).
  { apply (processFolders_collected wf m [] noTargets ts); [repeat split | exact E]. }
  destruct (processFolder_step wf (resourcesOf m) i rs f ts Hc Ef) as (ts' & E1 & F1).
  exists ts'. split; [|split].
  - rewrite processFolders_app, E. cbn [bind processFolders]. rewrite E1. reflexivity.
  - exact F1.
  - intros ->. simpl in E. injection E as <-.
    destruct F1 as (_ & _ & _ & Fr & Fo). simpl in Fr, Fo. split; assumption.
Qed.

Lemma Map_set_keys (P : nat -> Prop) (k : nat) (b : list Uri) (m : UriMap) :
  P k -> Forall (fun e => P (fst e)) m -> Forall (fun e => P (fst e)) (Map_set k b m).
Proof.
  intros Hk. induction 1 as [|[k' b'] m Hx Hm IH]; simpl.
  - constructor; [exact Hk | constructor].
  - destruct (Nat.eqb k' k); constructor; auto.
Qed.

Lemma addToBucket_keys (P : nat -> Prop) (rs : list Uri) :
  (forall r f, getWorkspaceFolder r = Some f -> P (index f)) ->
  forall m, Forall (fun e => P (fst e)) m ->
            Forall (fun e => P (fst e)) (fold_left addToBucket rs m).
Proof.
  intros Hf. induction rs as [|r rs IH]; intros m Hm; simpl; [exact Hm|].
  apply IH. unfold addToBucket.
  destruct (getWorkspaceFolder r) as [f|] eqn:E; [|exact Hm].
  apply Map_set_keys; [eapply Hf; eauto | exact Hm].
Qed.

(** X4. The classifier returns a list, and does not throw, when every folder
    that the editor reports for a resource has its index in
    [workspaceFolders]. *)
Theorem resourcesToLaunchTargets_returns (resources : list Uri)
  (wf : list WorkspaceFolder) (maxProjectResults : Z) :
  (forall r f, getWorkspaceFolder r = Some f -> index f < List.length wf) ->
  exists out, resourcesToLaunchTargets resources wf maxProjectResults = inr out.
Proof.
  intros Hf. unfold resourcesToLaunchTargets.
  destruct (List.length resources =? 0)%nat; [eexists; reflexivity|].
  destruct (List.length (filter _ resources) =? 0)%nat; [eexists; reflexivity|].
  unfold resourcesAndFolderMapToLaunchTargets.
  match goal with
  | |- context [processFolders wf ?m noTargets] =>
      destruct (processFolders_total wf m) with (ts := noTargets) as [ts E]
  end.
  - apply (addToBucket_keys (fun k => k < List.length wf)); [exact Hf | constructor].
  - rewrite E. simpl. eexists. reflexivity.
Qed.

End FolderStepFacts.

(** ** Escaping on the Windows path *)

Lemma star_spec (accept : ascii -> bool) (k : string -> bool) (s : string) :
  star accept k s = true
  <-> exists u rest, s = (u ++ rest)%string
                     /\ JsString.all accept u = true /\ k rest = true.
Proof.
  induction s as [|c s IH]; simpl.
  - rewrite orb_false_r. split.
    + intros H. exists EmptyString, EmptyString. auto.
    + intros (u & rest & E & _ & K). destruct u; simpl in E; [|discriminate].
      subst rest. exact K.
  - split.
    + intros H. apply orb_true_iff in H. destruct H as [H|H].
      * exists EmptyString, (String c s). auto.
      * apply andb_true_iff in H. destruct H as [Hc H].
        apply IH in H. destruct H as (u & rest & -> & Hu & K).
        exists (String c u), rest. simpl. rewrite Hc, Hu. auto.
    + intros (u & rest & E & Hu & K). destruct u as [|a u]; simpl in E.
      * subst rest. rewrite K. reflexivity.
      * injection E as <- ->. simpl in Hu. apply andb_true_iff in Hu.
        destruct Hu as [Ha Hu]. rewrite Ha. simpl.
        apply orb_true_iff. right. apply IH. exists u, rest. auto.
Qed.

Lemma negb_eqb_true (a b : ascii) : negb (Ascii.eqb a b) = true <-> a <> b.
Proof.
  destruct (Ascii.eqb_spec a b); simpl; split; congruence.
Qed.

Lemma hasSpaceWithoutQuotes_spec (arg : string) :
  test hasSpaceWithoutQuotes arg = true <-> SpaceBetween arg.
Proof.
  unfold test, hasSpaceWithoutQuotes, SpaceBetween; simpl.
  destruct arg as [|c0 s]; simpl.
  { split; [discriminate|]. intros (? & ? & ? & ? & ? & E & _). discriminate. }
  rewrite andb_true_iff, negb_eqb_true, star_spec. split.
  - intros (H0 & u & rest & -> & Hu & K).
    destruct rest as [|c r]; [discriminate|].
    apply andb_true_iff in K. destruct K as [Hc K].
    apply Ascii.eqb_eq in Hc. subst c.
    apply star_spec in K. destruct K as (v & rest & -> & Hv & K).
    destruct rest as [|c1 rest]; [discriminate|].
    rewrite andb_true_r in K. apply negb_eqb_true in K.
    exists c0, u, v, c1, rest. auto.
  - intros (c & u & v & c1 & rest & E & H0 & Hu & Hv & H1).
    injection E as <- ->. split; [exact H0|].
    exists u, (String JsString.space (v ++ String c1 rest)).
    repeat split; auto.
    rewrite Ascii.eqb_refl. simpl. apply star_spec.
    exists v, (String c1 rest). repeat split; auto.
    rewrite andb_true_r. apply negb_eqb_true. exact H1.
Qed.

Lemma replaceAllChar_absent (c : ascii) (rep s : string) :
  JsString.count c s = 0 -> JsString.replaceAllChar c rep s = s.
Proof.
  induction s as [|a s IH]; simpl; [reflexivity|].
  destruct (Ascii.eqb a c); simpl; [discriminate|].
  intros H. rewrite IH; auto.
Qed.

Lemma replace_at_most_one (c : ascii) (rep s : string) :
  JsString.count c s <= 1 ->
  JsString.replace (String c EmptyString) rep s = JsString.replaceAllChar c rep s.
Proof.
  induction s as [|a s IH]; simpl; [reflexivity|].
  destruct (ascii_dec c a) as [->|Hne].
  - rewrite Ascii.eqb_refl. simpl. intros H.
    assert (Hp : prefix EmptyString s = true) by (destruct s; reflexivity).
    rewrite Hp, replaceAllChar_absent by lia. reflexivity.
  - destruct (Ascii.eqb_spec a c) as [->|_]; [congruence|].
    simpl. intros H. rewrite IH by exact H. reflexivity.
Qed.

Lemma endsWith_spec (s suffix : string) :
  JsString.endsWith s suffix = true <-> exists p, s = (p ++ suffix)%string.
Proof.
  induction s as [|c s IH]; cbn [JsString.endsWith].
  - rewrite orb_false_r, String.eqb_eq. split.
    + intros <-. exists EmptyString. reflexivity.
    + intros [p E]. destruct p; simpl in E; [auto | discriminate].
  - rewrite orb_true_iff, String.eqb_eq, IH. split.
    + intros [<- | [p ->]]; [exists EmptyString | exists (String c p)]; reflexivity.
    + intros [p E]. destruct p as [|a p]; simpl in E; [left; auto|].
      injection E as _ ->. right. exists p. reflexivity.
Qed.

Section LauncherTheorems.

Context {runtime : Runtime}.

Lemma spawn_inr (cmd : string) (args : list string) (options : SpawnOptions)
  (p : ChildProcess) :
  spawn cmd args options = inr p ->
  spawn_command p = cmd /\ spawn_args p = args /\ spawn_options p = options.
Proof.
  unfold spawn. destruct (spawnThrows cmd args options); [discriminate|].
  intros E. injection E as <-. auto.
Qed.

(** The command line that [launchWindows] hands to [cmd]. *)
Lemma launchWindows_args (launchPath cwd : string) (args : list string)
  (result : IntermediateLaunchResult) :
  launchWindows launchPath cwd args = inr result ->
  spawn_command (process result) = "cmd"
  /\ spawn_args (process result)
     = [("/s /c " ++ String JsString.dquote
           (JsString.join " " (map escapeIfNeeded (JsString.quoted launchPath :: args))
            ++ String JsString.dquote EmptyString))%string].
Proof.
  unfold launchWindows.
  destruct (spawn "cmd" _ _) as [e|p] eqn:E; simpl; [discriminate|].
  intros R. injection R as <-. simpl.
  apply spawn_inr in E. destruct E as (-> & -> & _). split; reflexivity.
Qed.

(** C3, as the code has it. [launchWindows] passes every argument, and
    the quoted launch path before them, through [escapeIfNeeded].  That
    wraps an argument in double quotes when its first character is not a
    double quote and it has a space between that character and a later
    character that is not a double quote; in any other argument with at
    most one ampersand it replaces every ampersand by [^&]. *)
Theorem escapeIfNeeded_cases :
  (forall launchPath cwd args result,
     launchWindows launchPath cwd args = inr result ->
     spawn_command (process result) = "cmd"
     /\ spawn_args (process result)
        = [("/s /c " ++ String JsString.dquote
              (JsString.join " "
                 (map escapeIfNeeded (JsString.quoted launchPath :: args))
               ++ String JsString.dquote EmptyString))%string])
  /\ (forall arg,
        (SpaceBetween arg -> escapeIfNeeded arg = JsString.quoted arg)
        /\ (~ SpaceBetween arg ->
            JsString.count JsString.ampersand arg <= 1 ->
            escapeIfNeeded arg
            = JsString.replaceAllChar JsString.ampersand "^&" arg)).
Proof.
  split; [apply launchWindows_args|].
  intros arg. unfold escapeIfNeeded. split.
  - intros H. apply hasSpaceWithoutQuotes_spec in H. rewrite H. reflexivity.
  - intros H Hc.
    destruct (test hasSpaceWithoutQuotes arg) eqn:E.
    + apply hasSpaceWithoutQuotes_spec in E. contradiction.
    + apply (replace_at_most_one JsString.ampersand). exact Hc.
Qed.

(** C2, as the code has it. With [useDebugger] the arguments of [mono] are
    the debugger agent, [--debug], [--assembly-loader=strict], the launch
    path and then the arguments that were passed, in their order; [launch]
    passes the arguments it was given, followed by the formatting options
    when these are asked for. *)
Theorem launchNixMono_debugger_args (launchPath cwd : string) (args : list string) :
  (forall environment p,
     launchNixMono launchPath cwd args environment true = inr p ->
     spawn_command p = "mono"
     /\ spawn_args p
        = debuggerAgent :: "--debug" :: "--assembly-loader=strict"
            :: launchPath :: args)
  /\ (forall platformInfo options monoResolver dotnetResolver result,
        useModernNet options = false ->
        isWindows platformInfo = false ->
        waitForDebugger options = true ->
        launch cwd args launchPath platformInfo options monoResolver dotnetResolver
          = inr result ->
        exists formatting,
          spawn_command (process result) = "mono"
          /\ spawn_args (process result)
             = debuggerAgent :: "--debug" :: "--assembly-loader=strict"
                 :: launchPath :: args ++ formatting
          /\ (useEditorFormattingSettings options = false -> formatting = []))
  /\ (forall environment,
        (forall c a o, spawnThrows c a o = None) ->
        exists p, launchNixMono launchPath cwd args environment true = inr p).
Proof.
  split; [|split].
  - intros environment p E. unfold launchNixMono in E.
    apply spawn_inr in E. destruct E as (-> & -> & _). split; reflexivity.
  - intros platformInfo options monoResolver dotnetResolver result Hm Hw Hd.
    unfold launch. rewrite Hm, Hw. unfold launchNix. rewrite Hd.
    destruct (getHostExecutableInfo monoResolver options) as [e|info]; simpl;
      [discriminate|].
    match goal with
    | |- context [launchNixMono _ _ ?a _ _] => remember a as args' eqn:Ea
    end.
    destruct (launchNixMono launchPath cwd args' (env info) true) as [e|p] eqn:E;
      simpl; [discriminate|].
    intros R. injection R as <-. simpl.
    unfold launchNixMono in E. apply spawn_inr in E. destruct E as (-> & -> & _).
    destruct (useEditorFormattingSettings options); subst args';
      unfold JsArray.unshift, JsArray.copy, JsArray.push.
    + rewrite <- !app_assoc.
      eexists. split; [reflexivity|]. split; [reflexivity|]. discriminate.
    + exists []. rewrite app_nil_r. auto.
  - intros environment H. unfold launchNixMono, spawn. rewrite H.
    eexists. reflexivity.
Qed.

(** C7. On the managed-runtime path a launch path that does not end in
    [.dll] is the command, with the arguments as they were; one that does
    is the first argument of [dotnet.exe] on Windows and of [dotnet]
    elsewhere, before the arguments as they were. *)
Theorem launchDotnet_command (launchPath cwd : string) (args : list string)
  (platformInfo : PlatformInformation) (options : Options)
  (dotnetResolver : IHostExecutableResolver) :
  (forall result,
     launchDotnet launchPath cwd args platformInfo options dotnetResolver = inr result ->
     ((~ exists p, launchPath = (p ++ ".dll")%string) ->
      spawn_command (process result) = launchPath
      /\ spawn_args (process result) = args)
     /\ ((exists p, launchPath = (p ++ ".dll")%string) ->
         spawn_command (process result)
         = (if isWindows platformInfo then "dotnet.exe" else "dotnet")
         /\ spawn_args (process result) = launchPath :: args))
  /\ (forall info,
        getHostExecutableInfo dotnetResolver options = inr info ->
        (forall c a o, spawnThrows c a o = None) ->
        exists result,
          launchDotnet launchPath cwd args platformInfo options dotnetResolver
          = inr result).
Proof.
  split.
  - intros result. unfold launchDotnet.
    destruct (getHostExecutableInfo dotnetResolver options) as [e|info]; simpl;
      [discriminate|].
    destruct (JsString.endsWith launchPath ".dll") eqn:Ed; simpl.
    + destruct (spawn _ _ _) as [e|p] eqn:E; simpl; [discriminate|].
      intros R. injection R as <-. simpl.
      apply spawn_inr in E. destruct E as (-> & -> & _).
      apply endsWith_spec in Ed. split; [intros H; contradiction | auto].
    + destruct (spawn _ _ _) as [e|p] eqn:E; simpl; [discriminate|].
      intros R. injection R as <-. simpl.
      apply spawn_inr in E. destruct E as (-> & -> & _).
      split; [auto|]. intros H. apply endsWith_spec in H. congruence.
  - intros info Hi Hs. unfold launchDotnet. rewrite Hi. simpl.
    destruct (negb (JsString.endsWith launchPath ".dll")); unfold spawn;
      rewrite Hs; simpl; eexists; reflexivity.
Qed.

Lemma settled_stays (result : IntermediateLaunchResult) (events : list ProcessEvent)
  (p : Promise LaunchResult) :
  settled p = true -> fold_left (onProcessEvent result) events p = p.
Proof.
  revert p. induction events as [|ev events IH]; intros p Hp; simpl; [reflexivity|].
  destruct p as [|v|e]; [discriminate| |]; destruct ev; simpl; apply IH; reflexivity.
Qed.

(** What makes [launch] reject: the resolver of the path taken, or
    [spawn] throwing. *)
Lemma launch_rejects (cwd : string) (args : list string) (launchPath : string)
  (platformInfo : PlatformInformation) (options : Options)
  (monoResolver dotnetResolver : IHostExecutableResolver) (reason : JsError) :
  launch cwd args launchPath platformInfo options monoResolver dotnetResolver
    = inl reason ->
  (useModernNet options = true
   /\ getHostExecutableInfo dotnetResolver options = inl reason)
  \/ (useModernNet options = false /\ isWindows platformInfo = false
      /\ getHostExecutableInfo monoResolver options = inl reason)
  \/ (exists c a o, spawnThrows c a o = Some reason).
Proof.
  unfold launch.
  match goal with
  | |- context [launchWindows _ _ ?a] => generalize a; intros args'
  end.
  destruct (useModernNet options).
  - unfold launchDotnet.
    destruct (getHostExecutableInfo dotnetResolver options) as [e|info]; simpl.
    + intros E. injection E as ->. auto.
    + destruct (negb _); unfold spawn;
        match goal with
        | |- context [spawnThrows ?c ?a ?o] =>
            destruct (spawnThrows c a o) as [e|] eqn:E; simpl; [|discriminate];
            intros R; injection R as ->; right; right; eauto
        end.
  - destruct (isWindows platformInfo).
    + unfold launchWindows, spawn.
      match goal with
      | |- context [spawnThrows ?c ?a ?o] =>
          destruct (spawnThrows c a o) as [e|] eqn:E; simpl; [|discriminate];
          intros R; injection R as ->; right; right; eauto
      end.
    + unfold launchNix.
      destruct (getHostExecutableInfo monoResolver options) as [e|info]; simpl.
      * intros E. injection E as ->. auto.
      * unfold launchNixMono, spawn.
        match goal with
        | |- context [spawnThrows ?c ?a ?o] =>
            destruct (spawnThrows c a o) as [e|] eqn:E; simpl; [|discriminate];
            intros R; injection R as ->; right; right; eauto
        end.
Qed.

(** A resolver that fails on the path taken, or a [spawn] that throws,
    rejects [launch]. *)
Lemma launch_rejected_by (cwd : string) (args : list string) (launchPath : string)
  (platformInfo : PlatformInformation) (options : Options)
  (monoResolver dotnetResolver : IHostExecutableResolver) (reason : JsError) :
  (useModernNet options = true ->
   getHostExecutableInfo dotnetResolver options = inl reason ->
   launch cwd args launchPath platformInfo options monoResolver dotnetResolver
   = inl reason)
  /\ (useModernNet options = false -> isWindows platformInfo = false ->
      getHostExecutableInfo monoResolver options = inl reason ->
      launch cwd args launchPath platformInfo options monoResolver dotnetResolver
      = inl reason)
  /\ ((forall c a o, spawnThrows c a o = Some reason) ->
      exists reason',
        launch cwd args launchPath platformInfo options monoResolver dotnetResolver
        = inl reason').
Proof.
  unfold launch. split; [|split].
  - intros -> H. unfold launchDotnet. rewrite H. reflexivity.
  - intros -> -> H. unfold launchNix. rewrite H. reflexivity.
  - intros H.
    destruct (useModernNet options).
    + unfold launchDotnet.
      destruct (getHostExecutableInfo dotnetResolver options) as [e|info]; simpl;
        [eexists; reflexivity|].
      destruct (negb _); unfold spawn; rewrite H; simpl; eexists; reflexivity.
    + destruct (isWindows platformInfo).
      * unfold launchWindows, spawn. rewrite H. simpl. eexists; reflexivity.
      * unfold launchNix.
        destruct (getHostExecutableInfo monoResolver options) as [e|info]; simpl;
          [eexists; reflexivity|].
        unfold launchNixMono, spawn. rewrite H. simpl. eexists; reflexivity.
Qed.

(** What the two listeners make of the report of [spawn], when it
    reaches them. *)
Lemma report_settles (result : IntermediateLaunchResult) (report : SpawnReport)
  (later : list ProcessEvent) :
  fold_left (onProcessEvent result) (reportEvent report :: later) Pending
  = match report with
    | started => Fulfilled result
    | notStarted err => Rejected err
    end.
Proof.
  destruct report; simpl; apply settled_stays; reflexivity.
Qed.

(** X17. When [launch] calls [spawn] in a promise job, that is on the
    modern .NET strategy, on the mono strategy, and on the Windows
    strategy for a caller that runs in a promise job, the promise of
    [launchOmniSharp] is fulfilled, with the result of [launch], exactly
    when [launch] returned and the process reports ['spawn']; it is
    rejected exactly when [launch] was rejected, with its reason, or the
    process reports ['error'], with that error; one of the two happens,
    and no later event changes it.  [launch] is rejected by a failing
    resolver of the strategy taken or by [spawn] throwing, and by nothing
    else. *)
Theorem launchOmniSharp_outcome (cwd : string) (args : list string)
  (launchPath : string) (platformInfo : PlatformInformation) (options : Options)
  (monoResolver dotnetResolver : IHostExecutableResolver)
  (caller : Turn) (report : SpawnReport) (later : list ProcessEvent) :
  useModernNet options = true \/ isWindows platformInfo = false
  \/ caller = PromiseJob ->
  let launched :=
    launch cwd args launchPath platformInfo options monoResolver dotnetResolver in
  let promise :=
    launchOmniSharp cwd args launchPath platformInfo options monoResolver
      dotnetResolver caller report later in
  (forall result,
     promise = Fulfilled result <-> launched = inr result /\ report = started)
  /\ (forall reason,
        promise = Rejected reason
        <-> launched = inl reason
            \/ ((exists result, launched = inr result)
                /\ report = notStarted reason))
  /\ promise <> Pending
  /\ (forall reason,
        launched = inl reason ->
        (useModernNet options = true
         /\ getHostExecutableInfo dotnetResolver options = inl reason)
        \/ (useModernNet options = false /\ isWindows platformInfo = false
            /\ getHostExecutableInfo monoResolver options = inl reason)
        \/ (exists c a o, spawnThrows c a o = Some reason))
  /\ (forall reason,
        (useModernNet options = true ->
         getHostExecutableInfo dotnetResolver options = inl reason ->
         promise = Rejected reason)
        /\ (useModernNet options = false -> isWindows platformInfo = false ->
            getHostExecutableInfo monoResolver options = inl reason ->
            promise = Rejected reason)
        /\ ((forall c a o, spawnThrows c a o = Some reason) ->
            exists reason', promise = Rejected reason')).
Proof.
  intros Hturn launched promise.
  assert (Ht : spawnTurn platformInfo options caller = PromiseJob).
  { unfold spawnTurn. destruct Hturn as [-> | [-> | ->]]; [reflexivity | |].
    - destruct (useModernNet options); reflexivity.
    - destruct (useModernNet options), (isWindows platformInfo); reflexivity. }
  assert (Hp : promise
               = match launched with
                 | inr result =>
                     match report with
                     | started => Fulfilled result
                     | notStarted err => Rejected err
                     end
                 | inl reason => Rejected reason
                 end).
  { unfold promise, launchOmniSharp. fold launched. rewrite Ht.
    destruct launched as [e|r]; [reflexivity | apply report_settles]. }
  split; [|split; [|split; [|split]]].
  - intros result. rewrite Hp.
    destruct launched as [e|r]; [split; [discriminate | intros [H _]; discriminate]|].
    destruct report as [|err]; split;
      try discriminate; try (intros [_ H]; discriminate).
    + intros H. injection H as ->. auto.
    + intros [H _]. injection H as ->. reflexivity.
  - intros reason. rewrite Hp.
    destruct launched as [e|r].
    + split.
      * intros H. injection H as ->. auto.
      * intros [H | [[r H] _]]; [injection H as ->; reflexivity | discriminate].
    + destruct report as [|err]; split;
        try discriminate;
        try (intros [H | [_ H]]; discriminate).
      * intros H. injection H as ->. right. split; [eauto | reflexivity].
      * intros [H | [_ H]]; [discriminate | injection H as ->; reflexivity].
  - rewrite Hp. destruct launched as [e|r]; [discriminate|].
    destruct report; discriminate.
  - intros reason. apply launch_rejects.
  - intros reason. rewrite Hp.
    destruct (launch_rejected_by cwd args launchPath platformInfo options
                monoResolver dotnetResolver reason) as (Rd & Rm & Rs).
    fold launched in Rd, Rm, Rs. split; [|split].
    + intros Hm Hr. rewrite (Rd Hm Hr). reflexivity.
    + intros Hm Hw Hr. rewrite (Rm Hm Hw Hr). reflexivity.
    + intros Hs. destruct (Rs Hs) as [reason' E]. rewrite E. eauto.
Qed.

End LauncherTheorems.

(** ** Splitting a string *)

Lemma split_nonempty (sep : ascii) (s : string) : JsSplit.split sep s <> [].
Proof.
  destruct s as [|c s]; simpl; [discriminate|].
  destruct (Ascii.eqb c sep); [discriminate|].
  destruct (JsSplit.split sep s); discriminate.
Qed.

Lemma split_without (sep : ascii) (s : string) :
  JsString.count sep s = 0 -> JsSplit.split sep s = [s].
Proof.
  induction s as [|c s IH]; simpl; [reflexivity|].
  destruct (Ascii.eqb c sep); simpl; [discriminate|].
  intros H. rewrite IH by exact H. reflexivity.
Qed.

Lemma split_at (sep : ascii) (a rest : string) :
  JsString.count sep a = 0 ->
  JsSplit.split sep (a ++ String sep rest) = a :: JsSplit.split sep rest.
Proof.
  induction a as [|c a IH]; simpl.
  - rewrite Ascii.eqb_refl. reflexivity.
  - destruct (Ascii.eqb c sep); simpl; [discriminate|].
    intros H. rewrite IH by exact H. reflexivity.
Qed.

Lemma split_first_without (sep : ascii) (s : string) :
  JsString.count sep (hd EmptyString (JsSplit.split sep s)) = 0.
Proof.
  induction s as [|c s IH]; simpl; [reflexivity|].
  destruct (Ascii.eqb c sep) eqn:E; [reflexivity|].
  destruct (JsSplit.split sep s) as [|piece pieces] eqn:S; simpl in *.
  - rewrite E. reflexivity.
  - rewrite E. exact IH.
Qed.

Lemma count_app (c : ascii) (a b : string) :
  JsString.count c (a ++ b) = JsString.count c a + JsString.count c b.
Proof.
  induction a as [|x a IH]; simpl; [reflexivity|]. rewrite IH. lia.
Qed.

Lemma split_length (sep : ascii) (s : string) :
  List.length (JsSplit.split sep s) = S (JsString.count sep s).
Proof.
  induction s as [|c s IH]; simpl; [reflexivity|].
  destruct (Ascii.eqb c sep); simpl; [rewrite IH; reflexivity|].
  destruct (JsSplit.split sep s); simpl in *; [discriminate | exact IH].
Qed.

Lemma pop_one {A : Type} (x : A) : JsSplit.pop [x] = Some x.
Proof. reflexivity. Qed.

Lemma pop_more {A : Type} (x y : A) (l : list A) :
  JsSplit.pop (x :: y :: l) = JsSplit.pop (y :: l).
Proof.
  unfold JsSplit.pop. change (rev (x :: y :: l)) with (rev (y :: l) ++ [x]).
  destruct (rev (y :: l)) as [|z zs] eqn:R; [|reflexivity].
  apply (f_equal (@List.length A)) in R. rewrite length_rev in R. discriminate.
Qed.

(** The last piece: what follows the last separator. *)
Lemma pop_split (sep : ascii) (s n : string) :
  JsSplit.pop (JsSplit.split sep s) = Some n
  <-> JsString.count sep n = 0
      /\ (s = n \/ exists dir, s = (dir ++ String sep n)%string).
Proof.
  revert n. induction s as [|c s IH]; intros n.
  - simpl. split.
    + intros H. injection H as <-. auto.
    + intros [_ [<- | [dir E]]]; [reflexivity|].
      destruct dir; discriminate.
  - pose proof (split_length sep s) as L.
    cbn [JsSplit.split].
    destruct (Ascii.eqb_spec c sep) as [->|Hne].
    + destruct (JsSplit.split sep s) as [|p ps] eqn:S; [discriminate|].
      rewrite pop_more, IH. split.
      * intros [Hn [-> | [dir ->]]].
        -- split; [exact Hn|]. right. exists EmptyString. reflexivity.
        -- split; [exact Hn|]. right. exists (String sep dir). reflexivity.
      * intros [Hn [E | [dir E]]].
        -- subst n. simpl in Hn. rewrite Ascii.eqb_refl in Hn. discriminate.
        -- split; [exact Hn|]. destruct dir as [|d dir]; simpl in E.
           ++ injection E as ->. auto.
           ++ injection E as _ ->. right. exists dir. reflexivity.
    + destruct (JsSplit.split sep s) as [|p ps] eqn:S; [discriminate|].
      destruct ps as [|p2 ps].
      * simpl in L. injection L as L. symmetry in L.
        pose proof (split_without sep s L) as W. rewrite S in W.
        injection W as ->. rewrite pop_one. split.
        -- intros H. injection H as <-. split; [|auto].
           simpl. destruct (Ascii.eqb_spec c sep); [contradiction | exact L].
        -- intros [Hn [<- | [dir E]]]; [reflexivity|].
           exfalso. destruct dir as [|d dir]; simpl in E; injection E as -> ->.
           ++ contradiction.
           ++ rewrite count_app in L. simpl in L. rewrite Ascii.eqb_refl in L. lia.
      * rewrite pop_more, <- (pop_more p p2 ps), IH. split.
        -- intros [Hn [E | [dir ->]]].
           ++ exfalso. subst n. rewrite (split_without sep s Hn) in S. discriminate.
           ++ split; [exact Hn|]. right. exists (String c dir). reflexivity.
        -- intros [Hn [E | [dir E]]].
           ++ exfalso. subst n. simpl in Hn.
              destruct (Ascii.eqb c sep); [discriminate|].
              rewrite (split_without sep s Hn) in S. discriminate.
           ++ split; [exact Hn|]. destruct dir as [|d dir]; simpl in E.
              ** injection E as -> _. contradiction.
              ** injection E as _ ->. right. exists dir. reflexivity.
Qed.

(** ** The fix-all menu *)

Section FixAllFacts.

Import FixAll.

Context {editor : Editor}.

Lemma labelOf_colon (x : FixAllItem) : 1 <= JsString.count ":"%char (labelOf x).
Proof.
  unfold labelOf. rewrite count_app. simpl. lia.
Qed.

Lemma labelOf_not_fixAll (x : FixAllItem) : labelOf x <> fixAllIssues.
Proof.
  intros E. pose proof (labelOf_colon x) as H. rewrite E in H.
  vm_compute in H. lia.
Qed.

Lemma filterOf_labelOf (x : FixAllItem) (m : string) :
  JsString.count ":"%char (Id x) = 0 -> Message x = Some m ->
  filterOf (labelOf x)
  = [mkFixAllItem (Id x)
       (Some (String " " (hd EmptyString (JsSplit.split ":"%char m))))].
Proof.
  intros Hid Hm. unfold filterOf, labelOf. rewrite Hm. simpl render.
  change (Id x ++ ": " ++ m)%string with (Id x ++ String ":" (String " " m))%string.
  rewrite split_at by exact Hid. cbn [hd nth_error].
  cbn [JsSplit.split]. change (Ascii.eqb " " ":") with false. cbv iota.
  pose proof (split_nonempty ":"%char m) as N.
  destruct (JsSplit.split ":"%char m) as [|p ps]; [congruence|]. reflexivity.
Qed.

Lemma spaced_first_piece (m : string) :
  String " " (hd EmptyString (JsSplit.split ":"%char m)) <> m.
Proof.
  intros E.
  assert (C : JsString.count ":"%char m = 0).
  { rewrite <- E. simpl. apply split_first_without. }
  rewrite (split_without _ _ C) in E. simpl in E.
  apply (f_equal String.length) in E. simpl in E. lia.
Qed.

Lemma applyFixes_trace (fileName : string) (scope : FixAllScope)
  (filter : option (list FixAllItem)) :
  let request := mkRunFixAllRequest fileName scope filter true true false in
  fst (applyFixes fileName scope filter) = [RunFixAll request]
  \/ exists changes,
       fst (applyFixes fileName scope filter) = [RunFixAll request; BuildEdit changes].
Proof.
  intros request. unfold applyFixes. fold request.
  unfold andThen, await, ret.
  destruct (runFixAll request) as [e|[changes|]]; simpl; eauto.
Qed.

(** The effects of the menu, step by step. *)
Lemma fixAllMenu_trace (scope : FixAllScope) :
  fst (fixAllMenu scope)
  = match activeFileName with
    | None => [ShowWarningMessage "Text editor must be focused to fix all issues"]
    | Some fileName =>
        AskFixAll (mkGetFixAllRequest fileName scope)
        :: match getFixAll (mkGetFixAllRequest fileName scope) with
           | inl _ => []
           | inr items =>
               AskQuickPick (menuOf scope items)
               :: match showQuickPick (menuOf scope items) with
                  | None => []
                  | Some action =>
                      fst (applyFixes fileName scope
                             (if String.eqb action fixAllIssues then None
                              else Some (filterOf action)))
                  end
           end
    end.
Proof.
  unfold fixAllMenu, menuOf, fixAllIssues.
  destruct activeFileName as [fileName|]; [|reflexivity].
  unfold andThen at 1. unfold await at 1.
  destruct (getFixAll _) as [e|items]; [reflexivity|]. cbv zeta.
  unfold andThen at 1. unfold await at 1.
  destruct (showQuickPick _) as [action|]; [|reflexivity].
  destruct (String.eqb action "Fix all issues"); cbn [negb];
    match goal with
    | |- context [applyFixes ?f ?s ?flt] => destruct (applyFixes f s flt)
    end; reflexivity.
Qed.

Lemma menuOf_fixAll (scope : FixAllScope) (items : list FixAllItem) :
  In fixAllIssues (menuOf scope items) <-> scope = Document.
Proof.
  assert (N : ~ In fixAllIssues (map labelOf items)).
  { intros H. apply in_map_iff in H. destruct H as (x & E & _).
    exact (labelOf_not_fixAll x E). }
  unfold menuOf. destruct scope; simpl; split; intros H;
    try reflexivity; try discriminate; try contradiction; auto.
Qed.

(** X13. Picking the label of an item whose [Id] has no colon runs one
    fix, whose filter is one item with that [Id]; the [Message] of the
    filter is a space followed by the item's message up to its first
    colon, and so never the message of the item. *)
Theorem fixAllMenu_picks_item (scope : FixAllScope) (fileName : string)
  (items : list FixAllItem) (x : FixAllItem) (m : string) :
  activeFileName = Some fileName ->
  getFixAll (mkGetFixAllRequest fileName scope) = inr items ->
  showQuickPick (menuOf scope items) = Some (labelOf x) ->
  JsString.count ":"%char (Id x) = 0 ->
  Message x = Some m ->
  let message := String " " (hd EmptyString (JsSplit.split ":"%char m)) in
  let request :=
    mkRunFixAllRequest fileName scope
      (Some [mkFixAllItem (Id x) (Some message)]) true true false in
  (exists rest,
     fst (fixAllMenu scope)
     = AskFixAll (mkGetFixAllRequest fileName scope)
         :: AskQuickPick (menuOf scope items) :: RunFixAll request :: rest
     /\ forall r, ~ In (RunFixAll r) rest)
  /\ Some message <> Message x.
Proof.
  intros Ha Hg Hq Hid Hm message request. split.
  - rewrite fixAllMenu_trace, Ha, Hg, Hq.
    destruct (String.eqb_spec (labelOf x) fixAllIssues) as [E|_];
      [exfalso; exact (labelOf_not_fixAll x E)|].
    rewrite (filterOf_labelOf x m Hid Hm). fold message.
    destruct (applyFixes_trace fileName scope
                (Some [mkFixAllItem (Id x) (Some message)])) as [E | [changes E]];
      fold request in E; rewrite E.
    + exists []. split; [reflexivity | auto].
    + exists [BuildEdit changes]. split; [reflexivity|].
      intros r [H|[]]. discriminate.
  - rewrite Hm. intros E. injection E as E. exact (spaced_first_piece m E).
Qed.

(** X14. What the menu does and never does: it asks nothing without a focused editor;
    it offers "Fix all issues" in the document scope only; it runs no
    fix when the pick is dismissed; what it runs is for the focused file
    and the scope of the menu, is not applied by the server, and has no
    filter exactly when the pick is "Fix all issues". *)
Theorem fixAllMenu_effects (scope : FixAllScope) :
  (activeFileName = None ->
   fixAllMenu scope
   = ([ShowWarningMessage "Text editor must be focused to fix all issues"], inr tt))
  /\ (forall targets,
        In (AskQuickPick targets) (fst (fixAllMenu scope)) ->
        (In fixAllIssues targets <-> scope = Document))
  /\ (forall request,
        In (RunFixAll request) (fst (fixAllMenu scope)) ->
        activeFileName = Some (FileName request)
        /\ Scope request = scope
        /\ WantsAllCodeActionOperations request = true
        /\ WantsTextChanges request = true
        /\ ApplyChanges request = false
        /\ exists targets action,
             In (AskQuickPick targets) (fst (fixAllMenu scope))
             /\ showQuickPick targets = Some action
             /\ FixAllFilter request
                = if String.eqb action fixAllIssues then None
                  else Some (filterOf action)).
Proof.
  split; [|split].
  - intros H. unfold fixAllMenu. rewrite H. reflexivity.
  - intros targets. rewrite fixAllMenu_trace.
    destruct activeFileName as [fileName|]; [|intros [H|[]]; discriminate].
    destruct (getFixAll _) as [e|items]; [intros [H|[]]; discriminate|].
    intros [H|[H|H]]; [discriminate | injection H as <-; apply menuOf_fixAll|].
    exfalso. destruct (showQuickPick _) as [action|]; [|exact H].
    match goal with
    | H : In _ (fst (applyFixes ?f ?s ?flt)) |- _ =>
        destruct (applyFixes_trace f s flt) as [E | [changes E]]; rewrite E in H
    end.
    + destruct H as [H|[]]. discriminate.
    + destruct H as [H|[H|[]]]; discriminate.
  - intros request. rewrite fixAllMenu_trace.
    destruct activeFileName as [fileName|]; [|intros [H|[]]; discriminate].
    destruct (getFixAll _) as [e|items]; [intros [H|[]]; discriminate|].
    intros [H|[H|H]]; [discriminate | discriminate|].
    destruct (showQuickPick (menuOf scope items)) as [action|] eqn:Q; [|destruct H].
    assert (R : request
                = mkRunFixAllRequest fileName scope
                    (if String.eqb action fixAllIssues then None
                     else Some (filterOf action)) true true false).
    { match goal with
      | H : In _ (fst (applyFixes ?f ?s ?flt)) |- _ =>
          destruct (applyFixes_trace f s flt) as [E | [changes E]]; rewrite E in H
      end.
      - destruct H as [H|[]]. injection H as <-. reflexivity.
      - destruct H as [H|[H|[]]]; [|discriminate]. injection H as <-. reflexivity. }
    subst request. cbn [FileName Scope WantsAllCodeActionOperations WantsTextChanges
                          ApplyChanges FixAllFilter].
    repeat split. exists (menuOf scope items), action.
    split; [right; left; reflexivity|]. split; [exact Q | reflexivity].
Qed.

End FixAllFacts.

(** ** The workspace tests *)

Section IntegrationFacts.

Import IntegrationHelpers.

Context {workspace : Workspace}.

(** X15. For an expected name without a separator, [isGivenSln] holds
    exactly when the path of the first workspace folder is the name or
    ends in a separator followed by the name; it throws exactly when the
    workspace has no folder. *)
Theorem isGivenSln_last_segment (expected : string) :
  JsString.count path_sep expected = 0 ->
  (isGivenSln expected = inr true
   <-> exists primeWorkspace others,
         workspaceFolders = Some (primeWorkspace :: others)
         /\ (fsPath (uri primeWorkspace) = expected
             \/ exists dir,
                  fsPath (uri primeWorkspace)
                  = (dir ++ String path_sep expected)%string))
  /\ ((exists e, isGivenSln expected = inl e)
      <-> workspaceFolders = None \/ workspaceFolders = Some []).
Proof.
  intros Hc. unfold isGivenSln. split.
  - destruct workspaceFolders as [[|f others]|].
    + split; [discriminate|]. intros (p & o & E & _). discriminate.
    + pose proof (pop_split path_sep (fsPath (uri f)) expected) as P.
      destruct (JsSplit.pop (JsSplit.split path_sep (fsPath (uri f)))) as [n|].
      * split.
        -- intros H. injection H as H. apply String.eqb_eq in H. subst n.
           exists f, others. split; [reflexivity|]. apply P. reflexivity.
        -- intros (p & o & E & H). injection E as <- <-.
           destruct P as [_ P]. specialize (P (conj Hc H)). injection P as ->.
           rewrite String.eqb_refl. reflexivity.
      * split; [discriminate|].
        intros (p & o & E & H). injection E as <- <-.
        destruct P as [_ P]. specialize (P (conj Hc H)). discriminate.
    + split; [discriminate|]. intros (p & o & E & _). discriminate.
  - destruct workspaceFolders as [[|f others]|]; split;
      try (intros [e H]; discriminate); try (intros [H|H]; discriminate);
      eauto.
Qed.

(** X16. At most one of the three workspace tests holds of a workspace:
    when one returns [true], the two others return [false]. *)
Theorem workspace_tests_exclusive :
  (isRazorWorkspace = inr true ->
   isSlnWithCsproj = inr false /\ isSlnWithGenerator = inr false)
  /\ (isSlnWithCsproj = inr true ->
      isRazorWorkspace = inr false /\ isSlnWithGenerator = inr false)
  /\ (isSlnWithGenerator = inr true ->
      isRazorWorkspace = inr false /\ isSlnWithCsproj = inr false).
Proof.
  unfold isRazorWorkspace, isSlnWithCsproj, isSlnWithGenerator, isGivenSln.
  destruct workspaceFolders as [[|f others]|];
    try (repeat split; discriminate).
  destruct (JsSplit.pop _) as [n|]; [|repeat split; discriminate].
  repeat split; injection H as H; apply String.eqb_eq in H; subst n; reflexivity.
Qed.

End IntegrationFacts.

(** ** The map of folders and what the classifier reads of it *)
Lemma Map_has_get (k : nat) (m : UriMap) :
  Map_has k m = match Map_get k m with Some _ => true | None => false end.
Proof.
  induction m as [|[k' b] m IH]; simpl; [reflexivity|].
  destruct (Nat.eqb k' k); simpl; [reflexivity | exact IH].
Qed.

Lemma Map_get_set (k k' : nat) (b : list Uri) (m : UriMap) :
  Map_get k (Map_set k' b m) = if Nat.eqb k' k then Some b else Map_get k m.
Proof.
  induction m as [|[k2 b2] m IH]; simpl.
  - destruct (Nat.eqb k' k); reflexivity.
  - destruct (Nat.eqb_spec k2 k') as [->|N]; simpl.
    + destruct (Nat.eqb k' k); reflexivity.
    + rewrite IH. destruct (Nat.eqb_spec k2 k) as [->|N2].
      * destruct (Nat.eqb_spec k' k); [congruence | reflexivity].
      * reflexivity.
Qed.

Lemma Map_set_keys_eq (k : nat) (b : list Uri) (m : UriMap) :
  map fst (Map_set k b m) = if Map_has k m then map fst m else map fst m ++ [k].
Proof.
  induction m as [|[k2 b2] m IH]; simpl; [reflexivity|].
  destruct (Nat.eqb_spec k2 k) as [->|N]; simpl; [reflexivity|].
  rewrite IH. destruct (Map_has k m); reflexivity.
Qed.

Lemma firsts_In (x : nat) (l : list nat) : In x (firsts l) <-> In x l.
Proof.
  induction l as [|y l IH]; simpl; [tauto|].
  rewrite filter_In, IH. destruct (Nat.eqb_spec x y) as [->|N]; simpl.
  - tauto.
  - split; [tauto|]. intros [E|H]; [congruence | auto].
Qed.

Lemma filter_ne_notin (x : nat) (l : list nat) :
  ~ In x l -> filter (fun y => negb (Nat.eqb y x)) l = l.
Proof.
  induction l as [|y l IH]; simpl; [reflexivity|].
  intros H. destruct (Nat.eqb_spec y x) as [->|N]; simpl.
  - exfalso. auto.
  - rewrite IH; auto.
Qed.

Lemma firsts_snoc (l : list nat) (x : nat) :
  firsts (l ++ [x]) = if existsb (Nat.eqb x) l then firsts l else firsts l ++ [x].
Proof.
  induction l as [|y l IH]; simpl; [reflexivity|].
  rewrite IH. destruct (Nat.eqb_spec x y) as [->|N]; simpl.
  - destruct (existsb (Nat.eqb y) l); [reflexivity|].
    rewrite filter_app. simpl. rewrite Nat.eqb_refl. simpl.
    rewrite app_nil_r. reflexivity.
  - destruct (existsb (Nat.eqb x) l); [reflexivity|].
    rewrite filter_app. simpl.
    destruct (Nat.eqb_spec x y); [congruence|]. reflexivity.
Qed.

Lemma firsts_NoDup (l : list nat) : NoDup (firsts l).
Proof.
  induction l as [|x l IH]; simpl; constructor.
  - rewrite filter_In. intros [_ H]. rewrite Nat.eqb_refl in H. discriminate.
  - apply NoDup_filter. exact IH.
Qed.

Section GroupingFacts.

Context {host : Host}.

Lemma indicesOf_app (a b : list Uri) : indicesOf (a ++ b) = indicesOf a ++ indicesOf b.
Proof. unfold indicesOf. apply flat_map_app. Qed.

Lemma bucketOf_nil (k : nat) (pre : list Uri) :
  existsb (Nat.eqb k) (indicesOf pre) = false -> bucketOf k pre = [].
Proof.
  unfold bucketOf, indicesOf, inFolder.
  induction pre as [|r pre IH]; simpl; [reflexivity|].
  destruct (getWorkspaceFolder r) as [f|]; simpl.
  - rewrite (Nat.eqb_sym k). destruct (Nat.eqb (index f) k); simpl;
      [discriminate | exact IH].
  - exact IH.
Qed.

Lemma addToBucket_grouped (pre : list Uri) (m : UriMap) (r : Uri) :
  Grouped pre m -> Grouped (pre ++ [r]) (addToBucket m r).
Proof.
  intros [Hk Hg]. unfold addToBucket, Grouped.
  rewrite indicesOf_app. unfold bucketOf. 
  destruct (getWorkspaceFolder r) as [f|] eqn:Ef.
  - assert (Ei : indicesOf [r] = [index f]).
    { unfold indicesOf. simpl. rewrite Ef. reflexivity. }
    rewrite Ei. set (i := index f) in *.
    assert (Hb : (if Map_has i m
                  then match Map_get i m with Some b => b | None => [] end
                  else []) = bucketOf i pre).
    { rewrite Map_has_get, Hg.
      destruct (existsb (Nat.eqb i) (indicesOf pre)) eqn:E; [reflexivity|].
      symmetry. apply bucketOf_nil, E. }
    rewrite Hb. split.
    + rewrite Map_set_keys_eq, firsts_snoc, Map_has_get, Hg, Hk.
      destruct (existsb (Nat.eqb i) (indicesOf pre)); reflexivity.
    + intros k. rewrite Map_get_set, Hg, existsb_app, !filter_app. simpl.
      assert (Er : inFolder k r = Nat.eqb i k).
      { unfold inFolder. rewrite Ef. reflexivity. }
      rewrite Er, (Nat.eqb_sym k i). unfold bucketOf.
      destruct (Nat.eqb_spec i k) as [E|N]; simpl.
      * rewrite <- E, orb_true_r. reflexivity.
      * rewrite orb_false_r, app_nil_r. reflexivity.
  - assert (Ei : indicesOf [r] = []).
    { unfold indicesOf. simpl. rewrite Ef. reflexivity. }
    rewrite Ei, app_nil_r. split; [exact Hk|].
    intros k. rewrite Hg, filter_app. simpl. unfold inFolder at 2. rewrite Ef.
    rewrite app_nil_r. reflexivity.
Qed.

Lemma fold_addToBucket_grouped (rs : list Uri) :
  forall pre m, Grouped pre m -> Grouped (pre ++ rs) (fold_left addToBucket rs m).
Proof.
  induction rs as [|r rs IH]; intros pre m H; simpl.
  - rewrite app_nil_r. exact H.
  - replace (pre ++ r :: rs) with ((pre ++ [r]) ++ rs)
      by (rewrite <- app_assoc; reflexivity).
    apply IH, addToBucket_grouped, H.
Qed.

Lemma Grouped_nil : Grouped [] [].
Proof. split; [reflexivity | intros k; reflexivity]. Qed.

Lemma Map_get_first (m : UriMap) :
  NoDup (map fst m) ->
  m = map (fun k => (k, match Map_get k m with Some b => b | None => [] end))
        (map fst m).
Proof.
  induction m as [|[k b] m IH]; simpl; [reflexivity|].
  intros N. inversion N as [|? ? Hn Hm]; subst.
  rewrite Nat.eqb_refl. f_equal.
  rewrite (IH Hm) at 1. rewrite !map_map. apply map_ext_in.
  intros [k2 b2] Hin. simpl.
  destruct (Nat.eqb_spec k k2) as [->|_]; [|reflexivity].
  exfalso. apply Hn. apply in_map_iff. exists (k2, b2). auto.
Qed.

Lemma grouping_closed_form (resources : list Uri) :
  fold_left addToBucket resources []
  = map (fun k => (k, filter (inFolder k) resources)) (firsts (indicesOf resources)).
Proof.
  destruct (fold_addToBucket_grouped resources [] [] Grouped_nil) as [Hk Hg].
  simpl in Hk, Hg.
  rewrite (Map_get_first (fold_left addToBucket resources [])) at 1
    by (rewrite Hk; apply firsts_NoDup).
  rewrite Hk. apply map_ext_in. intros k Hin.
  rewrite Hg. apply (proj1 (firsts_In _ _)) in Hin.
  assert (E : existsb (Nat.eqb k) (indicesOf resources) = true).
  { apply existsb_exists. exists k. split; [exact Hin | apply Nat.eqb_refl]. }
  rewrite E. reflexivity.
Qed.

(** X5. The map that [resourcesToLaunchTargets] builds has one key for
    each workspace folder that holds a resource, in the order in which the
    folders are first met, and under each key the resources of that folder
    in the order of the input; a resource outside every folder is in no
    bucket. *)
Theorem group_by_folder (resources : list Uri) :
  fold_left addToBucket resources []
  = map (fun k => (k, filter (inFolder k) resources)) (firsts (indicesOf resources)).
Proof. exact (grouping_closed_form resources). Qed.

End GroupingFacts.

Section MoreClassifierFacts.

Context {host : Host}.

Lemma fold_addToBucket_hasFolder (l : list Uri) :
  forall m, fold_left addToBucket l m = fold_left addToBucket (filter hasFolder l) m.
Proof.
  induction l as [|r l IH]; intros m; simpl; [reflexivity|].
  unfold hasFolder at 1, addToBucket at 2.
  destruct (getWorkspaceFolder r) as [f|] eqn:E; simpl.
  - unfold addToBucket at 3. rewrite E. apply IH.
  - apply IH.
Qed.

Lemma filter_filter_andb {A : Type} (p q : A -> bool) (l : list A) :
  filter q (filter p l) = filter (fun x => p x && q x) l.
Proof.
  induction l as [|x l IH]; simpl; [reflexivity|].
  destruct (p x); simpl; [destruct (q x); rewrite IH; reflexivity | exact IH].
Qed.

Lemma filter_idem_andb {A : Type} (p q : A -> bool) (l : list A) :
  filter p (filter (fun x => p x && q x) l) = filter (fun x => p x && q x) l.
Proof.
  induction l as [|x l IH]; simpl; [reflexivity|].
  destruct (p x) eqn:P; simpl; [|exact IH].
  destruct (q x); simpl; [rewrite P, IH; reflexivity | exact IH].
Qed.

Lemma existsb_filter_nonempty {A : Type} (p : A -> bool) (l : list A) :
  existsb p l = true -> (List.length (filter p l) =? 0)%nat = false
                        /\ (List.length l =? 0)%nat = false.
Proof.
  induction l as [|x l IH]; simpl; [discriminate|].
  destruct (p x); simpl; [auto|]. intros H. split; [apply IH, H | reflexivity].
Qed.

(** X6. Once one resource is local, the resources of a disabled scheme and
    the resources outside every workspace folder do not count: the result
    is the one for the other resources alone, and it is the empty list
    when there are no others. *)
Theorem resourcesToLaunchTargets_ignores (resources : list Uri)
  (workspaceFolders : list WorkspaceFolder) (maxProjectResults : Z) :
  existsb isLocal resources = true ->
  resourcesToLaunchTargets resources workspaceFolders maxProjectResults
  = resourcesToLaunchTargets
      (filter (fun r => isLocal r && hasFolder r) resources)
      workspaceFolders maxProjectResults
  /\ (forallb (fun r => negb (isLocal r && hasFolder r)) resources = true ->
      resourcesToLaunchTargets resources workspaceFolders maxProjectResults = inr []).
Proof.
  intros H.
  assert (E : resourcesToLaunchTargets resources workspaceFolders maxProjectResults
              = resourcesToLaunchTargets
                  (filter (fun r => isLocal r && hasFolder r) resources)
                  workspaceFolders maxProjectResults).
  { unfold resourcesToLaunchTargets.
    fold isLocal. change (fun resource : Uri => negb (disabledSchemes_has (scheme resource)))
      with isLocal.
    destruct (existsb_filter_nonempty isLocal resources H) as [E1 E0].
    rewrite E0, E1. rewrite filter_idem_andb.
    unfold resourcesAndFolderMapToLaunchTargets.
    rewrite (fold_addToBucket_hasFolder (filter isLocal resources)),
      filter_filter_andb.
    destruct (filter (fun r => isLocal r && hasFolder r) resources) as [|r kept];
      [|reflexivity].
    simpl. unfold truncate. destruct (maxProjectResults >? 0)%Z; [|reflexivity].
    unfold allTargets; simpl. rewrite firstn_nil. reflexivity. }
  split; [exact E|].
  intros Hall. rewrite E.
  assert (N : filter (fun r => isLocal r && hasFolder r) resources = []).
  { clear - Hall. induction resources as [|r rs IH]; simpl in *; [reflexivity|].
    apply andb_true_iff in Hall. destruct Hall as [Hr Hrs].
    destruct (isLocal r && hasFolder r); [discriminate | auto]. }
  rewrite N. reflexivity.
Qed.

End MoreClassifierFacts.

Section StepInduction.

Context {host : Host}.

(** Induction over the folders of a map [whole], in the order in which
    they are visited: what holds of the arrays before any folder, and is
    kept by what each folder adds, holds of the arrays after all of them. *)
Lemma processFolders_steps (P : UriMap -> Targets -> Prop)
  (wf : list WorkspaceFolder) (whole : UriMap) :
  P [] noTargets ->
  (forall done i rs todo f ts ts',
     whole = done ++ (i, rs) :: todo ->
     nth_error wf i = Some f ->
     P done ts ->
     FolderStep (resourcesOf done) (fsPath (uri f)) rs ts ts' ->
     P (done ++ [(i, rs)]) ts') ->
  forall ts, processFolders wf whole noTargets = inr ts -> P whole ts.
Proof.
  intros P0 Pstep.
  assert (G : forall todo done ts ts',
             whole = done ++ todo ->
             CollectedFrom (resourcesOf done) ts -> P done ts ->
             processFolders wf todo ts = inr ts' -> P whole ts').
  { induction todo as [|[i rs] todo IH]; intros done ts ts' W Hc Hp E.
    - simpl in E. injection E as <-. rewrite app_nil_r in W. subst. exact Hp.
    - cbn [processFolders] in E.
      destruct (nth_error wf i) as [f|] eqn:Ef.
      + destruct (processFolder_step wf (resourcesOf done) i rs f ts Hc Ef)
          as (ts1 & E1 & F1).
        rewrite E1 in E. simpl in E.
        apply (IH (done ++ [(i, rs)]) ts1 ts').
        * rewrite <- app_assoc. exact W.
        * rewrite resourcesOf_app. unfold resourcesOf at 2. simpl.
          rewrite app_nil_r. eapply FolderStep_collected; eauto.
        * eapply Pstep; eauto.
        * exact E.
      + unfold processFolder in E. rewrite Ef in E. discriminate. }
  intros ts E. apply (G whole [] noTargets ts); auto. repeat split.
Qed.

Lemma optional_Forall {A : Type} (P : A -> Prop) (b : bool) (x : A) :
  P x -> Forall P (optional b x).
Proof. destruct b; simpl; auto. Qed.

Lemma grouped_entry (resources : list Uri) (i : nat) (rs : list Uri) :
  In (i, rs) (fold_left addToBucket resources []) ->
  rs = filter (inFolder i) resources
  /\ exists r g, In r resources /\ getWorkspaceFolder r = Some g
                 /\ index g = i.
Proof.
  rewrite grouping_closed_form. intros H. apply in_map_iff in H.
  destruct H as (k & E & Hin). injection E as -> <-. split; [reflexivity|].
  apply (proj1 (firsts_In _ _)) in Hin. unfold indicesOf in Hin.
  apply in_flat_map in Hin. destruct Hin as (r & Hr & Hi).
  destruct (getWorkspaceFolder r) as [g|] eqn:Eg; [|destruct Hi].
  destruct Hi as [<-|[]]. eauto.
Qed.

Lemma grouped_resource (resources : list Uri) (r : Uri) :
  In r (resourcesOf (fold_left addToBucket resources [])) ->
  In r resources /\ hasFolder r = true.
Proof.
  unfold resourcesOf. intros H. apply in_concat in H.
  destruct H as (rs & Hrs & Hr). apply in_map_iff in Hrs.
  destruct Hrs as ([i rs'] & E & Hin). simpl in E. subst rs'.
  apply grouped_entry in Hin. destruct Hin as [-> _].
  apply filter_In in Hr. destruct Hr as [Hr Hf]. split; [exact Hr|].
  unfold inFolder in Hf. unfold hasFolder.
  destruct (getWorkspaceFolder r); [reflexivity | discriminate].
Qed.

(** X7. Where the returned targets point: a solution, project.json or
    project target at the directory of a local resource of the input that
    lies in a workspace folder; a folder, CSX or Cake target at a folder of
    [workspaceFolders] that holds a local resource of the input; a
    live-share target is [vslsTarget]. *)
Theorem classifier_directories (resources : list Uri)
  (workspaceFolders : list WorkspaceFolder) (maxProjectResults : Z)
  (out : list LaunchTarget) :
  resourcesToLaunchTargets resources workspaceFolders maxProjectResults = inr out ->
  Forall (fun t =>
            match workspaceKind t with
            | LiveShare => t = vslsTarget
            | Solution | Project | ProjectJson => FileOf resources t
            | Folder | Csx | Cake => FolderOf workspaceFolders resources t
            end) out.
Proof.
  unfold resourcesToLaunchTargets.
  destruct (List.length resources =? 0)%nat.
  { intros E. injection E as <-. constructor. }
  destruct (List.length (filter _ resources) =? 0)%nat.
  { intros E. injection E as <-. repeat constructor. }
  change (fun resource : Uri => negb (disabledSchemes_has (scheme resource)))
    with isLocal.
  set (locals := filter isLocal resources).
  set (m := fold_left addToBucket locals []).
  unfold resourcesAndFolderMapToLaunchTargets.
  destruct (processFolders workspaceFolders m noTargets) as [e|ts] eqn:E;
    simpl; [discriminate|].
  intros Eo. injection Eo as <-.
  (* the resources of the map are local resources of the input *)
  assert (Hres : forall r, In r (resourcesOf m) ->
                           In r resources /\ isLocal r = true /\ hasFolder r = true).
  { intros r Hr. apply grouped_resource in Hr. destruct Hr as [Hr Hf].
    apply filter_In in Hr. tauto. }
  (* the three arrays of files *)
  destruct (processFolders_collected workspaceFolders m [] noTargets ts)
    as (Cs & Cj & Cp); [repeat split | exact E |]. simpl in Cs, Cj, Cp.
  (* the two arrays of folders *)
  assert (Hf : Forall (fun t => (workspaceKind t = Folder \/ workspaceKind t = Csx
                                 \/ workspaceKind t = Cake)
                                /\ FolderOf workspaceFolders resources t)
                 (projectRootTargets ts ++ otherTargets ts)).
  { apply (processFolders_steps
             (fun _ ts => Forall (fun t => (workspaceKind t = Folder
                                            \/ workspaceKind t = Csx
                                            \/ workspaceKind t = Cake)
                                           /\ FolderOf workspaceFolders resources t)
                            (projectRootTargets ts ++ otherTargets ts))
             workspaceFolders m); [constructor | | exact E].
    intros done i rs todo f ts0 ts1 W Ef Hp (_ & _ & _ & Fr & Fo).
    assert (Hin : In (i, rs) m) by (rewrite W; apply in_elt).
    apply grouped_entry in Hin. destruct Hin as (_ & r & g & Hr & Eg & Ei).
    apply filter_In in Hr. destruct Hr as [Hr Hl].
    assert (FO : forall t, directory t = fsPath (uri f) -> target t = fsPath (uri f) ->
                           FolderOf workspaceFolders resources t).
    { intros t Hd Ht. exists r, g, f. rewrite Ei. auto 10. }
    rewrite Fr, Fo. apply Forall_app in Hp. destruct Hp as [Hp1 Hp2].
    repeat (apply Forall_app; split); try assumption;
      apply optional_Forall; (split; [simpl; auto | apply FO; reflexivity]). }
  apply Forall_app in Hf. destruct Hf as [Hroot Hother].
  apply truncate_Forall. unfold allTargets.
  repeat (apply Forall_app; split); try apply sort_Forall.
  - eapply Forall_impl; [|exact Hother].
    intros t [[K|[K|K]] F]; rewrite K; exact F.
  - rewrite Cs. apply Forall_forall. intros t Ht. apply in_map_iff in Ht.
    destruct Ht as (r & <- & Hr). apply filter_In in Hr. destruct Hr as [Hr _].
    simpl. exists r. specialize (Hres r Hr). tauto.
  - eapply Forall_impl; [|exact Hroot].
    intros t [[K|[K|K]] F]; rewrite K; exact F.
  - rewrite Cj. apply Forall_forall. intros t Ht. apply in_map_iff in Ht.
    destruct Ht as (r & <- & Hr). apply filter_In in Hr. destruct Hr as [Hr _].
    simpl. exists r. specialize (Hres r Hr). tauto.
  - rewrite Cp. apply Forall_forall. intros t Ht. apply in_map_iff in Ht.
    destruct Ht as (r & <- & Hr). apply filter_In in Hr. destruct Hr as [Hr _].
    simpl. exists r. specialize (Hres r Hr). tauto.
Qed.

End StepInduction.

Section Stability.

Variable comparefn : LaunchTarget -> LaunchTarget -> Z.

Hypothesis comparefn_trans :
  forall a b c, (comparefn a b <= 0)%Z -> (comparefn b c <= 0)%Z ->
                (comparefn a c <= 0)%Z.

Lemma insert_stable (z x : LaunchTarget) (l : list LaunchTarget) :
  filter (tied comparefn z) (insert comparefn x l)
  = filter (tied comparefn z) (x :: l).
Proof.
  induction l as [|y l IH]; [reflexivity|].
  cbn [insert]. destruct (comparefn x y <=? 0)%Z eqn:E; [reflexivity|].
  cbn [filter] in *. rewrite IH.
  destruct (tied comparefn z y) eqn:Ty, (tied comparefn z x) eqn:Tx; try reflexivity.
  exfalso. unfold tied in Ty, Tx.
  apply andb_true_iff in Ty. apply andb_true_iff in Tx.
  destruct Ty as [Ty _], Tx as [_ Tx].
  apply Z.leb_le in Ty. apply Z.leb_le in Tx. apply Z.leb_gt in E.
  pose proof (comparefn_trans x z y Tx Ty). lia.
Qed.

Lemma sort_stable (z : LaunchTarget) (l : list LaunchTarget) :
  filter (tied comparefn z) (sort comparefn l) = filter (tied comparefn z) l.
Proof.
  induction l as [|x l IH]; [reflexivity|].
  cbn [sort]. rewrite insert_stable. cbn [filter]. rewrite IH. reflexivity.
Qed.

End Stability.

Lemma filter_filter_implies {A : Type} (p q : A -> bool) (l : list A) :
  (forall x, p x = true -> q x = true) -> filter p (filter q l) = filter p l.
Proof.
  intros H. induction l as [|x l IH]; simpl; [reflexivity|].
  destruct (q x) eqn:Q; simpl.
  - rewrite IH. reflexivity.
  - destruct (p x) eqn:P; [rewrite (H x P) in Q; discriminate | exact IH].
Qed.

Lemma filter_none {A : Type} (p : A -> bool) (l : list A) :
  Forall (fun x => p x = false) l -> filter p l = [].
Proof.
  induction 1 as [|x l Hx _ IH]; simpl; [reflexivity|]. rewrite Hx. exact IH.
Qed.

Section DiscoveryOrder.

Context {host : Host}.

Hypothesis localeCompare_total :
  forall a b, (localeCompare a b > 0)%Z -> (localeCompare b a <= 0)%Z.
Hypothesis localeCompare_trans :
  forall a b c, (localeCompare a b <= 0)%Z -> (localeCompare b c <= 0)%Z ->
                (localeCompare a c <= 0)%Z.

(** X9. The sort of an array keeps the order of discovery among the targets
    that the comparator ties, and so among the targets of one directory,
    when [localeCompare] is a consistent comparator. *)
Theorem sort_keeps_discovery_order (bucket : list LaunchTarget) :
  (forall t,
     filter (tied compareDirectory t) (sort compareDirectory bucket)
     = filter (tied compareDirectory t) bucket)
  /\ (forall d,
        filter (fun t => String.eqb (directory t) d) (sort compareDirectory bucket)
        = filter (fun t => String.eqb (directory t) d) bucket).
Proof.
  assert (S : forall t,
             filter (tied compareDirectory t) (sort compareDirectory bucket)
             = filter (tied compareDirectory t) bucket).
  { intros t. apply sort_stable. intros a b c. apply localeCompare_trans. }
  split; [exact S|]. intros d.
  destruct (existsb (fun t => String.eqb (directory t) d) bucket) eqn:E.
  - apply existsb_exists in E. destruct E as (z & _ & Ez).
    apply String.eqb_eq in Ez.
    assert (I : forall t, String.eqb (directory t) d = true ->
                          tied compareDirectory z t = true).
    { intros t Ht. apply String.eqb_eq in Ht. unfold tied, compareDirectory.
      rewrite Ez, Ht.
      assert (R : (localeCompare d d <= 0)%Z).
      { destruct (Z_le_gt_dec (localeCompare d d) 0) as [L|G]; [exact L|].
        apply localeCompare_total, G. }
      apply Z.leb_le in R. rewrite R. reflexivity. }
    rewrite <- (filter_filter_implies _ (tied compareDirectory z)
                  (sort compareDirectory bucket) I), S.
    apply filter_filter_implies, I.
  - assert (N : Forall (fun t => String.eqb (directory t) d = false) bucket).
    { apply Forall_forall. intros t Ht.
      destruct (String.eqb (directory t) d) eqn:Q; [|reflexivity].
      assert (X : existsb (fun t => String.eqb (directory t) d) bucket = true)
        by (apply existsb_exists; eauto).
      congruence. }
    rewrite (filter_none _ bucket N).
    apply filter_none, sort_Forall, N.
Qed.

End DiscoveryOrder.

Section Counts.

Context {host : Host}.

Lemma countKind_app (k : LaunchTargetKind) (a b : list LaunchTarget) :
  countKind k (a ++ b) = countKind k a + countKind k b.
Proof. unfold countKind. rewrite filter_app, length_app. reflexivity. Qed.

Lemma countKind_sort (k : LaunchTargetKind) (l : list LaunchTarget) :
  Forall (fun t => hasKind k t = false) l ->
  countKind k (sort compareDirectory l) = 0.
Proof.
  intros H. unfold countKind. rewrite filter_none; [reflexivity|].
  apply sort_Forall, H.
Qed.

Lemma countKind_optional (k : LaunchTargetKind) (b : bool) (t : LaunchTarget) :
  countKind k (optional b t) = if b && hasKind k t then 1 else 0.
Proof. unfold countKind. destruct b; simpl; [destruct (hasKind k t)|]; reflexivity. Qed.

Lemma script_targets_of_map (wf : list WorkspaceFolder) (m : UriMap) (ts : Targets) :
  processFolders wf m noTargets = inr ts ->
  countKind Csx (allTargets ts) = List.length (filter (holds isCsx) m)
  /\ countKind Cake (allTargets ts) = List.length (filter (holds isCake) m).
Proof.
  intros E.
  pose proof (processFolders_shaped _ _ _ _ noTargets_shaped E)
    as (Ss & Sj & Sr & Sp & _).
  assert (O : countKind Csx (otherTargets ts) = List.length (filter (holds isCsx) m)
              /\ countKind Cake (otherTargets ts)
                 = List.length (filter (holds isCake) m)).
  { apply (processFolders_steps
             (fun done ts =>
                countKind Csx (otherTargets ts) = List.length (filter (holds isCsx) done)
                /\ countKind Cake (otherTargets ts)
                   = List.length (filter (holds isCake) done))
             wf m); [split; reflexivity | | exact E].
    intros done i rs todo f ts0 ts1 _ _ [Hx Hk] (_ & _ & _ & _ & Fo).
    rewrite Fo, !filter_app, !length_app, !countKind_app, !countKind_optional, Hx, Hk.
    unfold holds; simpl.
    destruct (existsb isCsx rs), (existsb isCake rs), (looseFilesRule _ rs);
      simpl; split; lia. }
  destruct O as [Ox Ok]. unfold allTargets.
  rewrite !countKind_app, Ox, Ok.
  rewrite !countKind_sort; try lia;
    try (eapply Forall_impl; [|eassumption]; intros t [x ->]; reflexivity).
Qed.

Lemma filter_map_length {A B : Type} (p : B -> bool) (f : A -> B) (l : list A) :
  List.length (filter p (map f l)) = List.length (filter (fun x => p (f x)) l).
Proof.
  induction l as [|x l IH]; simpl; [reflexivity|].
  destruct (p (f x)); simpl; rewrite IH; reflexivity.
Qed.

(** X8. Without a limit on the number of results, the result holds one CSX
    target for each workspace folder that holds a local [.csx] resource
    and one Cake target for each that holds a local [.cake] resource,
    however many such resources the folder holds. *)
Theorem script_targets (resources : list Uri) (workspaceFolders : list WorkspaceFolder)
  (maxProjectResults : Z) (out : list LaunchTarget) :
  (maxProjectResults <= 0)%Z ->
  resourcesToLaunchTargets resources workspaceFolders maxProjectResults = inr out ->
  let locals := filter isLocal resources in
  let folders := firsts (indicesOf locals) in
  countKind Csx out
  = List.length (filter (fun k => existsb isCsx (filter (inFolder k) locals)) folders)
  /\ countKind Cake out
     = List.length (filter (fun k => existsb isCake (filter (inFolder k) locals)) folders).
Proof.
  intros Hmax. unfold resourcesToLaunchTargets.
  change (fun resource : Uri => negb (disabledSchemes_has (scheme resource)))
    with isLocal.
  destruct (List.length resources =? 0)%nat eqn:E0.
  { intros E. injection E as <-. apply Nat.eqb_eq in E0.
    destruct resources; [|discriminate]. split; reflexivity. }
  destruct (List.length (filter isLocal resources) =? 0)%nat eqn:E1.
  { intros E. injection E as <-. apply Nat.eqb_eq in E1.
    destruct (filter isLocal resources); [|discriminate]. split; reflexivity. }
  unfold resourcesAndFolderMapToLaunchTargets.
  rewrite grouping_closed_form.
  destruct (processFolders workspaceFolders _ noTargets) as [e|ts] eqn:E;
    simpl; [discriminate|].
  intros Eo. injection Eo as <-.
  assert (T : truncate maxProjectResults (allTargets ts) = allTargets ts).
  { unfold truncate. destruct (Z.gtb_spec maxProjectResults 0); [lia | reflexivity]. }
  rewrite T. apply script_targets_of_map in E. destruct E as [Ex Ek].
  rewrite Ex, Ek, !filter_map_length. split; reflexivity.
Qed.

End Counts.

(** ** The strategies of [launch] *)
Lemma length_append (a b : string) :
  String.length (a ++ b) = String.length a + String.length b.
Proof. induction a as [|c a IH]; simpl; [reflexivity | rewrite IH; reflexivity]. Qed.

Lemma quoted_length (s : string) :
  String.length (JsString.quoted s) = String.length s + 2.
Proof. unfold JsString.quoted. simpl. rewrite length_append. simpl. lia. Qed.

Lemma replace_char_length (c : ascii) (s : string) (x y : ascii) :
  String.length (JsString.replace (String c EmptyString)
                   (String x (String y EmptyString)) s)
  = String.length s + (if (JsString.count c s =? 0)%nat then 0 else 1).
Proof.
  induction s as [|a s IH]; [reflexivity|].
  cbn [JsString.replace prefix JsString.count].
  destruct (ascii_dec c a) as [->|N].
  - rewrite Ascii.eqb_refl.
    assert (P : prefix EmptyString s = true) by (destruct s; reflexivity).
    rewrite P. simpl. lia.
  - destruct (Ascii.eqb_spec a c) as [->|_]; [congruence|].
    simpl String.length. rewrite IH. simpl. lia.
Qed.

Lemma replace_char_absent (c : ascii) (rep s : string) :
  JsString.count c s = 0 -> JsString.replace (String c EmptyString) rep s = s.
Proof.
  intros H. rewrite replace_at_most_one by lia. apply replaceAllChar_absent, H.
Qed.

(** X12. [escapeIfNeeded] returns its argument as it is exactly when the
    argument has no ampersand and does not match the regular expression;
    an argument that starts with a double quote is never wrapped; the
    result is never shorter than the argument and at most two characters
    longer. *)
Theorem escapeIfNeeded_fixed (arg : string) :
  (escapeIfNeeded arg = arg
   <-> ~ SpaceBetween arg /\ JsString.count JsString.ampersand arg = 0)
  /\ (forall rest,
        arg = String JsString.dquote rest ->
        escapeIfNeeded arg = JsString.replace "&" "^&" arg)
  /\ String.length arg <= String.length (escapeIfNeeded arg) <= String.length arg + 2.
Proof.
  unfold escapeIfNeeded.
  pose proof (hasSpaceWithoutQuotes_spec arg) as S.
  pose proof (replace_char_length JsString.ampersand arg "^" "&") as L.
  change (JsString.replace (String JsString.ampersand "") "^&" arg)
    with (JsString.replace "&" "^&" arg) in L.
  split; [|split].
  - destruct (test hasSpaceWithoutQuotes arg) eqn:E.
    + split.
      * intros H. apply (f_equal String.length) in H.
        rewrite quoted_length in H. lia.
      * intros [H _]. exfalso. apply H, S. reflexivity.
    + assert (N : ~ SpaceBetween arg).
      { intros H. apply S in H. discriminate. }
      split.
      * intros H. split; [exact N|].
        rewrite H in L. destruct (JsString.count JsString.ampersand arg =? 0)%nat eqn:C;
          [apply Nat.eqb_eq in C; exact C | lia].
      * intros [_ H]. apply (replace_char_absent JsString.ampersand). exact H.
  - intros rest ->. reflexivity.
  - destruct (test hasSpaceWithoutQuotes arg).
    + rewrite quoted_length. lia.
    + rewrite L. destruct (JsString.count JsString.ampersand arg =? 0)%nat; lia.
Qed.

Section LaunchFacts.

Context {runtime : Runtime}.

(** X10. Of a launch that returns: [command] is the launch path whatever
    was spawned; the host is mono exactly on the legacy path off Windows;
    the process is never detached and runs in [cwd]; the legacy path on
    Windows spawns [cmd] with verbatim arguments, passes no environment
    and reports no host; every other path passes on the environment,
    version and path that its resolver answers, the one for dotnet when
    [useModernNet] is set and the one for mono otherwise.  The other
    resolver is not consulted, and on the legacy path on Windows neither
    is: whatever it is replaced by, one that fails included, [launch] does
    the same. *)
Theorem launch_host (cwd : string) (args : list string) (launchPath : string)
  (platformInfo : PlatformInformation) (options : Options)
  (monoResolver dotnetResolver : IHostExecutableResolver) :
  let shell := negb (useModernNet options) && isWindows platformInfo in
  (forall result,
     launch cwd args launchPath platformInfo options monoResolver dotnetResolver
       = inr result ->
     let spawned := spawn_options (process result) in
     command result = launchPath
     /\ hostIsMono result = negb (useModernNet options) && negb (isWindows platformInfo)
     /\ spawn_cwd spawned = cwd
     /\ detached spawned = false
     /\ windowsVerbatimArguments spawned = shell
     /\ (shell = true ->
         spawn_command (process result) = "cmd"
         /\ spawn_env spawned = None
         /\ hostVersion result = None /\ hostPath result = None)
     /\ (shell = false ->
         exists info,
           getHostExecutableInfo
             (if useModernNet options then dotnetResolver else monoResolver) options
             = inr info
           /\ spawn_env spawned = Some (env info)
           /\ hostVersion result = Some (version info)
           /\ hostPath result = Some (path info)))
  /\ (useModernNet options = true ->
      forall otherMono,
        launch cwd args launchPath platformInfo options otherMono dotnetResolver
        = launch cwd args launchPath platformInfo options monoResolver dotnetResolver)
  /\ (useModernNet options = false -> isWindows platformInfo = false ->
      forall otherDotnet,
        launch cwd args launchPath platformInfo options monoResolver otherDotnet
        = launch cwd args launchPath platformInfo options monoResolver dotnetResolver)
  /\ (shell = true ->
      forall otherMono otherDotnet,
        launch cwd args launchPath platformInfo options otherMono otherDotnet
        = launch cwd args launchPath platformInfo options monoResolver dotnetResolver).
Proof.
  intros shell. subst shell. split; [|split; [|split]].
  - intros result. unfold launch.
    match goal with
    | |- context [launchWindows _ _ ?a] => generalize a; intros args'
    end.
    destruct (useModernNet options); [|destruct (isWindows platformInfo)];
      cbn [negb andb].
    + unfold launchDotnet.
      destruct (getHostExecutableInfo dotnetResolver options) as [e|info]; simpl;
        [discriminate|].
      destruct (negb _);
        match goal with
        | |- context [spawn ?c ?a ?o] => destruct (spawn c a o) as [e|p] eqn:E
        end; simpl; try discriminate;
        intros R; injection R as <-; apply spawn_inr in E;
        destruct E as (_ & _ & E); simpl; rewrite E; simpl;
        (repeat split; try discriminate; intros _; exists info; repeat split).
    + unfold launchWindows.
      match goal with
      | |- context [spawn ?c ?a ?o] => destruct (spawn c a o) as [e|p] eqn:E
      end; simpl; [discriminate|].
      intros R; injection R as <-; apply spawn_inr in E.
      destruct E as (Ec & _ & E); simpl; rewrite E, Ec; simpl.
      repeat split; discriminate.
    + unfold launchNix, launchNixMono.
      destruct (getHostExecutableInfo monoResolver options) as [e|info]; simpl;
        [discriminate|].
      match goal with
      | |- context [spawn ?c ?a ?o] => destruct (spawn c a o) as [e|p] eqn:E
      end; simpl; [discriminate|].
      intros R; injection R as <-; apply spawn_inr in E.
      destruct E as (_ & _ & E); simpl; rewrite E; simpl.
      repeat split; try discriminate. intros _. exists info. repeat split.
  - intros Hm otherMono. unfold launch. rewrite Hm. reflexivity.
  - intros Hm Hw otherDotnet. unfold launch. rewrite Hm, Hw. reflexivity.
  - intros H otherMono otherDotnet. apply andb_true_iff in H. destruct H as [Hm Hw].
    apply negb_true_iff in Hm. unfold launch. rewrite Hm, Hw. reflexivity.
Qed.

(** X11. The arguments of the spawned process: what each strategy puts
    before the caller's arguments, and after them the three formatting
    arguments when [useEditorFormattingSettings] is set and nothing
    otherwise.  [tabSize] and [indentationSize] carry the same value, the
    [editor.tabSize] of the C# settings unless that is [undefined] or
    [null], else of the global settings, else 4; [useTabs] is the negation
    of [editor.insertSpaces], read the same way with default [true]. *)
Theorem launch_arguments (cwd : string) (args : list string) (launchPath : string)
  (platformInfo : PlatformInformation) (options : Options)
  (monoResolver dotnetResolver : IHostExecutableResolver)
  (result : IntermediateLaunchResult) :
  launch cwd args launchPath platformInfo options monoResolver dotnetResolver
    = inr result ->
  exists formatting,
    spawn_args (process result)
    = (if useModernNet options then
         if JsString.endsWith launchPath ".dll"
         then launchPath :: args ++ formatting
         else args ++ formatting
       else if isWindows platformInfo then
         [("/s /c " ++ String JsString.dquote
             (JsString.join " "
                (map escapeIfNeeded (JsString.quoted launchPath :: args ++ formatting))
              ++ String JsString.dquote EmptyString))%string]
       else
         (if waitForDebugger options then [debuggerAgent; "--debug"] else [])
         ++ "--assembly-loader=strict" :: launchPath :: args ++ formatting)
    /\ (useEditorFormattingSettings options = false -> formatting = [])
    /\ (useEditorFormattingSettings options = true ->
        let setting configurationPath defaultValue :=
          match getConfiguration "[csharp]" configurationPath with
          | Some JsNull | None =>
              match getConfiguration "" configurationPath with
              | Some v => v
              | None => defaultValue
              end
          | Some v => v
          end in
        formatting
        = [("formattingOptions:useTabs="
            ++ boolToString (negb (truthy (setting "editor.insertSpaces" (JsBool true)))))%string;
           ("formattingOptions:tabSize="
            ++ toString (setting "editor.tabSize" (JsNumber four)))%string;
           ("formattingOptions:indentationSize="
            ++ toString (setting "editor.tabSize" (JsNumber four)))%string]).
Proof.
  unfold launch.
  match goal with
  | |- context [launchWindows _ _ ?a] => set (args' := a)
  end.
  intros H.
  assert (F : exists formatting,
             args' = args ++ formatting
             /\ (useEditorFormattingSettings options = false -> formatting = [])
             /\ (useEditorFormattingSettings options = true ->
                 formatting
                 = [("formattingOptions:useTabs="
                     ++ boolToString (negb (truthy
                          (getConfigurationValue (getConfiguration "")
                             (getConfiguration "[csharp]")
                             "editor.insertSpaces" (JsBool true)))))%string;
                    ("formattingOptions:tabSize="
                     ++ toString (getConfigurationValue (getConfiguration "")
                                    (getConfiguration "[csharp]")
                                    "editor.tabSize" (JsNumber four)))%string;
                    ("formattingOptions:indentationSize="
                     ++ toString (getConfigurationValue (getConfiguration "")
                                    (getConfiguration "[csharp]")
                                    "editor.tabSize" (JsNumber four)))%string])).
  { subst args'. destruct (useEditorFormattingSettings options).
    - eexists. split; [|split; [discriminate | intros _; reflexivity]].
      unfold JsArray.push. rewrite <- !app_assoc. reflexivity.
    - exists []. rewrite app_nil_r. repeat split. discriminate. }
  destruct F as (formatting & Ea & F0 & F1).
  exists formatting. split; [|split; [exact F0 | exact F1]].
  clearbody args'. subst args'. clear F0 F1.
  destruct (useModernNet options); [|destruct (isWindows platformInfo)].
  - unfold launchDotnet in H.
    destruct (getHostExecutableInfo dotnetResolver options) as [e|info]; simpl in H;
      [discriminate|].
    destruct (JsString.endsWith launchPath ".dll"); cbn [negb] in H;
      match type of H with
      | context [spawn ?c ?a ?o] => destruct (spawn c a o) as [e|p] eqn:E
      end; simpl in H; try discriminate;
      injection H as <-; apply spawn_inr in E; destruct E as (_ & E & _);
      simpl; exact E.
  - apply launchWindows_args in H. apply H.
  - unfold launchNix, launchNixMono in H.
    destruct (getHostExecutableInfo monoResolver options) as [e|info]; simpl in H;
      [discriminate|].
    match type of H with
    | context [spawn ?c ?a ?o] => destruct (spawn c a o) as [e|p] eqn:E
    end; simpl in H; [discriminate|].
    injection H as <-. apply spawn_inr in E. destruct E as (_ & E & _).
    simpl. rewrite E. destruct (waitForDebugger options); reflexivity.
Qed.

End LaunchFacts.

(** * Examples

    The order of [Posix.compareCodeUnits] is total and transitive. *)

Lemma compareCodeUnits_total (a b : string) :
  (Posix.compareCodeUnits a b > 0)%Z -> (Posix.compareCodeUnits b a <= 0)%Z.
Proof.
  unfold Posix.compareCodeUnits. rewrite (String.compare_antisym b a).
  destruct (String.compare a b); simpl; lia.
Qed.

Lemma string_compare_trans (a b c : string) :
  String.compare a b <> Gt -> String.compare b c <> Gt -> String.compare a c <> Gt.
Proof.
  revert b c. induction a as [|x a IH]; intros [|y b] [|z c]; simpl;
    try congruence.
  unfold Ascii.compare.
  destruct (N.compare_spec (N_of_ascii x) (N_of_ascii y)) as [Exy|Lxy|Gxy];
    [| |congruence];
    destruct (N.compare_spec (N_of_ascii y) (N_of_ascii z)) as [Eyz|Lyz|Gyz];
    try congruence; intros H1 H2.
  - rewrite Exy, Eyz, N.compare_refl. eapply IH; eauto.
  - rewrite Exy. apply N.compare_lt_iff in Lyz. rewrite Lyz. discriminate.
  - rewrite <- Eyz. apply N.compare_lt_iff in Lxy. rewrite Lxy. discriminate.
  - assert (L : (N_of_ascii x < N_of_ascii z)%N) by (eapply N.lt_trans; eauto).
    apply N.compare_lt_iff in L. rewrite L. discriminate.
Qed.

Lemma compareCodeUnits_trans (a b c : string) :
  (Posix.compareCodeUnits a b <= 0)%Z -> (Posix.compareCodeUnits b c <= 0)%Z ->
  (Posix.compareCodeUnits a c <= 0)%Z.
Proof.
  unfold Posix.compareCodeUnits. intros H1 H2.
  assert (H : String.compare a c <> Gt).
  { apply (string_compare_trans a b c).
    - destruct (String.compare a b); [discriminate | discriminate | lia].
    - destruct (String.compare b c); [discriminate | discriminate | lia]. }
  destruct (String.compare a c); [lia | lia | congruence].
Qed.

(** The order of [Collation.compare] is total and transitive too. *)

Lemma string_compare_refl (a : string) : String.compare a a = Eq.
Proof.
  induction a as [|x a IH]; simpl; [reflexivity|].
  unfold Ascii.compare. rewrite N.compare_refl. exact IH.
Qed.

Lemma collation_total (a b : string) :
  (Collation.compare a b > 0)%Z -> (Collation.compare b a <= 0)%Z.
Proof.
  unfold Collation.compare.
  rewrite (String.compare_antisym (Collation.fold a) (Collation.fold b)).
  destruct (String.compare (Collation.fold b) (Collation.fold a)); simpl; try lia.
  rewrite (String.compare_antisym b a).
  destruct (String.compare a b); simpl; lia.
Qed.

Lemma sign_le (c : comparison) : (Collation.sign c <= 0)%Z <-> c <> Gt.
Proof. destruct c; simpl; split; intros H; try lia; congruence. Qed.

Lemma collation_trans (a b c : string) :
  (Collation.compare a b <= 0)%Z -> (Collation.compare b c <= 0)%Z ->
  (Collation.compare a c <= 0)%Z.
Proof.
  unfold Collation.compare. intros H1 H2.
  assert (F1 : String.compare (Collation.fold a) (Collation.fold b) <> Gt).
  { destruct (String.compare (Collation.fold a) (Collation.fold b));
      simpl in H1; [discriminate | discriminate | lia]. }
  assert (F2 : String.compare (Collation.fold b) (Collation.fold c) <> Gt).
  { destruct (String.compare (Collation.fold b) (Collation.fold c));
      simpl in H2; [discriminate | discriminate | lia]. }
  pose proof (string_compare_trans _ _ _ F1 F2) as F.
  destruct (String.compare (Collation.fold a) (Collation.fold c)) eqn:Eac;
    [| simpl; lia | congruence].
  apply String.compare_eq_iff in Eac.
  destruct (String.compare (Collation.fold a) (Collation.fold b)) eqn:Eab;
    [| | congruence].
  - apply String.compare_eq_iff in Eab.
    rewrite <- Eab, Eac, string_compare_refl in H2.
    apply (proj2 (sign_le _)).
    exact (string_compare_trans c b a (proj1 (sign_le _) H2) (proj1 (sign_le _) H1)).
  - exfalso. rewrite Eac in Eab.
    rewrite String.compare_antisym, Eab in F2. simpl in F2. congruence.
Qed.

#[local] Existing Instance twoFoldersHost.
#[local] Existing Instance quietRuntime.

(** *** The classifier *)

Example sortExample_result :
  allTargets sortExampleTargets
  = [csxTarget "/w2"; cakeTarget "/w1";
     solutionTarget (Posix.file "/w1/a/A.sln");
     solutionTarget (Posix.file "/w1/z/Z.sln");
     rootTarget "/w2";
     projectTarget (Posix.file "/w2/q/Q.csproj")].
Proof. vm_compute. reflexivity. Qed.

Lemma allTargets_order_witness :
  allTargets (host := collatingHost) caseTargets
  = [solutionTarget (host := collatingHost) (Posix.file "/w1/a/A.sln");
     solutionTarget (host := collatingHost) (Posix.file "/w1/B/B.sln");
     projectTarget (host := collatingHost) (Posix.file "/w1/A/Q.csproj");
     projectTarget (host := collatingHost) (Posix.file "/w1/b/P.csproj")]
  /\ ResultOrder (host := collatingHost) caseTargets
       (allTargets (host := collatingHost) caseTargets).
Proof.
  split; [vm_compute; reflexivity|].
  refine (proj1 (proj2 (allTargets_order (host := collatingHost) collation_total
                          collation_trans [] twoFolders caseMap caseTargets _))).
  vm_compute. reflexivity.
Defined.

(** C5, as the specification words it, fails: on a host that collates,
    the solutions of [/w1/B] and [/w1/a] are returned with [/w1/a] first,
    which is not the order of the code units. *)
Lemma allTargets_order_counterexample :
  processFolders (host := collatingHost) twoFolders caseMap noTargets = inr caseTargets
  /\ sort (compareDirectory (host := collatingHost)) (solutionTargets caseTargets)
     = [solutionTarget (host := collatingHost) (Posix.file "/w1/a/A.sln");
        solutionTarget (host := collatingHost) (Posix.file "/w1/B/B.sln")]
  /\ ~ StronglySorted lexicographicOrder_spec
         (sort (compareDirectory (host := collatingHost)) (solutionTargets caseTargets)).
Proof.
  split; [vm_compute; reflexivity|].
  assert (E : sort (compareDirectory (host := collatingHost)) (solutionTargets caseTargets)
              = [solutionTarget (host := collatingHost) (Posix.file "/w1/a/A.sln");
                 solutionTarget (host := collatingHost) (Posix.file "/w1/B/B.sln")])
    by (vm_compute; reflexivity).
  split; [exact E|].
  rewrite E. intros H. inversion H as [|x l _ Hx]; subst.
  inversion Hx as [|y l' Hy _]; subst.
  apply Hy. vm_compute. reflexivity.
Qed.

Lemma classifier_target_directory_witness :
  exists out,
    resourcesToLaunchTargets mixedResources twoFolders 0 = inr out
    /\ List.length out = 4
    /\ Forall (fun t =>
                 (workspaceKind t <> Solution -> target t = directory t)
                 /\ (workspaceKind t = Solution
                     -> directory t = path_dirname (target t)))
              out.
Proof.
  eexists. split; [vm_compute; reflexivity|]. split; [reflexivity|].
  apply (classifier_target_directory mixedResources twoFolders 0).
  vm_compute. reflexivity.
Defined.

(** C1. A folder with one script and no project file, visited after a
    folder with a project file, gets a root-folder target: the test reads
    [projectTargets], which still holds the target of the earlier folder. *)
Lemma rootFolder_rule_reads_earlier_folders :
  fold_left addToBucket csprojThenCsx []
  = [(0, [Posix.file "/w1/App.csproj"]); (1, [Posix.file "/w2/build.csx"])]
  /\ rootFolderRule_spec "/w2" [Posix.file "/w2/build.csx"] = false
  /\ resourcesToLaunchTargets csprojThenCsx twoFolders 0
     = inr [csxTarget "/w2"; rootTarget "/w1"; rootTarget "/w2";
            projectTarget (Posix.file "/w1/App.csproj")].
Proof. repeat split; vm_compute; reflexivity. Qed.

(** C8. A folder with one source file and nothing else, visited after a
    folder with a solution, gets no target of its own: the test reads
    [solutionTargets], which still holds the target of the earlier folder.
    Visited first, the same folder gets its target. *)
Lemma looseFiles_rule_reads_earlier_folders :
  fold_left addToBucket slnThenCs []
  = [(0, [Posix.file "/w1/App.sln"]); (1, [Posix.file "/w2/Program.cs"])]
  /\ looseFilesRule_spec "/w2" [Posix.file "/w2/Program.cs"] = true
  /\ resourcesToLaunchTargets slnThenCs twoFolders 0
     = inr [solutionTarget (Posix.file "/w1/App.sln")]
  /\ resourcesToLaunchTargets (rev slnThenCs) twoFolders 0
     = inr [looseFolderTarget "/w2"; solutionTarget (Posix.file "/w1/App.sln")].
Proof. repeat split; vm_compute; reflexivity. Qed.

(** *** The launcher *)

(** C2 as stated fails: [--debug] is the second argument, not the first. *)
Lemma launchNixMono_debug_first_counterexample :
  exists p,
    launchNixMono "/opt/omnisharp/OmniSharp.exe" "/w1" ["-s"; "/w1"] [] true = inr p
    /\ spawn_args p
       <> ["--debug"; debuggerAgent; "--assembly-loader=strict";
           "/opt/omnisharp/OmniSharp.exe"; "-s"; "/w1"].
Proof.
  eexists. split; [reflexivity|]. simpl. discriminate.
Qed.

Lemma launchNixMono_debugger_args_witness :
  exists p,
    launchNixMono "/opt/omnisharp/OmniSharp.exe" "/w1" ["-s"; "/w1"] [] true = inr p
    /\ spawn_command p = "mono"
    /\ spawn_args p
       = [debuggerAgent; "--debug"; "--assembly-loader=strict";
          "/opt/omnisharp/OmniSharp.exe"; "-s"; "/w1"].
Proof.
  eexists. split; [reflexivity|].
  apply (proj1 (launchNixMono_debugger_args "/opt/omnisharp/OmniSharp.exe" "/w1"
                  ["-s"; "/w1"]) []).
  reflexivity.
Defined.

(** C3 as stated fails: the second ampersand is left as it is, and an
    argument that starts with its only space is not wrapped. *)
Lemma escapeIfNeeded_counterexample :
  escapeIfNeeded "a&b&c" = "a^&b&c"
  /\ escapeIfNeeded_spec "a&b&c" = "a^&b^&c"
  /\ escapeIfNeeded "a&b&c" <> escapeIfNeeded_spec "a&b&c"
  /\ escapeIfNeeded " a" = " a"
  /\ escapeIfNeeded_spec " a" = JsString.quoted " a"
  /\ escapeIfNeeded " a" <> escapeIfNeeded_spec " a".
Proof.
  repeat split; try (vm_compute; reflexivity); vm_compute; discriminate.
Qed.

Lemma escapeIfNeeded_cases_witness :
  escapeIfNeeded "C:\Program Files\x" = JsString.quoted "C:\Program Files\x"
  /\ escapeIfNeeded "a&b" = "a^&b".
Proof.
  split.
  - apply (proj1 (proj2 escapeIfNeeded_cases "C:\Program Files\x")).
    exists "C"%char, ":\Program", "Files\", "x"%char, EmptyString.
    repeat split; try reflexivity; discriminate.
  - apply (proj2 (proj2 escapeIfNeeded_cases "a&b")).
    + intros H. apply hasSpaceWithoutQuotes_spec in H. vm_compute in H. discriminate.
    + vm_compute. lia.
Defined.

Lemma launchDotnet_command_witness :
  exists result,
    launchDotnet "/opt/omnisharp/OmniSharp.dll" "/w1" ["-s"; "/w1"]
      (mkPlatformInformation true) (mkOptions false true false) resolved = inr result
    /\ spawn_command (process result) = "dotnet.exe"
    /\ spawn_args (process result) = ["/opt/omnisharp/OmniSharp.dll"; "-s"; "/w1"].
Proof.
  eexists. split; [reflexivity|].
  refine (proj2 (proj1 (launchDotnet_command "/opt/omnisharp/OmniSharp.dll" "/w1"
                          ["-s"; "/w1"] (mkPlatformInformation true)
                          (mkOptions false true false) resolved) _ eq_refl) _).
  exists "/opt/omnisharp/OmniSharp". reflexivity.
Defined.

Lemma launchOmniSharp_outcome_witness :
  (exists result,
     launchOmniSharp "/w1" ["-s"; "/w1"] "/opt/omnisharp/OmniSharp.exe"
       (mkPlatformInformation false) (mkOptions false false false) resolved resolved
       Callback started [otherEvent "message"; errorEvent (Error "EPIPE")]
     = Fulfilled result)
  /\ launchOmniSharp "/w1" ["-s"; "/w1"] "/opt/omnisharp/OmniSharp.exe"
       (mkPlatformInformation false) (mkOptions false false false) resolved resolved
       Callback (notStarted (Error "ENOENT")) []
     = Rejected (Error "ENOENT")
  /\ launchOmniSharp "/w1" ["-s"; "/w1"] "/opt/omnisharp/OmniSharp.exe"
       (mkPlatformInformation false) (mkOptions false false false) unresolved resolved
       Callback started []
     = Rejected (Error "no host executable").
Proof.
  split; [|split].
  - eexists.
    apply (proj1 (launchOmniSharp_outcome (runtime := quietRuntime) "/w1" ["-s"; "/w1"]
                    "/opt/omnisharp/OmniSharp.exe" (mkPlatformInformation false)
                    (mkOptions false false false) resolved resolved
                    Callback started
                    [otherEvent "message"; errorEvent (Error "EPIPE")]
                    (or_intror (or_introl eq_refl)))).
    split; [vm_compute; reflexivity | reflexivity].
  - apply (proj1 (proj2 (launchOmniSharp_outcome (runtime := quietRuntime)
                    "/w1" ["-s"; "/w1"]
                    "/opt/omnisharp/OmniSharp.exe" (mkPlatformInformation false)
                    (mkOptions false false false) resolved resolved
                    Callback (notStarted (Error "ENOENT")) []
                    (or_intror (or_introl eq_refl))))).
    right. split; [eexists; vm_compute|]; reflexivity.
  - apply (proj1 (proj2 (launchOmniSharp_outcome (runtime := quietRuntime)
                    "/w1" ["-s"; "/w1"]
                    "/opt/omnisharp/OmniSharp.exe" (mkPlatformInformation false)
                    (mkOptions false false false) unresolved resolved
                    Callback started []
                    (or_intror (or_introl eq_refl))))).
    left. reflexivity.
Defined.

(** C6 fails on the Windows strategy.  [launchWindows] spawns in the turn
    of the caller; for a caller that runs in a callback the process
    reports ['spawn'] before the two listeners are registered.  The
    promise then stays pending, though the process started, and a later
    ['error'] rejects it.  The same call from a promise job, and the same
    call on the mono strategy, which awaits its resolver before it spawns,
    are fulfilled. *)
Theorem launchOmniSharp_misses_spawn :
  launchOmniSharp "C:/w1" ["-s"; "C:/w1"] "C:/omnisharp/OmniSharp.exe"
    (mkPlatformInformation true) (mkOptions false false false) resolved resolved
    Callback started []
  = Pending
  /\ launchOmniSharp "C:/w1" ["-s"; "C:/w1"] "C:/omnisharp/OmniSharp.exe"
       (mkPlatformInformation true) (mkOptions false false false) resolved resolved
       Callback started [otherEvent "exit"; errorEvent (Error "kill EPERM")]
     = Rejected (Error "kill EPERM")
  /\ (exists result,
        launchOmniSharp "C:/w1" ["-s"; "C:/w1"] "C:/omnisharp/OmniSharp.exe"
          (mkPlatformInformation true) (mkOptions false false false) resolved resolved
          PromiseJob started []
        = Fulfilled result)
  /\ (exists result,
        launchOmniSharp "C:/w1" ["-s"; "C:/w1"] "C:/omnisharp/OmniSharp.exe"
          (mkPlatformInformation false) (mkOptions false false false) resolved resolved
          Callback started []
        = Fulfilled result).
Proof.
  split; [vm_compute; reflexivity|].
  split; [vm_compute; reflexivity|].
  split; eexists; vm_compute; reflexivity.
Qed.

(** *** What the folders add *)

Lemma classifier_collects_witness :
  solutionTargets sortExampleTargets
  = [solutionTarget (Posix.file "/w1/z/Z.sln"); solutionTarget (Posix.file "/w1/a/A.sln")]
  /\ projectJsonTargets sortExampleTargets = []
  /\ projectTargets sortExampleTargets = [projectTarget (Posix.file "/w2/q/Q.csproj")].
Proof.
  apply (classifier_collects twoFolders sortExampleMap sortExampleTargets).
  vm_compute. reflexivity.
Defined.

Lemma folder_step_witness :
  exists ts',
    processFolders twoFolders (firstFolderMap ++ [(1, [Posix.file "/w2/build.csx"])])
      noTargets = inr ts'
    /\ FolderStep (resourcesOf firstFolderMap) "/w2" [Posix.file "/w2/build.csx"]
         firstFolderTargets ts'
    /\ (firstFolderMap = [] ->
        projectRootTargets ts'
        = optional (rootFolderRule_spec "/w2" [Posix.file "/w2/build.csx"])
            (rootTarget "/w2")
        /\ otherTargets ts'
           = optional (existsb isCsx [Posix.file "/w2/build.csx"]) (csxTarget "/w2")
             ++ optional (existsb isCake [Posix.file "/w2/build.csx"]) (cakeTarget "/w2")
             ++ optional (looseFilesRule_spec "/w2" [Posix.file "/w2/build.csx"])
                  (looseFolderTarget "/w2")).
Proof.
  apply (folder_step twoFolders firstFolderMap 1 [Posix.file "/w2/build.csx"]
           (Posix.folder 1 "/w2") firstFolderTargets).
  - vm_compute. reflexivity.
  - reflexivity.
Defined.

Lemma twoFolders_indices (r : Uri) (f : WorkspaceFolder) :
  getWorkspaceFolder r = Some f -> index f < List.length twoFolders.
Proof.
  unfold getWorkspaceFolder, twoFoldersHost, Posix.host, Posix.folderOf.
  intros H. apply find_some in H.
  destruct H as [[<- | [<- | []]] _]; simpl; lia.
Qed.

Lemma resourcesToLaunchTargets_returns_witness :
  exists out, resourcesToLaunchTargets mixedResources twoFolders 2 = inr out.
Proof.
  apply (resourcesToLaunchTargets_returns mixedResources twoFolders 2).
  exact twoFolders_indices.
Defined.

(** *** The classifier, further *)

Lemma resourcesToLaunchTargets_ignores_witness :
  resourcesToLaunchTargets strayResources twoFolders 0
  = resourcesToLaunchTargets mixedResources twoFolders 0.
Proof.
  exact (proj1 (resourcesToLaunchTargets_ignores strayResources twoFolders 0 eq_refl)).
Defined.

Lemma classifier_directories_witness :
  Forall (fun t =>
            match workspaceKind t with
            | LiveShare => t = vslsTarget
            | Solution | Project | ProjectJson => FileOf mixedResources t
            | Folder | Csx | Cake => FolderOf twoFolders mixedResources t
            end) mixedTargets.
Proof.
  apply (classifier_directories mixedResources twoFolders 0 mixedTargets).
  vm_compute. reflexivity.
Defined.

Lemma script_targets_witness :
  countKind Csx scriptTargets = 2 /\ countKind Cake scriptTargets = 1.
Proof.
  refine (script_targets scriptResources twoFolders 0 scriptTargets _ _).
  - lia.
  - vm_compute. reflexivity.
Defined.

Lemma sort_keeps_discovery_order_witness :
  filter (fun t => String.eqb (directory t) "/w1/p")
    (sort compareDirectory sameDirectoryBucket)
  = [projectTarget (Posix.file "/w1/p/B.csproj");
     projectTarget (Posix.file "/w1/p/A.csproj")].
Proof.
  exact (proj2 (sort_keeps_discovery_order (host := twoFoldersHost)
                  compareCodeUnits_total compareCodeUnits_trans
                  sameDirectoryBucket) "/w1/p").
Defined.

(** *** The launcher, further *)

Lemma launch_host_witness :
  (exists result,
     launch "/w1" ["-s"; "/w1"] "/opt/omnisharp/OmniSharp.exe"
       (mkPlatformInformation false) (mkOptions false false false) resolved unresolved
     = inr result
     /\ command result = "/opt/omnisharp/OmniSharp.exe"
     /\ hostIsMono result = true)
  /\ launch "/w1" ["-s"; "/w1"] "/opt/omnisharp/OmniSharp.dll"
       (mkPlatformInformation true) (mkOptions false true false) unresolved resolved
     = launch "/w1" ["-s"; "/w1"] "/opt/omnisharp/OmniSharp.dll"
         (mkPlatformInformation true) (mkOptions false true false) resolved resolved.
Proof.
  split.
  - eexists. split; [vm_compute; reflexivity|].
    match goal with
    | |- command ?r = _ /\ _ =>
        destruct (proj1 (launch_host (runtime := quietRuntime) "/w1" ["-s"; "/w1"]
                           "/opt/omnisharp/OmniSharp.exe"
                           (mkPlatformInformation false) (mkOptions false false false)
                           resolved unresolved) r ltac:(vm_compute; reflexivity))
          as (Hc & Hm & _)
    end.
    split; [exact Hc | exact Hm].
  - exact (proj1 (proj2 (launch_host (runtime := quietRuntime) "/w1" ["-s"; "/w1"]
                           "/opt/omnisharp/OmniSharp.dll"
                           (mkPlatformInformation true) (mkOptions false true false)
                           resolved resolved)) eq_refl unresolved).
Defined.

Lemma launch_arguments_witness :
  exists result,
    launch (runtime := configuredRuntime) "/w1" ["-s"; "/w1"]
      "/opt/omnisharp/OmniSharp.exe" (mkPlatformInformation false)
      (mkOptions true false true) resolved unresolved
    = inr result
    /\ spawn_args (process result)
       = [debuggerAgent; "--debug"; "--assembly-loader=strict";
          "/opt/omnisharp/OmniSharp.exe"; "-s"; "/w1";
          "formattingOptions:useTabs=true"; "formattingOptions:tabSize=2";
          "formattingOptions:indentationSize=2"].
Proof.
  eexists. split; [vm_compute; reflexivity|].
  match goal with
  | |- spawn_args (process ?r) = _ =>
      destruct (launch_arguments (runtime := configuredRuntime) "/w1" ["-s"; "/w1"]
                  "/opt/omnisharp/OmniSharp.exe" (mkPlatformInformation false)
                  (mkOptions true false true) resolved unresolved r
                  ltac:(vm_compute; reflexivity))
        as (formatting & Ea & _ & Ef)
  end.
  rewrite Ea, (Ef eq_refl). reflexivity.
Defined.

(** *** The fix-all menu and the workspace tests *)

Lemma fixAllMenu_picks_item_witness :
  exists rest,
    fst (FixAll.fixAllMenu (editor := exampleEditor) FixAll.Document)
    = FixAll.AskFixAll (FixAll.mkGetFixAllRequest "/w1/Program.cs" FixAll.Document)
        :: FixAll.AskQuickPick (FixAll.menuOf FixAll.Document exampleItems)
        :: FixAll.RunFixAll
             (FixAll.mkRunFixAllRequest "/w1/Program.cs" FixAll.Document
                (Some [FixAll.mkFixAllItem "CS8019" (Some " Unnecessary using directive")])
                true true false)
        :: rest
    /\ forall r, ~ In (FixAll.RunFixAll r) rest.
Proof.
  exact (proj1 (fixAllMenu_picks_item (editor := exampleEditor) FixAll.Document
                  "/w1/Program.cs" exampleItems
                  (FixAll.mkFixAllItem "CS8019"
                     (Some "Unnecessary using directive: remove it"))
                  "Unnecessary using directive: remove it"
                  eq_refl eq_refl eq_refl eq_refl eq_refl)).
Defined.

Lemma isGivenSln_last_segment_witness :
  IntegrationHelpers.isRazorWorkspace (workspace := razorWorkspace) = inr true.
Proof.
  apply (proj2 (proj1 (isGivenSln_last_segment (workspace := razorWorkspace)
                         "BasicRazorApp2_1" eq_refl))).
  eexists _, _. split; [reflexivity|]. right.
  exists "/test/integrationTests/testAssets". reflexivity.
Defined.
